(** * diskover_dupes: a shallow embedding of the duplicate finder

    The development follows [diskover_dupes.py] function by function:
    - [index_dupes]: the bulk partial update that tags duplicates;
    - [md5_hasher]: the worker that streams a file into an MD5 hasher;
    - [verify_dupes]: head/tail sampling, bucketing and MD5 confirmation;
    - [dupes_finder]: the index scan, the grouping by [filehash] and the
      batched enqueue of hash groups.

    Python values are modelled as follows.  A [dict] whose iteration order
    is observable ([dups], [dups_md5], [filehashes]) is an association list
    in insertion order (the order of CPython 3.7 and later); the file system
    is a finite map from paths to files.  Python integers are [Z], [bytes]
    are [list byte], [str] is [string].  An exception is an explicit result
    ([Raise]); a [get()] on a queue that can never be filled is the outcome
    [Blocked].  The interpreter modelled is 64-bit CPython 3, where
    [IOError] is an alias of [OSError], a length or an offset is a signed
    64-bit integer, and a [bytes] object is allocated before it is
    filled. *)

From Stdlib Require Import ZArith Lia Permutation.
From Stdlib.Strings Require Import Ascii String Byte.
From stdpp Require Import base option list strings functions gmap sorting.

Open Scope Z_scope.

(** ** Library functions the module calls *)

(** [hashlib.md5]: RFC 1321 over [Z] words with the 32-bit wrap-around
    written out.  The proofs below never look inside it. *)
Module MD5.

Definition wrap32 (x : Z) : Z := x mod 2 ^ 32.

Definition rotl32 (x c : Z) : Z :=
  Z.lor (wrap32 (Z.shiftl x c)) (Z.shiftr x (32 - c)).

Definition not32 (x : Z) : Z := Z.lxor x (2 ^ 32 - 1).

(** floor (2^32 * |sin (i + 1)|) for i = 0 .. 63. *)
Definition sines : list Z :=
  [ 3614090360; 3905402710; 606105819; 3250441966;
    4118548399; 1200080426; 2821735955; 4249261313;
    1770035416; 2336552879; 4294925233; 2304563134;
    1804603682; 4254626195; 2792965006; 1236535329;
    4129170786; 3225465664; 643717713; 3921069994;
    3593408605; 38016083; 3634488961; 3889429448;
    568446438; 3275163606; 4107603335; 1163531501;
    2850285829; 4243563512; 1735328473; 2368359562;
    4294588738; 2272392833; 1839030562; 4259657740;
    2763975236; 1272893353; 4139469664; 3200236656;
    681279174; 3936430074; 3572445317; 76029189;
    3654602809; 3873151461; 530742520; 3299628645;
    4096336452; 1126891415; 2878612391; 4237533241;
    1700485571; 2399980690; 4293915773; 2240044497;
    1873313359; 4264355552; 2734768916; 1309151649;
    4149444226; 3174756917; 718787259; 3951481745 ].

Definition shifts (i : nat) : Z :=
  nth (4 * (i / 16) + i mod 4)
      [ 7; 12; 17; 22;  5; 9; 14; 20;  4; 11; 16; 23;  6; 10; 15; 21 ] 0.

Record state := State { sa : Z; sb : Z; sc : Z; sd : Z }.

Definition init : state :=
  State 1732584193 4023233417 2562383102 271733878.

Definition mix (i : nat) (b c d : Z) : Z :=
  match (i / 16)%nat with
  | O => Z.lor (Z.land b c) (Z.land (not32 b) d)
  | 1%nat => Z.lor (Z.land d b) (Z.land (not32 d) c)
  | 2%nat => Z.lxor b (Z.lxor c d)
  | _ => Z.lxor c (Z.lor b (not32 d))
  end.

Definition word_index (i : nat) : nat :=
  match (i / 16)%nat with
  | O => i
  | 1%nat => (5 * i + 1) mod 16
  | 2%nat => (3 * i + 5) mod 16
  | _ => (7 * i) mod 16
  end.

Definition step (m : list Z) (s : state) (i : nat) : state :=
  let f := wrap32 (mix i (sb s) (sc s) (sd s) + sa s
                   + nth i sines 0 + nth (word_index i) m 0) in
  State (sd s) (wrap32 (sb s + rotl32 f (shifts i))) (sb s) (sc s).

Definition compress (s : state) (m : list Z) : state :=
  let r := fold_left (step m) (seq 0 64) s in
  State (wrap32 (sa s + sa r)) (wrap32 (sb s + sb r))
        (wrap32 (sc s + sc r)) (wrap32 (sd s + sd r)).

(** Little-endian 32-bit words of a byte sequence (a multiple of 4 long). *)
Fixpoint words (l : list Z) : list Z :=
  match l with
  | b0 :: b1 :: b2 :: b3 :: r =>
      (b0 + 2 ^ 8 * b1 + 2 ^ 16 * b2 + 2 ^ 24 * b3) :: words r
  | _ => []
  end.

Definition le_bytes (n : nat) (x : Z) : list Z :=
  map (fun k => Z.shiftr x (8 * Z.of_nat k) mod 256) (seq 0 n).

Definition pad (msg : list Z) : list Z :=
  let n := length msg in
  let zeros := ((64 + 55 - n mod 64) mod 64)%nat in
  msg ++ 128 :: repeat 0 zeros ++ le_bytes 8 (8 * Z.of_nat n).

Fixpoint blocks (fuel : nat) (ws : list Z) (s : state) : state :=
  match fuel, ws with
  | S fuel, _ :: _ => blocks fuel (skipn 16 ws) (compress s (firstn 16 ws))
  | _, _ => s
  end.

Definition hex_digit (x : Z) : ascii :=
  nth (Z.to_nat x)
      [ "0"; "1"; "2"; "3"; "4"; "5"; "6"; "7";
        "8"; "9"; "a"; "b"; "c"; "d"; "e"; "f" ]%char "0"%char.

Definition hex_byte (x : Z) : string :=
  String (hex_digit (x / 16)) (String (hex_digit (x mod 16)) EmptyString).

Definition digest (msg : list Z) : list Z :=
  let ws := words (pad msg) in
  let s := blocks (length ws) ws init in
  le_bytes 4 (sa s) ++ le_bytes 4 (sb s) ++ le_bytes 4 (sc s) ++ le_bytes 4 (sd s).

Definition hexdigest (msg : list byte) : string :=
  String.concat "" (map hex_byte (digest (map (fun b => Z.of_N (Byte.to_N b)) msg))).

End MD5.

(** [base64.b64encode], standard alphabet with [=] padding. *)
Module Base64.

Definition alphabet : list byte :=
  list_byte_of_string
    "ABCDEFGHIJKLMNOPQRSTUVWXYZabcdefghijklmnopqrstuvwxyz0123456789+/".

Definition sextet (x : N) : byte := nth (N.to_nat x) alphabet "="%byte.

Fixpoint b64encode (l : list byte) : list byte :=
  match l with
  | [] => []
  | [a] =>
      let n := (Byte.to_N a * 65536)%N in
      [ sextet (n / 262144); sextet (n / 4096 mod 64); "="%byte; "="%byte ]
  | [a; b] =>
      let n := (Byte.to_N a * 65536 + Byte.to_N b * 256)%N in
      [ sextet (n / 262144); sextet (n / 4096 mod 64);
        sextet (n / 64 mod 64); "="%byte ]
  | a :: b :: c :: r =>
      let n := (Byte.to_N a * 65536 + Byte.to_N b * 256 + Byte.to_N c)%N in
      sextet (n / 262144) :: sextet (n / 4096 mod 64)
        :: sextet (n / 64 mod 64) :: sextet (n mod 64) :: b64encode r
  end.

End Base64.

(** [str(b)] for a [bytes] value [b] in Python 3: the literal form
    [b'...'].  It is applied to base64 output only, whose characters are
    printed as they are. *)
Definition py_str_bytes (b : list byte) : string :=
  "b'" +:+ string_of_list_byte b +:+ "'".

(** [s.encode('utf-8')] on the ASCII strings built above. *)
Definition encode_utf8 (s : string) : list byte := list_byte_of_string s.

(** ** Python results and the data model *)

(** The exception classes the handlers of the module tell apart:
    [OSError] (with its alias [IOError]) against every other [Exception]. *)
Inductive PyExn := OSError | ValueError | OverflowError | MemoryError.

Inductive Res (A : Type) :=
| Ok (a : A)
| Raise (e : PyExn).
Arguments Ok {A} a.
Arguments Raise {A} e.

(** How a call ends: it returns, an exception leaves it, or it waits for
    ever on a queue. *)
Inductive Outcome (A : Type) :=
| Returned (a : A)
| Raised (e : PyExn)
| Blocked.
Arguments Returned {A} a.
Arguments Raised {A} e.
Arguments Blocked {A}.

(** What a call leaves behind besides its result. *)
Inductive Event :=
| WarnOS (e : PyExn)      (* warnings.warn("OS/IO Exception caused by: %s" % e) *)
| WarnExc (e : PyExn)     (* warnings.warn("Exception caused by: %s" % e) *)
| Utime (path : string) (atime_unix mtime_unix : Z).  (* os.utime went through *)

(** One file of a hash group: the dict built by [dupes_finder]. *)
Record FileRecord := {
  file_id : string;      (* 'id' *)
  filename : string;
  atime : string;
  mtime : string;
  md5 : string
}.

(** [{'filehash': key, 'files': value}]. *)
Record HashGroup := {
  filehash : string;
  files : list FileRecord
}.

Definition set_md5 (key : string) (f : FileRecord) : FileRecord :=
  {| file_id := file_id f; filename := filename f;
     atime := atime f; mtime := mtime f; md5 := key |}.

(** The entries of [config] the module reads. *)
Record Config := {
  dupes_threads : Z;
  md5_readsize : Z;
  dupes_restoretimes : string;
  dupes_checkbytes : Z;
  dupes_maxsize : Z;
  es_scrollsize : Z;
  es_timeout : Z;
  redis_ttl : Z
}.

(** The entries of [cliargs] the module reads. *)
Record Cliargs := {
  index : string;
  inchardlinks : bool;
  minsize : Z;
  adaptivebatch : bool;
  batchsize : Z;
  verbose : bool;
  debug : bool;
  quiet : bool
}.

(** ** Dictionaries in insertion order *)

Section dict.
Context {V : Type}.

(** [key in d] *)
Definition dict_has (key : string) (d : list (string * V)) : bool :=
  bool_decide (key ∈ d.*1).

(** [d[key]], [None] for a missing key *)
Fixpoint dict_get (key : string) (d : list (string * V)) : option V :=
  match d with
  | [] => None
  | (k, v) :: d => if String.eqb k key then Some v else dict_get key d
  end.

(** [del d[key]] *)
Definition dict_del (key : string) (d : list (string * V)) : list (string * V) :=
  filter (λ kv, kv.1 ≠ key) d.

Definition dict_alter (f : V → V) (key : string) (d : list (string * V))
  : list (string * V) :=
  map (λ kv, if decide (kv.1 = key) then (kv.1, f kv.2) else kv) d.
End dict.

(** [if key in d: d[key].append(x)  else: d[key] = [x]] *)
Definition dict_append {A : Type} (key : string) (x : A)
    (d : list (string * list A)) : list (string * list A) :=
  if dict_has key d then dict_alter (λ v, v ++ [x]) key d
  else d ++ [(key, [x])].

(** ** The operating system seen by the module *)

(** A file: its content, the offsets at which a read fails (a read that
    would return a byte at one of them raises [OSError]), and what
    [os.utime] on it raises, if anything. *)
Record File := {
  data : list byte;
  bad_offsets : list nat;
  utime_err : option PyExn
}.

(** The world of one [verify_dupes] call.  A path that is not in [fs]
    cannot be opened.  [mktime_strptime s] is
    [time.mktime(time.strptime(s, '%Y-%m-%dT%H:%M:%S'))], [None] when the
    string does not match the format ([ValueError]).  [pool_order] is the
    order in which the worker threads happen to put their results on
    [file_out_thread_q].  [event_rank evs i] is the moment at which the
    [i]-th of the events [evs] of the worker turns on one bucket happens:
    the turns run side by side, so their warnings and [os.utime] calls come
    in the order of the schedule, not in the order of submission, and not
    in the order of the results either.  [max_alloc] is the size of the
    largest [bytes] object the process can allocate, one byte at least. *)
Record World := {
  fs : gmap string File;
  mktime_strptime : string → option Z;
  pool_order : list (string * string) → list (string * string);
  event_rank : list Event → nat → nat;
  max_alloc : positive
}.

(** The threads only reorder results. *)
Definition fair_pool (w : World) : Prop :=
  ∀ l, pool_order w l ≡ₚ l.

(** An open binary file object, with what the process that holds it can
    allocate. *)
Record Handle := {
  h_file : File;
  h_pos : nat;
  h_alloc : positive
}.

(** [open(name, 'rb')] *)
Definition py_open (w : World) (name : string) : Res Handle :=
  match fs w !! name with
  | Some f => Ok {| h_file := f; h_pos := 0; h_alloc := max_alloc w |}
  | None => Raise OSError
  end.

(** The largest length of a [bytes] object: [PY_SSIZE_T_MAX] less the 33
    bytes of the object header. *)
Definition bytes_max : Z := 2 ^ 63 - 34.

(** What [f.read(n)] raises before it touches the file: a length that is
    no [Py_ssize_t] is an [OverflowError], a length below [-1] a
    [ValueError]; for a length [n >= 0] the result object of [n] bytes is
    allocated first, which is an [OverflowError] above [bytes_max] and a
    [MemoryError] when the process cannot allocate that much. *)
Definition read_refused (alloc : positive) (n : Z) : option PyExn :=
  if n <? - 2 ^ 63 then Some OverflowError
  else if n <? -1 then Some ValueError
  else if bytes_max <? n then Some OverflowError
  else if Z.pos alloc <? n then Some MemoryError
  else None.

(** [f.read(n)]: up to [n] bytes from the position, all of the rest for
    [n = -1].  A read of the whole rest allocates as it goes; the files
    are taken to fit in memory. *)
Definition f_read (f : Handle) (n : Z) : Res (list byte * Handle) :=
  match read_refused (h_alloc f) n with
  | Some e => Raise e
  | None =>
      let rest := drop (h_pos f) (data (h_file f)) in
      let buf := if n =? -1 then rest else take (Z.to_nat n) rest in
      if existsb (λ o, (h_pos f <=? o)%nat && (o <? h_pos f + length buf)%nat)
                 (bad_offsets (h_file f))
      then Raise OSError
      else Ok (buf, {| h_file := h_file f; h_pos := h_pos f + length buf;
                       h_alloc := h_alloc f |})
  end.

(** [f.seek(offset, os.SEEK_END)]: an offset that is no 64-bit integer is
    a [ValueError]; a position before the start of the file is refused by
    the operating system.  [verify_dupes] seeks to offsets of 1 at most
    and a file is shorter than 2^63 - 1 bytes, so no position is too
    large. *)
Definition f_seek_end (f : Handle) (offset : Z) : Res Handle :=
  if (offset <? - 2 ^ 63) || (2 ^ 63 - 1 <? offset) then Raise ValueError
  else
    let p := Z.of_nat (length (data (h_file f))) + offset in
    if p <? 0 then Raise OSError
    else Ok {| h_file := h_file f; h_pos := Z.to_nat p; h_alloc := h_alloc f |}.

(** [os.utime(name, (atime_unix, mtime_unix))] *)
Definition os_utime (w : World) (name : string) : Res unit :=
  match fs w !! name with
  | Some f => match utime_err f with Some e => Raise e | None => Ok tt end
  | None => Raise OSError
  end.

(** ** Restoring the recorded times

    The block that follows the reads in both [verify_dupes] and
    [md5_hasher]: the two recorded times are parsed first, outside the
    [try]; only [os.utime] is guarded. *)
Definition restore_times (w : World) (cfg : Config) (name atime mtime : string)
    : Res unit * list Event :=
  if decide (dupes_restoretimes cfg = "true") then
    match mktime_strptime w atime with
    | None => (Raise ValueError, [])
    | Some atime_unix =>
        match mktime_strptime w mtime with
        | None => (Raise ValueError, [])
        | Some mtime_unix =>
            match os_utime w name with
            | Ok _ => (Ok tt, [Utime name atime_unix mtime_unix])
            | Raise OSError => (Ok tt, [WarnOS OSError])
            | Raise e => (Ok tt, [WarnExc e])
            end
        end
    end
  else (Ok tt, []).

(** ** md5_hasher *)

(** [while len(buf) > 0: hasher.update(buf); buf = f.read(read_size)].
    The hasher is the bytes it was fed so far.  [None]: the loop is still
    running after [fuel] turns. *)
Fixpoint md5_read_loop (fuel : nat) (f : Handle) (read_size : Z)
    (hasher buf : list byte) : option (Res (list byte)) :=
  match buf with
  | [] => Some (Ok hasher)
  | _ :: _ =>
      match fuel with
      | O => None
      | S fuel =>
          match f_read f read_size with
          | Ok (buf', f') => md5_read_loop fuel f' read_size (hasher ++ buf) buf'
          | Raise e => Some (Raise e)
          end
      end
  end.

(** The [with open(filename, 'rb') as f] block and [hasher.hexdigest()]. *)
Definition md5_of_file (w : World) (cfg : Config) (name : string)
    : option (Res string) :=
  let read_size := md5_readsize cfg in
  match py_open w name with
  | Raise e => Some (Raise e)
  | Ok f =>
      match f_read f read_size with
      | Raise e => Some (Raise e)
      | Ok (buf, f') =>
          match md5_read_loop (S (length (data (h_file f)))) f' read_size [] buf with
          | Some (Ok hasher) => Some (Ok (MD5.hexdigest hasher))
          | Some (Raise e) => Some (Raise e)
          | None => None
          end
      end
  end.

(** What a worker took from [file_in_thread_q]. *)
Definition Item : Type := string * string * string * Cliargs.

(** One turn of the worker's [while True] on [item]: [Returned (Some r)]
    when it put [r] on [file_out_thread_q], [Returned None] when it warned
    and dropped the item, [Blocked] when the turn never ends.  Either of
    the two outer handlers warns and moves on to the next item. *)
Definition md5_hasher (w : World) (cfg : Config) (item : Item)
    : Outcome (option (string * string)) * list Event :=
  let '(filename, atime, mtime, cliargs) := item in
  match md5_of_file w cfg filename with
  | None => (Blocked, [])
  | Some (Raise OSError) => (Returned None, [WarnOS OSError])
  | Some (Raise e) => (Returned None, [WarnExc e])
  | Some (Ok md5) =>
      match restore_times w cfg filename atime mtime with
      | (Ok _, ev) => (Returned (Some (filename, md5)), ev)
      | (Raise OSError, ev) => (Returned None, ev ++ [WarnOS OSError])
      | (Raise e, ev) => (Returned None, ev ++ [WarnExc e])
      end
  end.

(** [start_file_threads()]: one daemon thread running [md5_hasher] for
    each [i in range(config['dupes_threads'])]; the number of threads
    started. *)
Definition start_file_threads (cfg : Config) : nat :=
  Z.to_nat (dupes_threads cfg).

(** The items of one bucket, one turn of [md5_hasher] each: what the
    turns put on [file_out_thread_q] and the events they leave, both
    listed in the order of submission; [join_pool] puts them in the order
    of the schedule. *)
Fixpoint pool_results (w : World) (cfg : Config) (items : list Item)
    : Outcome (list (string * string)) * list Event :=
  match items with
  | [] => (Returned [], [])
  | item :: items =>
      match md5_hasher w cfg item with
      | (Returned r, ev) =>
          match pool_results w cfg items with
          | (Returned rs, ev') => (Returned (option_list r ++ rs), ev ++ ev')
          | (o, ev') => (o, ev ++ ev')
          end
      | (Raised e, ev) => (Raised e, ev)
      | (Blocked, ev) => (Blocked, ev)
      end
  end.

(** A list in the order of the moments [rank] gives its positions. *)
Definition earlier {A : Type} (a b : nat * A) : Prop := (a.1 ≤ b.1)%nat.

#[global] Instance earlier_dec {A : Type} : RelDecision (@earlier A) :=
  λ a b, decide (a.1 ≤ b.1)%nat.

Definition by_rank {A : Type} (rank : nat → nat) (l : list A) : list A :=
  (merge_sort earlier (imap (λ i x, (rank i, x)) l)).*2.

(** [file_in_thread_q.join()] after the items of one bucket were put:
    it returns once every item was marked done, and the result is the
    content of [file_out_thread_q] at that moment, in the order the
    threads happened to put it.  Each turn leaves at most one event; the
    events of the turns come in the order of the schedule.  With no thread
    started nothing is ever marked done. *)
Definition join_pool (w : World) (cfg : Config) (items : list Item)
    : Outcome (list (string * string)) * list Event :=
  match items with
  | [] => (Returned [], [])
  | _ :: _ =>
      if (start_file_threads cfg =? 0)%nat then (Blocked, [])
      else
        match pool_results w cfg items with
        | (Returned rs, ev) =>
            (Returned (pool_order w rs), by_rank (event_rank w ev) ev)
        | r => r
        end
  end.

(** ** verify_dupes *)

(** Where the body of the [for file in ...] loop goes next. *)
Inductive Flow (A : Type) :=
| Go (a : A)         (* on to the next statement *)
| Continue           (* [continue]: the file is left out *)
| Throw (e : PyExn). (* an exception no handler of the loop catches *)
Arguments Go {A} a.
Arguments Continue {A}.
Arguments Throw {A} e.

Definition min_read_bytes : Z := 1.

(** The first [try]: [bytes_f = base64.b64encode(f.read(read_bytes))],
    and on [OSError] the same with [min_read_bytes]. *)
Definition sample_head (read_bytes : Z) (f : Handle)
    : Flow (list byte * Handle) * list Event :=
  match f_read f read_bytes with
  | Ok (buf, f') => (Go (Base64.b64encode buf, f'), [])
  | Raise OSError =>
      match f_read f min_read_bytes with
      | Ok (buf, f') => (Go (Base64.b64encode buf, f'), [])
      | Raise e => (Continue, [WarnExc e])
      end
  | Raise e => (Throw e, [])
  end.

(** [f.seek(-n, os.SEEK_END); base64.b64encode(f.read(n))] *)
Definition seek_read (f : Handle) (n : Z) : Res (list byte) :=
  match f_seek_end f (- n) with
  | Raise e => Raise e
  | Ok f' =>
      match f_read f' n with
      | Raise e => Raise e
      | Ok (buf, _) => Ok (Base64.b64encode buf)
      end
  end.

(** The second [try]: the last [read_bytes] bytes, and on [OSError] the
    last [min_read_bytes]. *)
Definition sample_tail (read_bytes : Z) (f : Handle)
    : Flow (list byte) * list Event :=
  match seek_read f read_bytes with
  | Ok bytes_l => (Go bytes_l, [])
  | Raise OSError =>
      match seek_read f min_read_bytes with
      | Ok bytes_l => (Go bytes_l, [])
      | Raise e => (Continue, [WarnExc e])
      end
  | Raise e => (Throw e, [])
  end.

(** [hashlib.md5((str(bytes_f) + str(bytes_l)).encode('utf-8')).hexdigest()] *)
Definition bytehash_of (bytes_f bytes_l : list byte) : string :=
  MD5.hexdigest (encode_utf8 (py_str_bytes bytes_f +:+ py_str_bytes bytes_l)).

(** The body of the sampling loop for one file, up to [bytehash]. *)
Definition sample_file (w : World) (cfg : Config) (file : FileRecord)
    : Flow string * list Event :=
  let read_bytes := dupes_checkbytes cfg in
  match py_open w (filename file) with
  | Raise OSError => (Continue, [WarnOS OSError])
  | Raise e => (Continue, [WarnExc e])
  | Ok f =>
      match sample_head read_bytes f with
      | (Continue, ev) => (Continue, ev)
      | (Throw e, ev) => (Throw e, ev)
      | (Go (bytes_f, f), ev) =>
          match sample_tail read_bytes f with
          | (Continue, ev') => (Continue, ev ++ ev')
          | (Throw e, ev') => (Throw e, ev ++ ev')
          | (Go bytes_l, ev') =>
              match restore_times w cfg (filename file) (atime file) (mtime file) with
              | (Raise e, ev'') => (Throw e, ev ++ ev' ++ ev'')
              | (Ok _, ev'') => (Go (bytehash_of bytes_f bytes_l), ev ++ ev' ++ ev'')
              end
          end
      end
  end.

(** An entry of [dups]: [(file['filename'], file['atime'], file['mtime'])]. *)
Definition Entry : Type := string * string * string.

(** The sampling loop: [dups] and [file_count] after it, or the exception
    that left it. *)
Fixpoint sample_files (w : World) (cfg : Config) (fl : list FileRecord)
    (dups : list (string * list Entry)) (file_count : Z)
    : Res (list (string * list Entry) * Z) * list Event :=
  match fl with
  | [] => (Ok (dups, file_count), [])
  | file :: fl =>
      match sample_file w cfg file with
      | (Throw e, ev) => (Raise e, ev)
      | (Continue, ev) =>
          let '(r, ev') := sample_files w cfg fl dups file_count in (r, ev ++ ev')
      | (Go bytehash, ev) =>
          let dups := dict_append bytehash (filename file, atime file, mtime file) dups in
          let '(r, ev') := sample_files w cfg fl dups (file_count + 1) in (r, ev ++ ev')
      end
  end.

(** [for key in [key for key in dups if len(dups[key]) < 2]: del dups[key]] *)
Definition drop_singletons {A : Type} (dups : list (string * list A))
    : list (string * list A) :=
  foldl (λ d key, dict_del key d) dups
        (filter (λ kv, (length kv.2 < 2)%nat) dups).*1.

(** The [while True] that empties [file_out_thread_q] into [dups_md5]:
    [get()] on the empty queue never returns; otherwise every item is
    taken, the loop leaving when [qsize()] is 0. *)
Definition drain (out_q : list (string * string))
    (dups_md5 : list (string * list string))
    : Outcome (list (string * list string)) :=
  match out_q with
  | [] => Blocked
  | _ :: _ =>
      Returned (foldl (λ d item, dict_append item.2 item.1 d) dups_md5 out_q)
  end.

(** [for key, value in dups.items()]: submit, join, drain. *)
Fixpoint hash_buckets (w : World) (cfg : Config) (cliargs : Cliargs)
    (buckets : list (string * list Entry))
    (dups_md5 : list (string * list string))
    : Outcome (list (string * list string)) * list Event :=
  match buckets with
  | [] => (Returned dups_md5, [])
  | (key, value) :: buckets =>
      let items := (λ file : Entry, (file.1.1, file.1.2, file.2, cliargs)) <$> value in
      match join_pool w cfg items with
      | (Returned out_q, ev) =>
          match drain out_q dups_md5 with
          | Returned dups_md5 =>
              let '(r, ev') := hash_buckets w cfg cliargs buckets dups_md5 in
              (r, ev ++ ev')
          | Raised e => (Raised e, ev)
          | Blocked => (Blocked, ev)
          end
      | (Raised e, ev) => (Raised e, ev)
      | (Blocked, ev) => (Blocked, ev)
      end
  end.

(** [for i in range(len(fl)): if fl[i]['filename'] in value: fl[i]['md5'] = key] *)
Definition mark_files (key : string) (value : list string) (fl : list FileRecord)
    : list FileRecord :=
  foldl (λ fl i,
           match fl !! i with
           | Some f =>
               if bool_decide (filename f ∈ value) then <[i := set_md5 key f]> fl
               else fl
           | None => fl
           end)
        fl (seq 0 (length fl)).

(** [for key, value in dups_md5.items(): if len(value) >= 2: ...] *)
Definition update_md5 (dups_md5 : list (string * list string))
    (fl : list FileRecord) : list FileRecord :=
  foldl (λ fl kv, if (2 <=? length kv.2)%nat then mark_files kv.1 kv.2 fl else fl)
        fl dups_md5.

(** [verify_dupes(filehash_filelist, cliargs)]: the value returned
    ([None], or the group as the call left it) and the events in order. *)
Definition verify_dupes (w : World) (cfg : Config)
    (filehash_filelist : HashGroup) (cliargs : Cliargs)
    : Outcome (option HashGroup) * list Event :=
  match sample_files w cfg (files filehash_filelist) [] 0 with
  | (Raise e, ev) => (Raised e, ev)
  | (Ok (dups, file_count), ev) =>
      if file_count =? 0 then (Returned None, ev)
      else
        let dups := drop_singletons dups in
        match dups with
        | [] => (Returned None, ev)
        | _ :: _ =>
            match hash_buckets w cfg cliargs dups [] with
            | (Raised e, ev') => (Raised e, ev ++ ev')
            | (Blocked, ev') => (Blocked, ev ++ ev')
            | (Returned dups_md5, ev') =>
                match dups_md5 with
                | [] => (Returned None, ev ++ ev')
                | _ :: _ =>
                    (Returned (Some {| filehash := filehash filehash_filelist;
                                       files := update_md5 dups_md5 (files filehash_filelist) |}),
                     ev ++ ev')
                end
            end
        end
  end.

(** The caller holds a reference to the group; [verify_dupes] writes the
    [md5] keys into that object and returns the reference it was given, or
    [None].  [heap] maps references to the state of the group they point
    to. *)
Definition verify_dupes_ref (w : World) (cfg : Config)
    (heap : nat → HashGroup) (filehash_filelist : nat) (cliargs : Cliargs)
    : Outcome (option nat) * (nat → HashGroup) * list Event :=
  match verify_dupes w cfg (heap filehash_filelist) cliargs with
  | (Returned (Some g), ev) =>
      (Returned (Some filehash_filelist), <[filehash_filelist := g]> heap, ev)
  | (Returned None, ev) => (Returned None, heap, ev)
  | (Raised e, ev) => (Raised e, heap, ev)
  | (Blocked, ev) => (Blocked, heap, ev)
  end.

(** ** JSON bodies sent to Elasticsearch *)

#[local] Unset Elimination Schemes.
Inductive Json :=
| JInt (z : Z)
| JStr (s : string)
| JList (l : list Json)
| JDict (kvs : list (string * Json)).
#[local] Set Elimination Schemes.

(** [d[key]], [None] when the key is missing or [d] is no dict. *)
Definition json_get (key : string) (d : Json) : option Json :=
  match d with
  | JDict kvs => dict_get key kvs
  | _ => None
  end.

(** Every key that occurs anywhere in a body. *)
Fixpoint json_keys (j : Json) : list string :=
  match j with
  | JInt _ | JStr _ => []
  | JList l => flat_map json_keys l
  | JDict kvs => flat_map (λ kv, kv.1 :: json_keys kv.2) kvs
  end.

(** ** index_dupes *)

(** The [for f in hashgroup['files']] loop: one update action per file. *)
Definition file_id_list (hashgroup : HashGroup) (cliargs : Cliargs) : list Json :=
  foldl (λ l f,
           l ++ [ JDict [ ("_op_type", JStr "update");
                          ("_index", JStr (index cliargs));
                          ("_type", JStr "file");
                          ("_id", JStr (file_id f));
                          ("doc", JDict [ ("dupe_md5", JStr (md5 f)) ]) ] ])
        [] (files hashgroup).

(** [index_dupes(hashgroup, cliargs)]; [bulk] is the list of action lists
    [index_bulk_add] was called with so far. *)
Definition index_dupes (hashgroup : HashGroup) (cliargs : Cliargs)
    (bulk : list (list Json)) : list (list Json) :=
  let l := file_id_list hashgroup cliargs in
  if (0 <? length l)%nat then bulk ++ [l] else bulk.

(** ** dupes_finder *)

(** A hit of the scroll: [hit['_id']] and the requested [_source] fields. *)
Record Hit := {
  hit_id : string;
  src_filename : string;
  src_filehash : string;
  src_path_parent : string;
  src_last_modified : string;
  src_last_access : string
}.

(** The body of the search, for either value of [cliargs['inchardlinks']]. *)
Definition dupes_query (cfg : Config) (cliargs : Cliargs) : Json :=
  if inchardlinks cliargs then
    JDict [
      ("size", JInt 0);
      ("_source", JList [ JStr "filename"; JStr "filehash"; JStr "path_parent";
                          JStr "last_modified"; JStr "last_access" ]);
      ("query", JDict [
        ("bool", JDict [
          ("must", JDict [
            ("range", JDict [
              ("filesize", JDict [
                ("lte", JInt (dupes_maxsize cfg));
                ("gte", JInt (minsize cliargs)) ]) ]) ]) ]) ]) ]
  else
    JDict [
      ("size", JInt 0);
      ("_source", JList [ JStr "filename"; JStr "filehash"; JStr "path_parent";
                          JStr "last_modified"; JStr "last_access" ]);
      ("query", JDict [
        ("bool", JDict [
          ("must", JDict [
            ("term", JDict [ ("hardlinks", JInt 1) ]) ]);
          ("filter", JDict [
            ("range", JDict [
              ("filesize", JDict [
                ("lte", JInt (dupes_maxsize cfg));
                ("gte", JInt (minsize cliargs)) ]) ]) ]) ]) ]) ].

(** Elasticsearch's reading of such a body, for the clauses the two
    shapes use.  A document is seen through its numeric fields.
    [range] with [lte]/[gte] bounds and [term] are leaf clauses; a [bool]
    query selects the documents that match its [must] clause and its
    [filter] clause, each when present. *)
Definition es_bound (doc : string → option Z) (field : string)
    (bound : string * Json) : bool :=
  match doc field, bound with
  | Some x, ("lte", JInt b) => x <=? b
  | Some x, ("gte", JInt b) => b <=? x
  | _, _ => false
  end.

Definition es_leaf (doc : string → option Z) (clause : Json) : bool :=
  match clause with
  | JDict [ ("range", JDict [ (field, JDict bounds) ]) ] =>
      forallb (es_bound doc field) bounds
  | JDict [ ("term", JDict [ (field, JInt v) ]) ] =>
      match doc field with Some x => x =? v | None => false end
  | _ => false
  end.

Definition es_selects (body : Json) (doc : string → option Z) : bool :=
  match json_get "query" body ≫= json_get "bool" with
  | Some b =>
      from_option (es_leaf doc) true (json_get "must" b)
      && from_option (es_leaf doc) true (json_get "filter" b)
  | None => false
  end.

(** [os.path.join(a, b)] on POSIX for two components. *)
Fixpoint ends_with_slash (s : string) : bool :=
  match s with
  | EmptyString => false
  | String c EmptyString => bool_decide (c = "/"%char)
  | String _ s => ends_with_slash s
  end.

Definition os_path_join (a b : string) : string :=
  if String.prefix "/" b then b
  else if bool_decide (a = "") || ends_with_slash a then a +:+ b
  else a +:+ "/" +:+ b.

(** The dict a hit becomes, with its empty ['md5']. *)
Definition record_of_hit (hit : Hit) : FileRecord :=
  {| file_id := hit_id hit;
     filename := os_path_join (src_path_parent hit) (src_filename hit);
     atime := src_last_access hit;
     mtime := src_last_modified hit;
     md5 := "" |}.

(** [for hit in res['hits']['hits']]: both branches of
    [if filehash in filehashes] add the same dict. *)
Definition add_hit (filehashes : list (string * list FileRecord)) (hit : Hit)
    : list (string * list FileRecord) :=
  dict_append (src_filehash hit) (record_of_hit hit) filehashes.

(** The scroll: [pages] are the pages the server hands out, the first by
    [es.search], the next ones by [es.scroll]; after the last one it hands
    out an empty page.  The [while] stops at the first empty page. *)
Fixpoint scroll (pages : list (list Hit))
    (filehashes : list (string * list FileRecord))
    : list (string * list FileRecord) :=
  match pages with
  | [] => filehashes
  | [] :: _ => filehashes
  | page :: pages => scroll pages (foldl add_hit filehashes page)
  end.

(** [for key, value in list(filehashes.items())]: singletons are deleted,
    the sizes of the others are summed. *)
Definition count_possible (filehashes : list (string * list FileRecord))
    : list (string * list FileRecord) * Z :=
  foldl (λ st kv,
           let filehash_filecount := Z.of_nat (length kv.2) in
           if filehash_filecount <? 2 then (dict_del kv.1 st.1, st.2)
           else (st.1, st.2 + filehash_filecount))
        (filehashes, 0) filehashes.

(** A job on the rq queue: [enqueue] serialises its arguments when it is
    called, so a job keeps the groups the list held at that moment. *)
Record Job := {
  job_hashgroups : list HashGroup;
  job_cliargs : Cliargs;
  job_result_ttl : Z
}.

(** The variables of the enqueue loop. *)
Record Batching := {
  cur_n : Z;
  cur_hashgroups : list HashGroup;
  cur_batchsize : Z;
  cur_q : list Job
}.

Section finder.

(** From [diskover]: the first size of an adaptive batch, and the
    controller, which looks at the queue. *)
Variable ab_start : Z.
Variable adaptive_batch : list Job → Cliargs → Z → Z.

Variable cfg : Config.
Variable cliargs : Cliargs.

Definition enqueue (b : list HashGroup) (q : list Job) : list Job :=
  q ++ [ {| job_hashgroups := b; job_cliargs := cliargs;
            job_result_ttl := redis_ttl cfg |} ].

(** The body of [for key, value in filehashes.items()]. *)
Definition enqueue_step (st : Batching) (kv : string * list FileRecord)
    : Batching :=
  let hashgroups := cur_hashgroups st ++ [ {| filehash := kv.1; files := kv.2 |} ] in
  let n := cur_n st + 1 in
  if n >=? cur_batchsize st then
    let q := enqueue hashgroups (cur_q st) in
    {| cur_n := 0; cur_hashgroups := [];
       cur_batchsize :=
         if adaptivebatch cliargs
         then adaptive_batch q cliargs (cur_batchsize st)
         else cur_batchsize st;
       cur_q := q |}
  else
    {| cur_n := n; cur_hashgroups := hashgroups;
       cur_batchsize := cur_batchsize st; cur_q := cur_q st |}.

(** The loop and the [if n > 0] after it. *)
Definition enqueue_all (filehashes : list (string * list FileRecord))
    (q0 : list Job) : list Job :=
  let batchsize := if adaptivebatch cliargs then ab_start else batchsize cliargs in
  let st := foldl enqueue_step
                  {| cur_n := 0; cur_hashgroups := [];
                     cur_batchsize := batchsize; cur_q := q0 |}
                  filehashes in
  if cur_n st >? 0 then enqueue (cur_hashgroups st) (cur_q st) else cur_q st.

(** [dupes_finder(es, q, cliargs, logger)] up to the last [enqueue]:
    the count it logs as found and the queue.  [es] answers a search
    body with the pages of its scroll.  The polling of the workers that
    follows touches neither. *)
Definition dupes_finder (es : Json → list (list Hit)) (q0 : list Job)
    : Z * list Job :=
  let data := dupes_query cfg cliargs in
  let filehashes := scroll (es data) [] in
  let '(filehashes, possibledupescount) := count_possible filehashes in
  if possibledupescount =? 0 then (possibledupescount, q0)
  else (possibledupescount, enqueue_all filehashes q0).

End finder.

(** * The vocabulary of the statements *)

(** The action [index_dupes] builds for one file. *)
Definition update_action (cliargs : Cliargs) (f : FileRecord) : Json :=
  JDict [ ("_op_type", JStr "update");
          ("_index", JStr (index cliargs));
          ("_type", JStr "file");
          ("_id", JStr (file_id f));
          ("doc", JDict [ ("dupe_md5", JStr (md5 f)) ]) ].

Definition with_inchardlinks (b : bool) (c : Cliargs) : Cliargs :=
  {| index := index c; inchardlinks := b; minsize := minsize c;
     adaptivebatch := adaptivebatch c; batchsize := batchsize c;
     verbose := verbose c; debug := debug c; quiet := quiet c |}.

Definition in_size_range (cfg : Config) (cliargs : Cliargs)
    (doc : string → option Z) : Prop :=
  ∃ sz, doc "filesize" = Some sz ∧ minsize cliargs ≤ sz ≤ dupes_maxsize cfg.

(** The hits the scroll loop sees: the pages up to the first empty one. *)
Fixpoint scanned (pages : list (list Hit)) : list Hit :=
  match pages with
  | [] => []
  | [] :: _ => []
  | page :: pages => page ++ scanned pages
  end.

(** The records of the hits whose fingerprint is [k], in scan order. *)
Definition bucket (k : string) (hits : list Hit) : list FileRecord :=
  record_of_hit <$> filter (λ h, src_filehash h = k) hits.

(** The fingerprint groups that are left after the singletons went. *)
Definition survivors (d : list (string * list FileRecord))
    : list (string * list FileRecord) :=
  filter (λ kv, (2 ≤ length kv.2)%nat) d.

Definition files_in (d : list (string * list FileRecord)) : Z :=
  foldr (λ kv s, Z.of_nat (length kv.2) + s) 0 d.

Definition group_of (kv : string * list FileRecord) : HashGroup :=
  {| filehash := kv.1; files := kv.2 |}.

(** The number of files in a list of groups. *)
Definition group_sizes (gs : list HashGroup) : Z :=
  foldr (λ g s, Z.of_nat (length (files g)) + s) 0 gs.

(** What the update loops do to one file: each group of two or more names
    that holds the file's name sets its [md5], a later group after an
    earlier one. *)
Definition mark (dups_md5 : list (string * list string)) (f : FileRecord)
    : FileRecord :=
  foldl (λ f kv,
           if (2 <=? length kv.2)%nat && bool_decide (filename f ∈ kv.2)
           then set_md5 kv.1 f else f)
        f dups_md5.

(** The tail sample of a readable file: its last [read_bytes] bytes, or
    its last byte when it is shorter than that. *)
Definition tail_sample (read_bytes : Z) (content : list byte) : list byte :=
  if Z.of_nat (length content) <? read_bytes
  then drop (length content - 1) content
  else drop (length content - Z.to_nat read_bytes) content.

(** The sample signature of a readable file with this content. *)
Definition signature (read_bytes : Z) (content : list byte) : string :=
  bytehash_of (Base64.b64encode (take (Z.to_nat read_bytes) content))
              (Base64.b64encode (tail_sample read_bytes content)).

(** A length that [f.read] accepts in this world: -1, or a length a
    [bytes] object can have and the process can allocate. *)
Definition read_size_ok (w : World) (n : Z) : Prop :=
  -1 ≤ n ≤ bytes_max ∧ n ≤ Z.pos (max_alloc w).


Definition entry_of (f : FileRecord) : Entry := (filename f, atime f, mtime f).

(** [dups_md5] of a call whose hash stage came to its end. *)
Definition md5_groups (w : World) (cfg : Config) (g : HashGroup)
    (cliargs : Cliargs) : list (string * list string) :=
  match sample_files w cfg (files g) [] 0 with
  | (Ok (dups, _), _) =>
      match hash_buckets w cfg cliargs (drop_singletons dups) [] with
      | (Returned dups_md5, _) => dups_md5
      | _ => []
      end
  | _ => []
  end.

Section batching_vocabulary.

Variable adaptive_batch : list Job → Cliargs → Z → Z.
Variable cfg : Config.
Variable cliargs : Cliargs.

(** The size the loop goes on with after an enqueue. *)
Definition next_size (q : list Job) (b : Z) : Z :=
  if adaptivebatch cliargs then adaptive_batch q cliargs b else b.

(** [batched b q jobs]: starting with batch size [b] and queue [q], the
    jobs are what accumulate-until-full produces: every job but a last,
    shorter one holds as many groups as the size in force (one group when
    that size is below 1), and after each full job the size in force is
    the controller's answer for the queue with that job on it. *)
Inductive batched : Z → list Job → list Job → Prop :=
| batched_nil b q : batched b q []
| batched_rest b q j :
    job_hashgroups j ≠ [] →
    Z.of_nat (length (job_hashgroups j)) < Z.max 1 b →
    batched b q [j]
| batched_full b q j jobs :
    Z.of_nat (length (job_hashgroups j)) = Z.max 1 b →
    batched (next_size (q ++ [j]) b) (q ++ [j]) jobs →
    batched b q (j :: jobs).

(** The [if n > 0] after the loop. *)
Definition finish (st : Batching) : list Job :=
  if cur_n st >? 0 then enqueue cfg cliargs (cur_hashgroups st) (cur_q st)
  else cur_q st.

End batching_vocabulary.

(** Every member of every list of a dict satisfies [P] with its key. *)
Definition dict_all {A : Type} (P : string → A → Prop)
    (d : list (string * list A)) : Prop :=
  ∀ key v x, (key, v) ∈ d → x ∈ v → P key x.

(** An event that is a warning, not a change of a file's times. *)
Definition is_warning (e : Event) : Prop :=
  match e with
  | Utime _ _ _ => False
  | _ => True
  end.

(** The [os.utime] call that restores the recorded times of an entry, when
    both of them can be parsed. *)
Definition utime_of (w : World) (e : Entry) : option Event :=
  match mktime_strptime w e.1.2, mktime_strptime w e.2 with
  | Some atime_unix, Some mtime_unix => Some (Utime e.1.1 atime_unix mtime_unix)
  | _, _ => None
  end.

(** An event the module may cause for the entries [P]: a warning, or,
    with [dupes_restoretimes] on, the restoring of the times of one of
    them. *)
Definition expected_event (w : World) (cfg : Config) (P : Entry → Prop)
    (e : Event) : Prop :=
  is_warning e
  ∨ (dupes_restoretimes cfg = "true" ∧ ∃ x, P x ∧ utime_of w x = Some e).

(** The item [verify_dupes] puts on [file_in_thread_q] for an entry. *)
Definition item_of (cliargs : Cliargs) (file : Entry)
    : string * string * string * Cliargs :=
  (file.1.1, file.1.2, file.2, cliargs).

(** The sample signature the sampling loop gives a file, when it gives
    one. *)
Definition sig_of (w : World) (cfg : Config) (f : FileRecord) : option string :=
  match (sample_file w cfg f).1 with
  | Go bytehash => Some bytehash
  | _ => None
  end.

(** What a worker's turn on an item puts on [file_out_thread_q], when it
    puts something. *)
Definition put_of (w : World) (cfg : Config) (item : Item)
    : option (string * string) :=
  match (md5_hasher w cfg item).1 with
  | Returned (Some r) => Some r
  | _ => None
  end.

(** The names among worker results that came with the digest [h]. *)
Definition names_with (h : string) (rs : list (string * string)) : list string :=
  (filter (λ r, r.2 = h) rs).*1.

(** The key of the md5 group that marks a name: the last group of two or
    more names that holds it. *)
Definition mark_key (d : list (string * list string)) (name : string)
    : option string :=
  foldl (λ o kv,
           if (2 <=? length kv.2)%nat && bool_decide (name ∈ kv.2)
           then Some kv.1 else o)
        None d.

(** The names of the files of a group that were hashed and whose worker
    put the digest [h]: the results for the buckets of two or more that
    the sampling of the group leaves. *)
Definition hashed_names (w : World) (cfg : Config) (g : HashGroup)
    (cliargs : Cliargs) (h : string) : list string :=
  match sample_files w cfg (files g) [] 0 with
  | (Ok (dups, _), _) =>
      names_with h (omap (put_of w cfg)
                      (item_of cliargs <$> concat (drop_singletons dups).*2))
  | _ => []
  end.

(** What [verify_dupes] makes of a record when it returns the group: the
    record gets the digest of its file when two or more hashed names came
    with that digest and its name is one of them. *)
Definition confirmed (w : World) (cfg : Config) (g : HashGroup)
    (cliargs : Cliargs) (f : FileRecord) : FileRecord :=
  match md5_of_file w cfg (filename f) with
  | Some (Ok h) =>
      if bool_decide ((2 ≤ length (hashed_names w cfg g cliargs h))%nat
                      ∧ filename f ∈ hashed_names w cfg g cliargs h)
      then set_md5 h f else f
  | _ => f
  end.

(** Two outcomes of the same kind: both blocked, both the same exception,
    both [None], or both a group. *)
Definition same_kind {A B : Type} (o : Outcome (option A))
    (o' : Outcome (option B)) : Prop :=
  match o, o' with
  | Blocked, Blocked => True
  | Raised e, Raised e' => e = e'
  | Returned None, Returned None => True
  | Returned (Some _), Returned (Some _) => True
  | _, _ => False
  end.

(** ** Example worlds *)

Definition example_cfg (read_bytes : Z) (restoretimes : string) : Config :=
  {| dupes_threads := 8; md5_readsize := 65536;
     dupes_restoretimes := restoretimes; dupes_checkbytes := read_bytes;
     dupes_maxsize := 1073741824; es_scrollsize := 1000; es_timeout := 30;
     redis_ttl := 500 |}.

Definition example_cliargs : Cliargs :=
  {| index := "diskover-2019.03.01"; inchardlinks := false; minsize := 0;
     adaptivebatch := false; batchsize := 50;
     verbose := false; debug := false; quiet := false |}.

(** A clock that knows one time stamp of the expected format; any other
    string does not match the format. *)
Definition example_times (s : string) : option Z :=
  if decide (s = "2019-03-01T12:00:00") then Some 1551441600 else None.

Definition plain_file (content : list byte) : File :=
  {| data := content; bad_offsets := []; utime_err := None |}.

Definition example_record (name atime : string) : FileRecord :=
  {| file_id := "id:" +:+ name; filename := name; atime := atime;
     mtime := "2019-03-01T12:00:00"; md5 := "" |}.

(** A world whose threads deliver results and events last submitted
    first, and where 2 GiB can be allocated at once. *)
Definition example_world (files : list (string * File)) : World :=
  {| fs := list_to_map files; mktime_strptime := example_times;
     pool_order := reverse;
     event_rank := λ evs i, (length evs - i)%nat;
     max_alloc := 2147483648 |}.


(** Two copies of a text and a third file that differs in the middle. *)
Definition text_world : World :=
  example_world
    [ ("/data/a", plain_file (list_byte_of_string "hello world"));
      ("/data/b", plain_file (list_byte_of_string "hello world"));
      ("/data/c", plain_file (list_byte_of_string "hello_world")) ].

(** Two identical files of 200 bytes with an unreadable byte at offset
    100: the first and the last 64 bytes can be read, the whole file
    cannot. *)
Definition damaged_file : File :=
  {| data := repeat "x"%byte 200; bad_offsets := [100%nat]; utime_err := None |}.

Definition damaged_world : World :=
  example_world [ ("/data/d1", damaged_file); ("/data/d2", damaged_file) ].

Definition group_of_names (names : list string) : HashGroup :=
  {| filehash := "f1";
     files := (λ name, example_record name "2019-03-01T12:00:00") <$> names |}.


(** A configuration with the given number of threads, block size and
    sample size, that leaves the times of the files alone. *)
Definition example_cfg_with (threads read_size read_bytes : Z) : Config :=
  {| dupes_threads := threads; md5_readsize := read_size;
     dupes_restoretimes := "false"; dupes_checkbytes := read_bytes;
     dupes_maxsize := 1073741824; es_scrollsize := 1000; es_timeout := 30;
     redis_ttl := 500 |}.

(** A scroll of two pages: two hits with the fingerprint [f1], two with
    [f2] and one with [f3]. *)
Definition example_hit (id name filehash : string) : Hit :=
  {| hit_id := id; src_filename := name; src_filehash := filehash;
     src_path_parent := "/data"; src_last_modified := "2019-03-01T12:00:00";
     src_last_access := "2019-03-01T12:00:00" |}.

Definition example_es (body : Json) : list (list Hit) :=
  [ [ example_hit "1" "a" "f1"; example_hit "2" "x" "f2"; example_hit "3" "b" "f1" ];
    [ example_hit "4" "y" "f2"; example_hit "5" "c" "f3" ];
    [] ].

(** Go through the members of a list that is written out. *)
Ltac each_member H tac :=
  repeat (apply elem_of_cons in H as [->|H]; [tac|]);
  by apply elem_of_nil in H.

(** * Properties *)

(** ** The library functions on known inputs *)

Example md5_empty : MD5.hexdigest [] = "d41d8cd98f00b204e9800998ecf8427e".
Proof. vm_compute. reflexivity. Qed.

Example md5_abc :
  MD5.hexdigest (list_byte_of_string "abc") = "900150983cd24fb0d6963f7d28e17f72".
Proof. vm_compute. reflexivity. Qed.

Example md5_two_blocks :
  MD5.hexdigest (repeat "a"%byte 119) = "8a7bd0732ed6a28ce75f6dabc90e1613".
Proof. vm_compute. reflexivity. Qed.

Example md5_block_edge :
  MD5.hexdigest (repeat "a"%byte 56) = "3b0c8ac703f828b04c6c197006d17218"
  ∧ MD5.hexdigest (repeat "a"%byte 64) = "014842d480b571495a4a0363793f7367".
Proof. vm_compute. split; reflexivity. Qed.

Example b64_samples :
  Base64.b64encode (list_byte_of_string "a") = list_byte_of_string "YQ=="
  ∧ Base64.b64encode (list_byte_of_string "ab") = list_byte_of_string "YWI="
  ∧ Base64.b64encode (list_byte_of_string "abcd") = list_byte_of_string "YWJjZA=="
  ∧ Base64.b64encode [ "255"%byte; "254"%byte; "253"%byte ] = list_byte_of_string "//79".
Proof. vm_compute. repeat split; reflexivity. Qed.

(** ** Lists built by appending *)

Lemma foldl_snoc_map {A B : Type} (h : A → B) (xs : list A) (acc : list B) :
  foldl (λ l x, l ++ [h x]) acc xs = acc ++ map h xs.
Proof.
  revert acc. induction xs as [|x xs IH]; intros acc; simpl.
  - by rewrite app_nil_r.
  - rewrite IH. by rewrite <- app_assoc.
Qed.

(** ** index_dupes *)

Lemma file_id_list_map hashgroup cliargs :
  file_id_list hashgroup cliargs = map (update_action cliargs) (files hashgroup).
Proof. unfold file_id_list. by rewrite (foldl_snoc_map (update_action cliargs)). Qed.

Lemma update_action_id_inj cliargs f g :
  json_get "_id" (update_action cliargs f) = json_get "_id" (update_action cliargs g) →
  file_id f = file_id g.
Proof. simpl. congruence. Qed.

(** C9.  For a group of N files [index_dupes] builds N update actions, the
    i-th for the i-th file: it is addressed by that file's document id,
    its [doc] holds the single key [dupe_md5] with the file's [md5], and
    no other key of the document occurs in it; distinct document ids give
    distinct addresses.  The actions go out as one bulk request, and no
    request goes out for an empty file list. *)
Theorem index_dupes_actions (hashgroup : HashGroup) (cliargs : Cliargs)
    (bulk : list (list Json)) :
  let ops := file_id_list hashgroup cliargs in
  length ops = length (files hashgroup)
  ∧ (∀ i f, files hashgroup !! i = Some f →
       ∃ op, ops !! i = Some op
         ∧ json_get "_op_type" op = Some (JStr "update")
         ∧ json_get "_id" op = Some (JStr (file_id f))
         ∧ json_get "doc" op = Some (JDict [ ("dupe_md5", JStr (md5 f)) ])
         ∧ json_keys op = [ "_op_type"; "_index"; "_type"; "_id"; "doc"; "dupe_md5" ])
  ∧ (NoDup (file_id <$> files hashgroup) → NoDup (json_get "_id" <$> ops))
  ∧ index_dupes hashgroup cliargs bulk
    = match files hashgroup with [] => bulk | _ :: _ => bulk ++ [ops] end.
Proof.
  intros ops. subst ops. rewrite file_id_list_map.
  split; [by rewrite length_map|].
  split.
  { intros i f Hi. exists (update_action cliargs f).
    rewrite list_lookup_fmap, Hi. done. }
  split.
  { intros Hnd. rewrite <- list_fmap_compose.
    induction (files hashgroup) as [|f fl IH]; [constructor|].
    rewrite fmap_cons in Hnd. apply NoDup_cons in Hnd as [Hf Hfl].
    rewrite fmap_cons. apply NoDup_cons. split; [|by apply IH].
    intros Hin. apply Hf.
    apply list_elem_of_fmap in Hin as (g & Heq & Hg).
    apply list_elem_of_fmap. exists g. split; [|done].
    by apply (update_action_id_inj cliargs). }
  unfold index_dupes. rewrite file_id_list_map.
  by destruct (files hashgroup).
Qed.

(** ** The search body *)

Lemma range_selects cfg cliargs doc :
  forallb (es_bound doc "filesize")
          [ ("lte", JInt (dupes_maxsize cfg)); ("gte", JInt (minsize cliargs)) ] = true
  ↔ in_size_range cfg cliargs doc.
Proof.
  unfold in_size_range, es_bound. simpl.
  destruct (doc "filesize") as [sz|]; simpl.
  - rewrite andb_true_r, andb_true_iff, !Z.leb_le. split.
    + intros [? ?]. exists sz. split; [done|lia].
    + intros (sz' & [= <-] & ?). lia.
  - split; [done|]. by intros (? & ? & ?).
Qed.

(** C7.  Without [inchardlinks] the body selects exactly the documents
    whose hard-link count is 1 and whose size lies between [minsize] and
    [dupes_maxsize]: its [must] is the term [hardlinks = 1] and its
    [filter] is the size range.  With [inchardlinks] the body selects
    exactly the documents in the size range, and the key [hardlinks] does
    not occur in it.  Both bodies ask for the same [_source] fields. *)
Theorem dupes_query_hardlinks (cfg : Config) (cliargs : Cliargs)
    (doc : string → option Z) :
  let off := dupes_query cfg (with_inchardlinks false cliargs) in
  let on := dupes_query cfg (with_inchardlinks true cliargs) in
  let range :=
    JDict [ ("range", JDict [ ("filesize",
              JDict [ ("lte", JInt (dupes_maxsize cfg));
                      ("gte", JInt (minsize cliargs)) ]) ]) ] in
  (es_selects off doc = true ↔ doc "hardlinks" = Some 1 ∧ in_size_range cfg cliargs doc)
  ∧ (json_get "query" off ≫= json_get "bool"
     = Some (JDict [ ("must", JDict [ ("term", JDict [ ("hardlinks", JInt 1) ]) ]);
                     ("filter", range) ]))
  ∧ (es_selects on doc = true ↔ in_size_range cfg cliargs doc)
  ∧ (json_get "query" on ≫= json_get "bool" = Some (JDict [ ("must", range) ]))
  ∧ ("hardlinks" ∉ json_keys on)
  ∧ json_get "_source" on = json_get "_source" off
  ∧ json_get "_source" on
    = Some (JList [ JStr "filename"; JStr "filehash"; JStr "path_parent";
                    JStr "last_modified"; JStr "last_access" ]).
Proof.
  intros off on range. subst off on range.
  split.
  { unfold es_selects. cbn -[forallb es_bound].
    rewrite andb_true_iff, (range_selects cfg cliargs doc).
    destruct (doc "hardlinks") as [hl|].
    - rewrite Z.eqb_eq. split; [intros [-> ?]|intros [[= ->] ?]]; done.
    - split; intros [[=] _]. }
  split; [done|].
  split.
  { unfold es_selects. cbn -[forallb es_bound].
    rewrite andb_true_r. apply (range_selects cfg cliargs doc). }
  split; [done|].
  split; [|done].
  cbn. intros Hin. repeat (apply elem_of_cons in Hin as [Hin|Hin]; [done|]).
  by apply elem_of_nil in Hin.
Qed.

(** ** Dictionaries *)

Lemma filter_ext_elem {A : Type} (P Q : A → Prop)
    `{!∀ x, Decision (P x)} `{!∀ x, Decision (Q x)} (l : list A) :
  (∀ x, x ∈ l → P x ↔ Q x) → filter P l = filter Q l.
Proof.
  induction l as [|x l IH]; intros HPQ; [done|].
  rewrite !filter_cons.
  rewrite IH by (intros y Hy; apply HPQ; by right).
  destruct (decide (P x)) as [HP|HP], (decide (Q x)) as [HQ|HQ]; try done.
  - exfalso. apply HQ, HPQ; [by left|done].
  - exfalso. apply HP, HPQ; [by left|done].
Qed.

Lemma filter_all {A : Type} (P : A → Prop) `{!∀ x, Decision (P x)} (l : list A) :
  (∀ x, x ∈ l → P x) → filter P l = l.
Proof.
  induction l as [|x l IH]; intros HP; [done|].
  rewrite filter_cons_True by (apply HP; by left).
  rewrite IH; [done|]. intros y Hy. apply HP. by right.
Qed.

Section dict_facts.
Context {V : Type}.
Implicit Types (d : list (string * V)) (key k : string).

Lemma dict_has_true key d : dict_has key d = true ↔ key ∈ d.*1.
Proof. apply bool_decide_eq_true. Qed.

Lemma dict_has_false key d : dict_has key d = false ↔ key ∉ d.*1.
Proof. apply bool_decide_eq_false. Qed.

Lemma dict_get_elem k v d : dict_get k d = Some v → (k, v) ∈ d.
Proof.
  induction d as [|[k' v'] d IH]; simpl; [done|].
  destruct (String.eqb_spec k' k) as [->|Hne].
  - intros [= ->]. by left.
  - intros Hd. right. by apply IH.
Qed.

Lemma dict_get_None k d : dict_get k d = None ↔ k ∉ d.*1.
Proof.
  induction d as [|[k' v'] d IH]; simpl.
  - split; [intros _; apply not_elem_of_nil|done].
  - destruct (String.eqb_spec k' k) as [->|Hne]; rewrite not_elem_of_cons.
    + split; [done|]. by intros [? _].
    + rewrite IH. split; [by intros ?; split|by intros [_ ?]].
Qed.

Lemma dict_elem_get k v d : NoDup d.*1 → (k, v) ∈ d → dict_get k d = Some v.
Proof.
  induction d as [|[k' v'] d IH]; simpl; intros Hnd Hin.
  - by apply elem_of_nil in Hin.
  - apply NoDup_cons in Hnd as [Hk' Hnd].
    apply elem_of_cons in Hin as [[= <- <-]|Hin].
    + by rewrite String.eqb_refl.
    + destruct (String.eqb_spec k' k) as [->|Hne]; [|by apply IH].
      exfalso. apply Hk'. apply list_elem_of_fmap. by exists (k, v).
Qed.

Lemma dict_del_keys (ks : list string) d :
  foldl (λ d key, dict_del key d) d ks = filter (λ kv, kv.1 ∉ ks) d.
Proof.
  revert d. induction ks as [|k ks IH]; intros d; simpl.
  - symmetry. apply filter_all. intros x _. apply not_elem_of_nil.
  - rewrite IH. unfold dict_del. rewrite list_filter_filter.
    apply list_filter_iff. intros x. rewrite not_elem_of_cons. tauto.
Qed.

(** Deleting the keys of the entries that satisfy [P] leaves the entries
    that do not, when no key occurs twice. *)
Lemma dict_del_own_keys (P : string * V → Prop) `{!∀ x, Decision (P x)} d :
  NoDup d.*1 →
  foldl (λ d key, dict_del key d) d (filter P d).*1 = filter (λ kv, ¬ P kv) d.
Proof.
  intros Hnd. rewrite dict_del_keys. apply filter_ext_elem.
  intros [k v] Hin. simpl. split.
  - intros Hk HP. apply Hk. apply list_elem_of_fmap. exists (k, v).
    split; [done|]. by apply list_elem_of_filter.
  - intros HP Hk. apply list_elem_of_fmap in Hk as ([k' v'] & Hkk & Hin').
    simpl in Hkk. subst k'. apply list_elem_of_filter in Hin' as [HP' Hin'].
    apply (dict_elem_get _ _ _ Hnd) in Hin, Hin'. congruence.
Qed.

Lemma dict_alter_keys (f : V → V) key d : (dict_alter f key d).*1 = d.*1.
Proof.
  unfold dict_alter. induction d as [|[k v] d IH]; [done|].
  cbn [map]. rewrite !fmap_cons, IH. by case_decide.
Qed.

Lemma dict_get_alter (f : V → V) key k d :
  dict_get k (dict_alter f key d)
  = if decide (k = key) then f <$> dict_get k d else dict_get k d.
Proof.
  unfold dict_alter. induction d as [|[k' v'] d IH]; simpl.
  - by case_decide.
  - rewrite IH. clear IH. destruct (decide (k' = key)) as [->|Hk']; simpl.
    + destruct (String.eqb_spec key k) as [->|Hne].
      * by rewrite decide_True.
      * by rewrite decide_False.
    + destruct (String.eqb_spec k' k) as [->|Hne]; [|done].
      by rewrite decide_False.
Qed.

Lemma dict_get_snoc k key v d :
  dict_get k (d ++ [(key, v)])
  = match dict_get k d with
    | Some v' => Some v'
    | None => if decide (k = key) then Some v else None
    end.
Proof.
  induction d as [|[k' v'] d IH]; simpl.
  - destruct (String.eqb_spec key k) as [->|Hne].
    + by rewrite decide_True.
    + by rewrite decide_False.
  - by destruct (String.eqb_spec k' k).
Qed.

End dict_facts.

Section dict_append_facts.
Context {A : Type}.
Implicit Types (d : list (string * list A)) (key k : string).

Lemma dict_append_keys_NoDup key x d :
  NoDup d.*1 → NoDup (dict_append key x d).*1.
Proof.
  intros Hnd. unfold dict_append.
  destruct (dict_has key d) eqn:Hhas.
  - by rewrite dict_alter_keys.
  - apply dict_has_false in Hhas. rewrite fmap_app. simpl.
    apply NoDup_app. split; [done|]. split; [|apply NoDup_singleton].
    intros k Hk ->%list_elem_of_singleton. done.
Qed.

Lemma dict_get_append k key x d :
  dict_get k (dict_append key x d)
  = if decide (k = key) then Some (default [] (dict_get key d) ++ [x])
    else dict_get k d.
Proof.
  unfold dict_append. destruct (dict_has key d) eqn:Hhas.
  - rewrite dict_get_alter. case_decide as Hk; [subst k|done].
    apply dict_has_true in Hhas.
    destruct (dict_get key d) as [v|] eqn:Hget; [done|].
    by apply dict_get_None in Hget.
  - apply dict_has_false, dict_get_None in Hhas. rewrite dict_get_snoc.
    case_decide as Hk; [subst k; by rewrite Hhas|].
    by destruct (dict_get k d).
Qed.



End dict_append_facts.

(** ** dupes_finder: grouping *)

Lemma scroll_scanned pages d : scroll pages d = foldl add_hit d (scanned pages).
Proof.
  revert d. induction pages as [|page pages IH]; intros d; [done|].
  destruct page as [|h page]; [done|].
  cbn [scroll scanned]. by rewrite IH, foldl_app.
Qed.

Lemma grouped_NoDup hits d : NoDup d.*1 → NoDup (foldl add_hit d hits).*1.
Proof.
  revert d. induction hits as [|h hits IH]; intros d Hnd; [done|].
  simpl. apply IH. by apply dict_append_keys_NoDup.
Qed.

Lemma grouped_get hits d k :
  dict_get k (foldl add_hit d hits)
  = match dict_get k d, bucket k hits with
    | None, [] => None
    | o, b => Some (default [] o ++ b)
    end.
Proof.
  revert d. induction hits as [|h hits IH]; intros d.
  - simpl. destruct (dict_get k d); simpl; [by rewrite app_nil_r|done].
  - cbn [foldl]. rewrite IH. unfold add_hit. rewrite dict_get_append.
    unfold bucket. rewrite filter_cons.
    destruct (decide (k = src_filehash h)) as [->|Hne].
    + rewrite decide_True by done. rewrite fmap_cons. simpl.
      rewrite <- app_assoc. simpl.
      by destruct (dict_get (src_filehash h) d).
    + by rewrite decide_False by done.
Qed.

Lemma grouped_bucket pages k v :
  (k, v) ∈ scroll pages [] → v = bucket k (scanned pages) ∧ v ≠ [].
Proof.
  intros Hin. rewrite scroll_scanned in Hin.
  apply dict_elem_get in Hin; [|apply grouped_NoDup; constructor].
  rewrite grouped_get in Hin. simpl in Hin.
  destruct (bucket k (scanned pages)); [done|]. by injection Hin as <-.
Qed.

Lemma count_possible_fold (l d : list (string * list FileRecord)) (c : Z) :
  foldl (λ st kv,
           let filehash_filecount := Z.of_nat (length kv.2) in
           if filehash_filecount <? 2 then (dict_del kv.1 st.1, st.2)
           else (st.1, st.2 + filehash_filecount))
        (d, c) l
  = (foldl (λ d key, dict_del key d) d (filter (λ kv, (length kv.2 < 2)%nat) l).*1,
     c + files_in (survivors l)).
Proof.
  revert d c. induction l as [|kv l IH]; intros d c.
  - simpl. f_equal. lia.
  - cbn [foldl]. cbv zeta. unfold survivors. rewrite !filter_cons. cbn [fst snd].
    destruct (Z.ltb_spec (Z.of_nat (length kv.2)) 2) as [Hlt|Hge].
    + rewrite IH. rewrite decide_True by lia. rewrite decide_False by lia.
      done.
    + rewrite IH. rewrite decide_False by lia. rewrite decide_True by lia.
      simpl. f_equal. unfold survivors. lia.
Qed.

Lemma count_possible_spec d :
  NoDup d.*1 → count_possible d = (survivors d, files_in (survivors d)).
Proof.
  intros Hnd. unfold count_possible. rewrite count_possible_fold.
  rewrite (dict_del_own_keys (λ kv, (length kv.2 < 2)%nat)) by done.
  f_equal. apply list_filter_iff. intros kv. lia.
Qed.

Lemma files_in_survivors_pos d : survivors d ≠ [] → 0 < files_in (survivors d).
Proof.
  unfold survivors. induction d as [|kv d IH]; [done|].
  rewrite filter_cons. case_decide as Hlen; simpl.
  - intros _. assert (0 ≤ files_in (filter (λ kv, (2 ≤ length kv.2)%nat) d)).
    { clear. induction (filter _ d) as [|x l IH]; simpl; lia. }
    lia.
  - done.
Qed.

(** ** dupes_finder: batching *)

Section batching.

Variable ab_start : Z.
Variable adaptive_batch : list Job → Cliargs → Z → Z.
Variable cfg : Config.
Variable cliargs : Cliargs.

Lemma enqueue_loop l : ∀ st,
  cur_n st = Z.of_nat (length (cur_hashgroups st)) →
  cur_n st < Z.max 1 (cur_batchsize st) →
  ∃ jobs,
    finish cfg cliargs (foldl (enqueue_step adaptive_batch cfg cliargs) st l) = cur_q st ++ jobs
    ∧ concat (job_hashgroups <$> jobs) = cur_hashgroups st ++ (group_of <$> l)
    ∧ batched adaptive_batch cliargs (cur_batchsize st) (cur_q st) jobs
    ∧ Forall (λ j, job_cliargs j = cliargs ∧ job_result_ttl j = redis_ttl cfg) jobs.
Proof.
  induction l as [|kv l IH]; intros st Hn Hlt.
  - simpl. unfold finish. destruct (Z.gtb_spec (cur_n st) 0) as [Hpos|Hzero].
    + eexists [_]. split; [reflexivity|]. simpl. split; [done|].
      split; [|by repeat constructor].
      apply batched_rest; simpl; [|lia].
      intros Hnil. rewrite Hnil in Hn. simpl in Hn. lia.
    + exists []. rewrite !app_nil_r. split; [done|]. simpl.
      split; [|split; constructor].
      destruct (cur_hashgroups st); [done|]. simpl in Hn. lia.
  - cbn [foldl]. unfold enqueue_step at 2. cbv zeta.
    destruct (Z.geb_spec (cur_n st + 1) (cur_batchsize st)) as [Hfull|Hless].
    + match goal with
      | |- context [foldl _ ?st' l] =>
          destruct (IH st') as (jobs & Hq & Hcat & Hb & Hall); simpl; [done|lia|]
      end.
      unfold enqueue in *.
      cbn [cur_hashgroups cur_q cur_batchsize app] in Hq, Hcat, Hb.
      eexists (_ :: jobs).
      split; [by rewrite Hq, <- app_assoc|].
      split.
      { rewrite fmap_cons, concat_cons, Hcat. cbn [job_hashgroups].
        by rewrite <- app_assoc. }
      split; [|by constructor].
      apply batched_full; [|exact Hb]. simpl. rewrite length_app. simpl. lia.
    + match goal with
      | |- context [foldl _ ?st' l] =>
          destruct (IH st') as (jobs & Hq & Hcat & Hb & Hall); simpl
      end.
      { rewrite length_app. simpl. lia. }
      { lia. }
      exists jobs. cbn [cur_hashgroups cur_q cur_batchsize] in Hq, Hcat, Hb.
      split; [done|].
      split; [by rewrite Hcat, <- app_assoc|]. done.
Qed.

Lemma batched_nonempty b q jobs :
  batched adaptive_batch cliargs b q jobs → Forall (λ j, job_hashgroups j ≠ []) jobs.
Proof.
  induction 1 as [| |b q j jobs Hlen _ IH]; repeat constructor; try done.
  intros Hnil. rewrite Hnil in Hlen. simpl in Hlen. lia.
Qed.

Lemma enqueue_all_spec filehashes q0 :
  ∃ jobs,
    enqueue_all ab_start adaptive_batch cfg cliargs filehashes q0 = q0 ++ jobs
    ∧ concat (job_hashgroups <$> jobs) = group_of <$> filehashes
    ∧ batched adaptive_batch cliargs
        (if adaptivebatch cliargs then ab_start else batchsize cliargs) q0 jobs
    ∧ Forall (λ j, job_cliargs j = cliargs ∧ job_result_ttl j = redis_ttl cfg) jobs.
Proof.
  unfold enqueue_all. cbv zeta.
  apply (enqueue_loop filehashes
           {| cur_n := 0; cur_hashgroups := [];
              cur_batchsize := if adaptivebatch cliargs then ab_start else batchsize cliargs;
              cur_q := q0 |}); simpl; [done|lia].
Qed.

Lemma dupes_finder_spec (es : Json → list (list Hit)) q0 :
  let found := survivors (scroll (es (dupes_query cfg cliargs)) []) in
  ∃ jobs,
    dupes_finder ab_start adaptive_batch cfg cliargs es q0 = (files_in found, q0 ++ jobs)
    ∧ concat (job_hashgroups <$> jobs) = group_of <$> found
    ∧ batched adaptive_batch cliargs
        (if adaptivebatch cliargs then ab_start else batchsize cliargs) q0 jobs
    ∧ Forall (λ j, job_cliargs j = cliargs ∧ job_result_ttl j = redis_ttl cfg) jobs.
Proof.
  intros found. unfold dupes_finder. cbv zeta.
  rewrite count_possible_spec
    by (rewrite scroll_scanned; apply grouped_NoDup; constructor).
  fold found. destruct (Z.eqb_spec (files_in found) 0) as [Hz|Hnz].
  - exists []. rewrite app_nil_r. split; [done|].
    split; [|split; constructor].
    pose proof (files_in_survivors_pos (scroll (es (dupes_query cfg cliargs)) [])) as Hpos.
    fold found in Hpos. clearbody found.
    destruct found as [|kv l]; [done|]. specialize (Hpos ltac:(done)). lia.
  - destruct (enqueue_all_spec found q0) as (jobs & Hq & Hrest).
    exists jobs. by rewrite Hq.
Qed.

End batching.

Lemma elem_of_concat {A : Type} (x : A) (ls : list (list A)) :
  x ∈ concat ls ↔ ∃ l, l ∈ ls ∧ x ∈ l.
Proof.
  rewrite list_elem_of_In, in_concat. split.
  - intros (l & Hl & Hx). exists l. by rewrite !list_elem_of_In.
  - intros (l & Hl & Hx). exists l. by rewrite <- !list_elem_of_In.
Qed.

Lemma group_sizes_of d : group_sizes (group_of <$> d) = files_in d.
Proof.
  unfold group_sizes, files_in. induction d as [|kv d IH]; [done|].
  rewrite fmap_cons. cbn [foldr]. by rewrite IH.
Qed.

(** C6.  Whatever the scan returns, every hash group on a job that
    [dupes_finder] enqueues holds at least 2 file records, namely all the
    scanned hits with the group's fingerprint; a fingerprint with fewer
    than 2 hits is the fingerprint of no enqueued group; and the count
    reported as found is the sum of the sizes of the fingerprint groups of
    size 2 or more, which is also the number of files on the enqueued
    jobs. *)
Theorem dupes_finder_no_singletons (ab_start : Z)
    (adaptive_batch : list Job → Cliargs → Z → Z) (cfg : Config)
    (cliargs : Cliargs) (es : Json → list (list Hit)) (q0 : list Job) :
  let pages := es (dupes_query cfg cliargs) in
  let r := dupes_finder ab_start adaptive_batch cfg cliargs es q0 in
  ∃ jobs,
    r.2 = q0 ++ jobs
    ∧ (∀ job g, job ∈ jobs → g ∈ job_hashgroups job →
         (2 ≤ length (files g))%nat
         ∧ files g = bucket (filehash g) (scanned pages))
    ∧ (∀ k, (length (bucket k (scanned pages)) < 2)%nat →
         ∀ job g, job ∈ jobs → g ∈ job_hashgroups job → filehash g ≠ k)
    ∧ r.1 = files_in (survivors (scroll pages []))
    ∧ r.1 = group_sizes (concat (job_hashgroups <$> jobs)).
Proof.
  intros pages r. subst r.
  destruct (dupes_finder_spec ab_start adaptive_batch cfg cliargs es q0)
    as (jobs & -> & Hcat & _ & _).
  fold pages in Hcat.
  assert (∀ job g, job ∈ jobs → g ∈ job_hashgroups job →
            (2 ≤ length (files g))%nat
            ∧ files g = bucket (filehash g) (scanned pages)) as Hgroups.
  { intros job g Hjob Hg.
    assert (g ∈ concat (job_hashgroups <$> jobs)) as Hin.
    { apply elem_of_concat. exists (job_hashgroups job).
      split; [|done]. apply list_elem_of_fmap. by exists job. }
    rewrite Hcat in Hin. apply list_elem_of_fmap in Hin as ([k v] & -> & Hkv).
    apply list_elem_of_filter in Hkv as [Hlen Hkv]. simpl in *.
    split; [done|]. by apply grouped_bucket in Hkv as [-> _]. }
  exists jobs. simpl. split; [done|]. split; [done|]. split.
  { intros k Hk job g Hjob Hg Heq. subst k.
    destruct (Hgroups job g Hjob Hg) as [Hlen Hfiles].
    rewrite Hfiles in Hlen. lia. }
  split; [done|]. by rewrite Hcat, group_sizes_of.
Qed.

(** C8.  The jobs [dupes_finder] adds to the queue, read in order, hold
    the surviving hash groups in order: each group is on exactly one job,
    once.  The jobs are cut as the batch size says: a job is enqueued when
    the accumulated count reaches the size in force (one group when that
    size is below 1), the accumulator restarts empty, under adaptive
    batching the controller is asked for the next size, and what is left
    at the end, if anything, goes out as a last job.  No job is empty;
    each carries [cliargs] and the configured result lifetime. *)
Theorem dupes_finder_batches (ab_start : Z)
    (adaptive_batch : list Job → Cliargs → Z → Z) (cfg : Config)
    (cliargs : Cliargs) (es : Json → list (list Hit)) (q0 : list Job) :
  let found := survivors (scroll (es (dupes_query cfg cliargs)) []) in
  let r := dupes_finder ab_start adaptive_batch cfg cliargs es q0 in
  ∃ jobs,
    r.2 = q0 ++ jobs
    ∧ concat (job_hashgroups <$> jobs) = group_of <$> found
    ∧ batched adaptive_batch cliargs
        (if adaptivebatch cliargs then ab_start else batchsize cliargs) q0 jobs
    ∧ Forall (λ j, job_hashgroups j ≠ []
                   ∧ job_cliargs j = cliargs
                   ∧ job_result_ttl j = redis_ttl cfg) jobs.
Proof.
  intros found r. subst r.
  destruct (dupes_finder_spec ab_start adaptive_batch cfg cliargs es q0)
    as (jobs & -> & Hcat & Hb & Hall).
  exists jobs. simpl. split; [done|]. split; [done|]. split; [done|].
  apply batched_nonempty in Hb as Hne.
  rewrite Forall_forall in Hne, Hall. apply Forall_forall.
  intros j Hj. split; [by apply Hne|by apply Hall].
Qed.

(** ** verify_dupes: writing the hashes back *)

Lemma foldl_index_update {A : Type} (step : list A → nat → list A) (h : A → A) :
  (∀ l i x, l !! i = Some x → step l i = <[i := h x]> l) →
  ∀ l, foldl step l (seq 0 (length l)) = h <$> l.
Proof.
  intros Hstep l.
  enough (∀ suf pre, foldl step (pre ++ suf) (seq (length pre) (length suf))
                     = pre ++ (h <$> suf)) as Hgen by apply (Hgen l []).
  induction suf as [|x suf IH]; intros pre; [done|].
  cbn [length seq foldl].
  rewrite (Hstep _ _ x) by (by rewrite list_lookup_middle).
  rewrite insert_app_r_alt, Nat.sub_diag by done. cbn [insert list_insert].
  rewrite (cons_middle (h x)), app_assoc.
  replace (S (length pre)) with (length (pre ++ [h x]))
    by (rewrite length_app; simpl; lia).
  rewrite IH. by rewrite fmap_cons, <- app_assoc.
Qed.

Lemma mark_files_map key value fl :
  mark_files key value fl
  = (λ f, if bool_decide (filename f ∈ value) then set_md5 key f else f) <$> fl.
Proof.
  unfold mark_files. apply foldl_index_update.
  intros l i x Hx. rewrite Hx. case_bool_decide; [done|].
  by rewrite list_insert_id.
Qed.

Lemma update_md5_map dups_md5 fl : update_md5 dups_md5 fl = mark dups_md5 <$> fl.
Proof.
  unfold update_md5, mark. revert fl.
  induction dups_md5 as [|kv d IH]; intros fl; cbn [foldl].
  - by rewrite list_fmap_id.
  - rewrite IH. destruct (2 <=? length kv.2)%nat; simpl.
    + rewrite mark_files_map, <- list_fmap_compose. done.
    + done.
Qed.

Lemma mark_frame d f :
  file_id (mark d f) = file_id f ∧ filename (mark d f) = filename f
  ∧ atime (mark d f) = atime f ∧ mtime (mark d f) = mtime f.
Proof.
  unfold mark. revert f. induction d as [|kv d IH]; intros f; [done|].
  cbn [foldl]. destruct (_ && _); [|apply IH].
  destruct (IH (set_md5 kv.1 f)) as (-> & -> & -> & ->). done.
Qed.

Lemma mark_md5 d f :
  md5 (mark d f) = md5 f
  ∨ ∃ kv, kv ∈ d ∧ (2 ≤ length kv.2)%nat ∧ filename f ∈ kv.2
          ∧ md5 (mark d f) = kv.1.
Proof.
  unfold mark. revert f. induction d as [|kv d IH]; intros f; [by left|].
  cbn [foldl]. destruct (2 <=? length kv.2)%nat eqn:Hlen; cbn [andb].
  - destruct (bool_decide (filename f ∈ kv.2)) eqn:Hin.
    + apply bool_decide_eq_true in Hin.
      destruct (IH (set_md5 kv.1 f)) as [Hmd5|(kv' & Hkv' & ? & ? & ?)].
      * right. exists kv. rewrite Hmd5. apply Nat.leb_le in Hlen.
        split; [by left|done].
      * right. exists kv'. split; [by right|done].
    + destruct (IH f) as [?|(kv' & Hkv' & ?)]; [by left|].
      right. exists kv'. split; [by right|done].
  - destruct (IH f) as [?|(kv' & Hkv' & ?)]; [by left|].
    right. exists kv'. split; [by right|done].
Qed.

Lemma mark_unconfirmed d f :
  (∀ kv, kv ∈ d → (2 ≤ length kv.2)%nat → filename f ∉ kv.2) → mark d f = f.
Proof.
  unfold mark. induction d as [|kv d IH]; intros Hno; [done|].
  cbn [foldl]. destruct (2 <=? length kv.2)%nat eqn:Hlen; cbn [andb].
  - rewrite bool_decide_eq_false_2.
    + apply IH. intros kv' Hkv'. apply Hno. by right.
    + apply Hno; [by left|]. by apply Nat.leb_le.
  - apply IH. intros kv' Hkv'. apply Hno. by right.
Qed.

(** ** The order of the workers' events *)

Lemma imap_rank_values {A : Type} (l : list A) : ∀ rank : nat → nat,
  (imap (λ i x, (rank i, x)) l).*2 = l.
Proof.
  induction l as [|x l IH]; intros rank; [done|].
  cbn [imap fmap list_fmap snd]. f_equal. apply (IH (rank ∘ S)).
Qed.

Lemma by_rank_Permutation {A : Type} (rank : nat → nat) (l : list A) :
  by_rank rank l ≡ₚ l.
Proof.
  unfold by_rank. rewrite merge_sort_Permutation. by rewrite imap_rank_values.
Qed.

(** ** Reading a file *)

Lemma take_drop_length {A : Type} (n : nat) (l : list A) :
  take n l ++ drop (length (take n l)) l = l.
Proof.
  rewrite length_take. destruct (decide (n ≤ length l)%nat).
  - rewrite Nat.min_l by done. apply take_drop.
  - rewrite Nat.min_r by lia. rewrite take_ge, drop_all by lia. apply app_nil_r.
Qed.

Lemma take_pos_nil {A : Type} (n : nat) (l : list A) :
  (0 < n)%nat → take n l = [] → l = [].
Proof. destruct n, l; simpl; try done. lia. Qed.

Lemma bytes_max_eq : bytes_max = 9223372036854775774.
Proof. reflexivity. Qed.

Lemma read_refused_None alloc n :
  read_refused alloc n = None ↔ -1 ≤ n ≤ bytes_max ∧ n ≤ Z.pos alloc.
Proof.
  unfold read_refused. rewrite bytes_max_eq.
  change (- 2 ^ 63) with (-9223372036854775808).
  destruct (Z.ltb_spec n (-9223372036854775808)); [split; [done|lia]|].
  destruct (Z.ltb_spec n (-1)); [split; [done|lia]|].
  destruct (Z.ltb_spec 9223372036854775774 n); [split; [done|lia]|].
  destruct (Z.ltb_spec (Z.pos alloc) n); [split; [done|lia]|].
  split; [lia|done].
Qed.

Lemma read_refused_not_os alloc n : read_refused alloc n ≠ Some OSError.
Proof.
  unfold read_refused.
  by destruct (n <? - 2 ^ 63), (n <? -1), (bytes_max <? n), (Z.pos alloc <? n).
Qed.

Lemma read_refused_zero alloc : read_refused alloc 0 = None.
Proof. apply read_refused_None. rewrite bytes_max_eq. lia. Qed.

Lemma f_read_clean f n :
  bad_offsets (h_file f) = [] → 0 ≤ n ≤ bytes_max → n ≤ Z.pos (h_alloc f) →
  let buf := take (Z.to_nat n) (drop (h_pos f) (data (h_file f))) in
  f_read f n = Ok (buf, {| h_file := h_file f; h_pos := h_pos f + length buf;
                           h_alloc := h_alloc f |}).
Proof.
  intros Hbad Hn Halloc buf. unfold f_read.
  rewrite (proj2 (read_refused_None _ _)) by lia. rewrite Hbad. simpl.
  destruct (Z.eqb_spec n (-1)); [lia|done].
Qed.

Lemma f_read_file f n buf f' : f_read f n = Ok (buf, f') →
  h_file f' = h_file f
  ∧ h_pos f' = (h_pos f + length buf)%nat
  ∧ (n = 0 → buf = [])
  ∧ (length buf ≤ length (data (h_file f)) - h_pos f)%nat
  ∧ (buf = [] → n ≠ 0 → drop (h_pos f) (data (h_file f)) = []).
Proof.
  unfold f_read. destruct (read_refused (h_alloc f) n) eqn:Hlow; [done|].
  apply read_refused_None in Hlow as [Hlow _].
  destruct (existsb _ _); [done|]. intros [= <- <-]. simpl.
  split; [done|]. split; [done|]. split; [|split].
  - by intros ->.
  - destruct (n =? -1); [|rewrite length_take]; rewrite length_drop; lia.
  - destruct (Z.eqb_spec n (-1)) as [->|Hn]; [done|].
    intros Hnil Hn0. apply (take_pos_nil (Z.to_nat n)); [|done].
    lia.
Qed.


(** The read loop ends: the fuel [md5_of_file] gives it is enough. *)
Lemma md5_read_loop_total fuel : ∀ f rs hasher buf,
  (rs = 0 → buf = []) →
  (buf ≠ [] → (length (drop (h_pos f) (data (h_file f))) < fuel)%nat) →
  is_Some (md5_read_loop fuel f rs hasher buf).
Proof.
  induction fuel as [|fuel IH]; intros f rs hasher buf Hrs Hfuel.
  - destruct buf; [by eexists|]. specialize (Hfuel ltac:(done)). lia.
  - destruct buf as [|b buf]; [by eexists|]. cbn [md5_read_loop].
    destruct (f_read f rs) as [[buf' f']|e] eqn:Hread; [|by eexists].
    apply f_read_file in Hread as (Hfile & Hpos & Hzero & Hlen & Hnil).
    apply IH; [done|]. intros Hbuf'. rewrite Hfile, Hpos.
    specialize (Hfuel ltac:(done)). rewrite length_drop in *.
    destruct buf'; [done|]. simpl in *. lia.
Qed.

Lemma md5_of_file_total w cfg name : is_Some (md5_of_file w cfg name).
Proof.
  unfold md5_of_file. destruct (py_open w name) as [f|e] eqn:Hopen; [|by eexists].
  destruct (f_read f (md5_readsize cfg)) as [[buf f']|e] eqn:Hread; [|by eexists].
  apply f_read_file in Hread as (Hfile & Hpos & Hzero & Hlen & Hnil).
  destruct (md5_read_loop_total (S (length (data (h_file f)))) f'
              (md5_readsize cfg) [] buf) as [[hasher|e] ->]; try by eexists.
  - done.
  - intros _. rewrite Hfile, length_drop. lia.
Qed.

(** X2.  A worker's turn always ends: it returns with a result for
    [file_out_thread_q] or with a warning and nothing. *)
Lemma md5_hasher_returns w cfg item : ∃ r ev, md5_hasher w cfg item = (Returned r, ev).
Proof.
  destruct item as [[[name at_] mt] cli]. unfold md5_hasher.
  destruct (md5_of_file_total w cfg name) as [[h|e] ->].
  - destruct (restore_times w cfg name at_ mt) as [[[]|[]] ev]; by eexists _, _.
  - destruct e; by eexists _, _.
Qed.



(** ** Sampling *)

Lemma restore_times_ok w cfg name at_ mt :
  (dupes_restoretimes cfg = "true" →
   is_Some (mktime_strptime w at_) ∧ is_Some (mktime_strptime w mt)) →
  ∃ ev, restore_times w cfg name at_ mt = (Ok tt, ev).
Proof.
  intros Hok. unfold restore_times. case_decide as Hon; [|by eexists].
  destruct (Hok Hon) as [[a ->] [m ->]].
  destruct (os_utime w name) as [[]|[]]; by eexists.
Qed.

Lemma no_bad_offset_in_empty_read (p : nat) (bad : list nat) :
  existsb (λ o, (p <=? o)%nat && (o <? p + 0)%nat) bad = false.
Proof.
  induction bad as [|o l IH]; [done|].
  cbn [existsb]. rewrite IH, orb_false_r.
  destruct (Nat.leb_spec p o); [|done]. apply Nat.ltb_ge. lia.
Qed.


Lemma f_seek_end_fits f n :
  -1 ≤ n ≤ bytes_max →
  f_seek_end f (- n)
  = if Z.of_nat (length (data (h_file f))) + - n <? 0 then Raise OSError
    else Ok {| h_file := h_file f;
               h_pos := Z.to_nat (Z.of_nat (length (data (h_file f))) + - n);
               h_alloc := h_alloc f |}.
Proof.
  rewrite bytes_max_eq. intros Hn. unfold f_seek_end.
  change (- 2 ^ 63) with (-9223372036854775808).
  change (2 ^ 63 - 1) with 9223372036854775807.
  destruct (Z.ltb_spec (- n) (-9223372036854775808)); [lia|].
  by destruct (Z.ltb_spec 9223372036854775807 (- n)); [lia|].
Qed.

Lemma seek_read_clean f n :
  bad_offsets (h_file f) = [] → 0 ≤ n ≤ Z.of_nat (length (data (h_file f))) →
  n ≤ bytes_max → n ≤ Z.pos (h_alloc f) →
  seek_read f n
  = Ok (Base64.b64encode
          (drop (length (data (h_file f)) - Z.to_nat n) (data (h_file f)))).
Proof.
  intros Hbad Hn Hmax Halloc. unfold seek_read. rewrite f_seek_end_fits by lia.
  destruct (Z.ltb_spec (Z.of_nat (length (data (h_file f))) + - n) 0); [lia|].
  rewrite f_read_clean by (done || (simpl; lia)). cbn [h_file h_pos].
  replace (Z.to_nat (Z.of_nat (length (data (h_file f))) + - n))
    with (length (data (h_file f)) - Z.to_nat n)%nat by lia.
  rewrite take_ge; [done|]. rewrite length_drop. lia.
Qed.

Lemma seek_read_short f n :
  Z.of_nat (length (data (h_file f))) < n → n ≤ bytes_max →
  seek_read f n = Raise OSError.
Proof.
  intros Hn Hmax. unfold seek_read. rewrite f_seek_end_fits by lia.
  by destruct (Z.ltb_spec (Z.of_nat (length (data (h_file f))) + - n) 0); [|lia].
Qed.

(** The tail sample does not depend on where the head read left the
    position. *)
Lemma sample_tail_any_pos read_bytes file p p' a :
  sample_tail read_bytes {| h_file := file; h_pos := p; h_alloc := a |}
  = sample_tail read_bytes {| h_file := file; h_pos := p'; h_alloc := a |}.
Proof. done. Qed.

Lemma sample_head_clean read_bytes f :
  bad_offsets (h_file f) = [] → 0 ≤ read_bytes ≤ bytes_max →
  read_bytes ≤ Z.pos (h_alloc f) →
  ∃ f', (h_file f' = h_file f ∧ h_alloc f' = h_alloc f)
    ∧ sample_head read_bytes f
      = (Go (Base64.b64encode
               (take (Z.to_nat read_bytes) (drop (h_pos f) (data (h_file f)))), f'),
         []).
Proof.
  intros Hbad Hn Halloc. unfold sample_head. rewrite f_read_clean by done.
  eexists. split; [|reflexivity]. done.
Qed.

Lemma sample_tail_clean read_bytes f :
  bad_offsets (h_file f) = [] → 0 ≤ read_bytes ≤ bytes_max →
  read_bytes ≤ Z.pos (h_alloc f) →
  data (h_file f) ≠ [] ∨ read_bytes = 0 →
  sample_tail read_bytes f
  = (Go (Base64.b64encode (tail_sample read_bytes (data (h_file f)))), []).
Proof.
  intros Hbad Hn Halloc Hdata. unfold sample_tail, tail_sample.
  pose proof bytes_max_eq as Hmax.
  destruct (Z.ltb_spec (Z.of_nat (length (data (h_file f)))) read_bytes).
  - assert (0 < length (data (h_file f)))%nat.
    { destruct Hdata as [Hdata| ->]; [|lia].
      destruct (data (h_file f)); [done|simpl; lia]. }
    rewrite seek_read_short by (done || lia).
    rewrite seek_read_clean by (done || (unfold min_read_bytes; lia)). done.
  - by rewrite seek_read_clean by (done || lia).
Qed.




(** ** The stages of verify_dupes *)



Lemma dict_append_nonempty {A : Type} key (x : A) d : dict_append key x d ≠ [].
Proof.
  unfold dict_append. destruct (dict_has key d) eqn:Hhas.
  - apply dict_has_true in Hhas. destruct d; [by apply elem_of_nil in Hhas|done].
  - by destruct d.
Qed.

Lemma foldl_dict_append_nonempty {A B : Type} (k : B → string) (h : B → A)
    (ys : list B) (d : list (string * list A)) :
  ys ≠ [] ∨ d ≠ [] → foldl (λ d y, dict_append (k y) (h y) d) d ys ≠ [].
Proof.
  revert d. induction ys as [|y ys IH]; intros d Hne.
  - by destruct Hne.
  - cbn [foldl]. apply IH. right. apply dict_append_nonempty.
Qed.


Lemma sample_files_NoDup w cfg fl : ∀ dups file_count dups' file_count' ev,
  sample_files w cfg fl dups file_count = (Ok (dups', file_count'), ev) →
  NoDup dups.*1 → NoDup dups'.*1.
Proof.
  induction fl as [|f fl IH]; intros dups file_count dups' file_count' ev.
  - by intros [= <- <- <-].
  - cbn [sample_files]. destruct (sample_file w cfg f) as [[bytehash| |e] ev0].
    + destruct (sample_files w cfg fl _ _) as [r ev1] eqn:Hrest.
      intros [= -> <-] Hnd. eapply IH; [done|].
      by apply dict_append_keys_NoDup.
    + destruct (sample_files w cfg fl _ _) as [r ev1] eqn:Hrest.
      intros [= -> <-] Hnd. by eapply IH.
    + done.
Qed.

Lemma drop_singletons_filter {A : Type} (dups : list (string * list A)) :
  NoDup dups.*1 →
  drop_singletons dups = filter (λ kv, (2 ≤ length kv.2)%nat) dups.
Proof.
  intros Hnd. unfold drop_singletons.
  rewrite (dict_del_own_keys (λ kv, (length kv.2 < 2)%nat)) by done.
  apply list_filter_iff. intros kv. lia.
Qed.

Lemma drop_singletons_nil {A : Type} (dups : list (string * list A)) :
  NoDup dups.*1 →
  drop_singletons dups = [] ↔ Forall (λ kv, (length kv.2 < 2)%nat) dups.
Proof.
  intros Hnd. rewrite drop_singletons_filter by done.
  rewrite Forall_forall. split.
  - intros Hnil kv Hkv. destruct (decide (2 ≤ length kv.2)%nat) as [Hlen|]; [|lia].
    by destruct (filter_nil_not_elem_of _ _ kv Hnil Hlen).
  - intros Hall. induction dups as [|kv d IH]; [done|].
    apply NoDup_cons in Hnd as [_ Hnd].
    rewrite filter_cons_False.
    + apply IH; [done|]. intros kv' Hkv'. apply Hall. by right.
    + specialize (Hall kv ltac:(by left)). lia.
Qed.

Lemma drain_nonempty out_q d d' : drain out_q d = Returned d' → d' ≠ [].
Proof.
  destruct out_q as [|item out_q]; [done|]. intros [= <-].
  apply (foldl_dict_append_nonempty snd fst). right. apply dict_append_nonempty.
Qed.

Lemma hash_buckets_nonempty w cfg cliargs buckets : ∀ d d' ev,
  hash_buckets w cfg cliargs buckets d = (Returned d', ev) →
  buckets ≠ [] ∨ d ≠ [] → d' ≠ [].
Proof.
  induction buckets as [|[key value] buckets IH]; intros d d' ev.
  - intros [= <- <-] [?|?]; done.
  - cbn [hash_buckets]. destruct (join_pool w cfg _) as [[out_q|e|] ev0]; try done.
    destruct (drain out_q d) as [d1|e|] eqn:Hdrain; try done.
    destruct (hash_buckets w cfg cliargs buckets d1) as [r ev1] eqn:Hrest.
    intros [= -> <-] _. eapply IH; [done|]. right. by eapply drain_nonempty.
Qed.

(** What [verify_dupes] returns when it returns the group. *)
Lemma verify_dupes_returned w cfg g cliargs g' ev :
  verify_dupes w cfg g cliargs = (Returned (Some g'), ev) →
  g' = {| filehash := filehash g;
          files := update_md5 (md5_groups w cfg g cliargs) (files g) |}.
Proof.
  unfold verify_dupes, md5_groups.
  destruct (sample_files w cfg (files g) [] 0) as [[[dups n]|e] ev0]; [|done].
  destruct (n =? 0); [done|].
  destruct (drop_singletons dups) as [|b bs] eqn:Hdrop; [done|].
  destruct (hash_buckets w cfg cliargs (b :: bs) []) as [[d|e|] ev1]; try done.
  destruct d; [done|]. by intros [= <- <-].
Qed.





Lemma example_world_fair files : fair_pool (example_world files).
Proof. intros l. simpl. by rewrite reverse_Permutation. Qed.

(** ** verify_dupes: identical content *)




(** ** verify_dupes: short files *)





(** ** verify_dupes: files that fail while they are hashed *)

(** A bucket all of whose items the workers drop leaves
    [file_out_thread_q] empty, and the drain loop waits on it for ever,
    whatever buckets follow. *)
Lemma hash_buckets_blocks_on_dropped_bucket w cfg cliargs key value buckets d :
  fair_pool w →
  (∀ file : Entry, file ∈ value →
     ∃ ev, md5_hasher w cfg (file.1.1, file.1.2, file.2, cliargs)
           = (Returned None, ev)) →
  (hash_buckets w cfg cliargs ((key, value) :: buckets) d).1 = Blocked.
Proof.
  intros Hfair Hdrop. cbn [hash_buckets].
  assert (∃ ev, pool_results w cfg
                  ((λ file : Entry, (file.1.1, file.1.2, file.2, cliargs)) <$> value)
                = (Returned [], ev)) as [ev Hres].
  { induction value as [|file value IH]; [by eexists|].
    destruct (Hdrop file) as [ev Hfile]; [by left|].
    destruct IH as [ev' Hrest]; [intros file' Hfile'; apply Hdrop; by right|].
    rewrite fmap_cons. cbn [pool_results]. rewrite Hfile, Hrest. by eexists. }
  unfold join_pool. rewrite Hres.
  destruct ((λ file : Entry, (file.1.1, file.1.2, file.2, cliargs)) <$> value);
    [done|].
  destruct (start_file_threads cfg =? 0)%nat; [done|].
  pose proof (Hfair []) as Hnil. apply Permutation_nil_r in Hnil.
  by rewrite Hnil.
Qed.

(** C3.  Two identical files whose first and last 64 bytes can be read
    but whose full read fails: both pass the sampling stage and share a
    bucket, both workers warn and drop their item, [join()] returns with
    an empty [file_out_thread_q], and the [get()] that follows never
    returns.  [verify_dupes] neither returns nor raises. *)
Theorem verify_dupes_blocks_on_unhashable_bucket :
  (∀ name, name ∈ [ "/data/d1"; "/data/d2" ] →
     ∃ bytehash ev,
       sample_file damaged_world (example_cfg 64 "false")
         (example_record name "2019-03-01T12:00:00") = (Go bytehash, ev))
  ∧ (∀ name, name ∈ [ "/data/d1"; "/data/d2" ] →
       md5_hasher damaged_world (example_cfg 64 "false")
         (name, "2019-03-01T12:00:00", "2019-03-01T12:00:00", example_cliargs)
       = (Returned None, [ WarnOS OSError ]))
  ∧ verify_dupes damaged_world (example_cfg 64 "false")
      (group_of_names [ "/data/d1"; "/data/d2" ]) example_cliargs
    = (Blocked, [ WarnOS OSError; WarnOS OSError ]).
Proof.
  split; [|split].
  - intros name Hname. each_member Hname ltac:(by eexists _, _).
  - intros name Hname. each_member Hname ltac:(by vm_compute).
  - by vm_compute.
Qed.

(** ** verify_dupes: when nothing is confirmed *)

(** C4.  Two files with the same head and tail sample and different
    content: the one sample bucket of two splits into two md5 groups of
    one file each, so there is no md5 group of two or more, and yet the
    result is not [None] but the group, unchanged. *)
Theorem singleton_md5_groups_return_the_group :
  md5_groups text_world (example_cfg 4 "true")
    (group_of_names [ "/data/a"; "/data/c" ]) example_cliargs
  = [ ("99b1ff8f11781541f7f89f9bd41c4a17", [ "/data/c" ]);
      ("5eb63bbbe01eeed093cb22bb8f5acdc3", [ "/data/a" ]) ]
  ∧ (verify_dupes text_world (example_cfg 4 "true")
       (group_of_names [ "/data/a"; "/data/c" ]) example_cliargs).1
    = Returned (Some (group_of_names [ "/data/a"; "/data/c" ])).
Proof. by vm_compute. Qed.

Lemma update_md5_singletons d fl :
  Forall (λ kv, (length kv.2 < 2)%nat) d → update_md5 d fl = fl.
Proof.
  intros Hall. rewrite update_md5_map. rewrite <- (list_fmap_id fl) at 2.
  apply list_fmap_ext. intros i f _. apply mark_unconfirmed.
  intros kv Hkv Hlen. rewrite Forall_forall in Hall.
  specialize (Hall kv Hkv). lia.
Qed.

(** X1.  [verify_dupes] returns [None] exactly when the sampling stage ends
    without an exception and either no file came through it or no sample
    bucket has two or more members.  Once a bucket of two or more exists
    and the hash stage comes to its end, [dups_md5] is not empty (the
    test [if not dups_md5] never succeeds) and the result is the group,
    with the [md5] keys written for the md5 groups of two or more; when
    every md5 group is a singleton, that is the group unchanged. *)
Theorem verify_dupes_none_iff (w : World) (cfg : Config) (g : HashGroup)
    (cliargs : Cliargs) :
  ((verify_dupes w cfg g cliargs).1 = Returned None ↔
   ∃ dups file_count ev,
     sample_files w cfg (files g) [] 0 = (Ok (dups, file_count), ev)
     ∧ (file_count = 0 ∨ Forall (λ kv, (length kv.2 < 2)%nat) dups))
  ∧ (∀ dups file_count ev dups_md5 ev',
       sample_files w cfg (files g) [] 0 = (Ok (dups, file_count), ev) →
       file_count ≠ 0 → ¬ Forall (λ kv, (length kv.2 < 2)%nat) dups →
       hash_buckets w cfg cliargs (drop_singletons dups) [] = (Returned dups_md5, ev') →
       dups_md5 ≠ []
       ∧ verify_dupes w cfg g cliargs
         = (Returned (Some {| filehash := filehash g;
                              files := update_md5 dups_md5 (files g) |}),
            ev ++ ev')
       ∧ (Forall (λ kv, (length kv.2 < 2)%nat) dups_md5 →
          update_md5 dups_md5 (files g) = files g)).
Proof.
  split.
  - unfold verify_dupes.
    destruct (sample_files w cfg (files g) [] 0) as [[[dups n]|e] ev] eqn:Hsample.
    2:{ split; [done|]. by intros (? & ? & ? & [=] & _). }
    pose proof (sample_files_NoDup _ _ _ _ _ _ _ _ Hsample (NoDup_nil_2)) as Hnd.
    destruct (Z.eqb_spec n 0) as [->|Hn].
    { split; [|done]. intros _. exists dups, 0, ev. split; [done|by left]. }
    destruct (drop_singletons dups) as [|b bs] eqn:Hdrop.
    { apply drop_singletons_nil in Hdrop; [|done].
      split; [|done]. intros _. exists dups, n, ev. split; [done|by right]. }
    assert (¬ Forall (λ kv, (length kv.2 < 2)%nat) dups) as Hmulti.
    { intros Hall. apply drop_singletons_nil in Hall; [|done]. congruence. }
    destruct (hash_buckets w cfg cliargs (b :: bs) []) as [[d|e|] ev'] eqn:Hhash.
    + apply hash_buckets_nonempty in Hhash; [|by left].
      destruct d; [done|]. split; [done|].
      intros (? & ? & ? & [= <- <- <-] & [?|?]); done.
    + split; [done|]. intros (? & ? & ? & [= <- <- <-] & [?|?]); done.
    + split; [done|]. intros (? & ? & ? & [= <- <- <-] & [?|?]); done.
  - intros dups n ev d ev' Hsample Hn Hmulti Hhash.
    pose proof (sample_files_NoDup _ _ _ _ _ _ _ _ Hsample (NoDup_nil_2)) as Hnd.
    assert (drop_singletons dups ≠ []) as Hdrop
      by (by rewrite drop_singletons_nil).
    assert (d ≠ []) as Hd by (eapply hash_buckets_nonempty; [done|by left]).
    split; [done|]. split; [|apply update_md5_singletons].
    unfold verify_dupes. rewrite Hsample.
    destruct (Z.eqb_spec n 0); [done|].
    destruct (drop_singletons dups); [done|]. rewrite Hhash. by destruct d.
Qed.

(** ** Restoring the times *)

(** C5.  With [dupes_restoretimes] on and a recorded access time that
    does not match the format, the parse is outside the guarded
    [os.utime]: in the sampling loop the [ValueError] leaves
    [verify_dupes], and in the worker, after the MD5 of the file was
    computed, the outer handler warns and drops the item, so no result
    reaches [file_out_thread_q]. *)
Theorem restore_times_parse_failure_escapes :
  mktime_strptime text_world "2019-03-01T12:00:00.5" = None
  ∧ verify_dupes text_world (example_cfg 4 "true")
      {| filehash := "f1";
         files := [ example_record "/data/a" "2019-03-01T12:00:00.5";
                    example_record "/data/b" "2019-03-01T12:00:00" ] |}
      example_cliargs
    = (Raised ValueError, [])
  ∧ md5_of_file text_world (example_cfg 4 "true") "/data/a"
    = Some (Ok "5eb63bbbe01eeed093cb22bb8f5acdc3")
  ∧ md5_hasher text_world (example_cfg 4 "true")
      ("/data/a", "2019-03-01T12:00:00.5", "2019-03-01T12:00:00", example_cliargs)
    = (Returned None, [ WarnExc ValueError ]).
Proof. by vm_compute. Qed.

(** A failing [os.utime] itself is swallowed: once both times parse,
    restoring never raises. *)
Lemma restore_times_utime_swallowed w cfg name at_ mt a m :
  mktime_strptime w at_ = Some a → mktime_strptime w mt = Some m →
  ∃ ev, restore_times w cfg name at_ mt = (Ok tt, ev).
Proof.
  intros Ha Hm. apply restore_times_ok. intros _. by split; eexists.
Qed.

(** ** verify_dupes: what it leaves untouched *)

Lemma finder_records_md5_empty pages k v f :
  (k, v) ∈ scroll pages [] → f ∈ v → md5 f = "".
Proof.
  intros Hkv Hf. apply grouped_bucket in Hkv as [-> _].
  by apply list_elem_of_fmap in Hf as (hit & -> & _).
Qed.

(** C10.  When [verify_dupes] returns a group, what it returns is the
    reference it was given; no other object changed; in the object the
    fingerprint and the number of files are as before, and every file
    keeps its id, name and times.  The [md5] of a file changes only if
    its name is in an md5 group of two or more names, and then it is that
    group's digest; the [md5] of any other file is what it was, which for
    a record built by [dupes_finder] is the empty string. *)
Theorem verify_dupes_frame (w : World) (cfg : Config) (heap : nat → HashGroup)
    (r : nat) (cliargs : Cliargs) (r' : nat) (heap' : nat → HashGroup)
    (ev : list Event) :
  verify_dupes_ref w cfg heap r cliargs = (Returned (Some r'), heap', ev) →
  r' = r
  ∧ (∀ l, l ≠ r → heap' l = heap l)
  ∧ filehash (heap' r) = filehash (heap r)
  ∧ length (files (heap' r)) = length (files (heap r))
  ∧ (∀ i f, files (heap r) !! i = Some f →
       ∃ f', files (heap' r) !! i = Some f'
         ∧ file_id f' = file_id f ∧ filename f' = filename f
         ∧ atime f' = atime f ∧ mtime f' = mtime f
         ∧ (md5 f' = md5 f
            ∨ ∃ key names, (key, names) ∈ md5_groups w cfg (heap r) cliargs
                ∧ (2 ≤ length names)%nat ∧ filename f ∈ names ∧ md5 f' = key)
         ∧ ((∀ key names, (key, names) ∈ md5_groups w cfg (heap r) cliargs →
               (2 ≤ length names)%nat → filename f ∉ names) →
            md5 f' = md5 f))
  ∧ (∀ pages k v f, (k, v) ∈ scroll pages [] → f ∈ v → md5 f = "").
Proof.
  unfold verify_dupes_ref.
  destruct (verify_dupes w cfg (heap r) cliargs) as [[[g'|]|e|] ev0] eqn:Hv;
    try done.
  intros [= <- <- <-]. apply verify_dupes_returned in Hv as ->.
  split; [done|]. split; [intros l Hl; by rewrite fn_lookup_insert_ne|].
  rewrite fn_lookup_insert. cbn [filehash files].
  rewrite update_md5_map. split; [done|]. split; [by rewrite length_fmap|].
  split; [|apply finder_records_md5_empty].
  intros i f Hf. exists (mark (md5_groups w cfg (heap r) cliargs) f).
  split; [by rewrite list_lookup_fmap, Hf|].
  destruct (mark_frame (md5_groups w cfg (heap r) cliargs) f) as (-> & -> & -> & ->).
  do 4 (split; [done|]). split.
  - destruct (mark_md5 (md5_groups w cfg (heap r) cliargs) f)
      as [?|([key names] & ? & ? & ? & ?)]; [by left|].
    right. by exists key, names.
  - intros Hno. rewrite mark_unconfirmed; [done|].
    intros [key names]. apply Hno.
Qed.

Lemma verify_dupes_frame_witness :
  let g := group_of_names [ "/data/a"; "/data/b"; "/data/c" ] in
  let res := verify_dupes_ref text_world (example_cfg 4 "true") (λ _, g) 0%nat
               example_cliargs in
  res.1.1 = Returned (Some 0%nat)
  ∧ md5 <$> files (res.1.2 0%nat)
    = [ "5eb63bbbe01eeed093cb22bb8f5acdc3"; "5eb63bbbe01eeed093cb22bb8f5acdc3"; "" ]
  ∧ (0%nat = 0%nat
     ∧ (∀ l, l ≠ 0%nat → res.1.2 l = g)
     ∧ filehash (res.1.2 0%nat) = filehash g
     ∧ length (files (res.1.2 0%nat)) = length (files g)
     ∧ (∀ i f, files g !! i = Some f →
          ∃ f', files (res.1.2 0%nat) !! i = Some f'
            ∧ file_id f' = file_id f ∧ filename f' = filename f
            ∧ atime f' = atime f ∧ mtime f' = mtime f
            ∧ (md5 f' = md5 f
               ∨ ∃ key names,
                   (key, names) ∈ md5_groups text_world (example_cfg 4 "true") g
                                     example_cliargs
                   ∧ (2 ≤ length names)%nat ∧ filename f ∈ names ∧ md5 f' = key)
            ∧ ((∀ key names,
                  (key, names) ∈ md5_groups text_world (example_cfg 4 "true") g
                                    example_cliargs →
                  (2 ≤ length names)%nat → filename f ∉ names) →
               md5 f' = md5 f))
     ∧ (∀ pages k v f, (k, v) ∈ scroll pages [] → f ∈ v → md5 f = "")).
Proof.
  intros g res. split; [by vm_compute|]. split; [by vm_compute|].
  apply (verify_dupes_frame text_world (example_cfg 4 "true") (λ _, g) 0%nat
           example_cliargs 0%nat (res.1.2) (res.2)).
  by vm_compute.
Defined.

(** ** md5_hasher: what a digest is a digest of *)

Lemma f_read_ok_inv f n buf f' :
  f_read f n = Ok (buf, f') →
  f' = {| h_file := h_file f; h_pos := h_pos f + length buf;
          h_alloc := h_alloc f |}
  ∧ buf ++ drop (h_pos f + length buf) (data (h_file f))
    = drop (h_pos f) (data (h_file f))
  ∧ (buf = [] → n ≠ 0 → drop (h_pos f) (data (h_file f)) = []).
Proof.
  intros Hread. pose proof (f_read_file _ _ _ _ Hread) as (_ & _ & _ & _ & Hnil).
  revert Hread. unfold f_read. destruct (read_refused _ _); [done|].
  destruct (existsb _ _); [done|]. intros [= <- <-]. split; [done|].
  split; [|by apply Hnil]. rewrite <- drop_drop. destruct (n =? -1).
  - by rewrite drop_all, app_nil_r.
  - apply take_drop_length.
Qed.

Lemma md5_read_loop_sound fuel : ∀ f rs hasher buf r,
  rs ≠ 0 →
  (buf = [] → drop (h_pos f) (data (h_file f)) = []) →
  md5_read_loop fuel f rs hasher buf = Some (Ok r) →
  r = hasher ++ buf ++ drop (h_pos f) (data (h_file f)).
Proof.
  induction fuel as [|fuel IH]; intros f rs hasher buf r Hrs Hnil.
  - destruct buf; [|done]. simpl. intros [= <-]. by rewrite Hnil, app_nil_r.
  - destruct buf as [|b buf].
    { simpl. intros [= <-]. by rewrite Hnil, app_nil_r. }
    cbn [md5_read_loop].
    destruct (f_read f rs) as [[buf' f']|e] eqn:Hread; [|done].
    apply f_read_ok_inv in Hread as (-> & Hrest & Hend).
    intros Hloop. apply IH in Hloop; [|done|].
    + rewrite Hloop. cbn [h_file h_pos]. by rewrite Hrest, <- app_assoc.
    + cbn [h_file h_pos]. intros ->. rewrite Nat.add_0_r. by apply Hend.
Qed.

Lemma md5_of_file_sound w cfg name h :
  md5_readsize cfg ≠ 0 → md5_of_file w cfg name = Some (Ok h) →
  ∃ file, fs w !! name = Some file ∧ h = MD5.hexdigest (data file).
Proof.
  intros Hrs Hmd5. unfold md5_of_file, py_open in Hmd5.
  destruct (fs w !! name) as [file|] eqn:Hfile; [|done]. exists file.
  split; [done|].
  destruct (f_read _ (md5_readsize cfg)) as [[buf f']|e] eqn:Hread; [|done].
  apply f_read_ok_inv in Hread as (-> & Hrest & Hend). cbn [h_file h_pos] in *.
  rewrite drop_0 in Hrest, Hend.
  destruct (md5_read_loop _ _ _ _ _) as [[hasher|e]|] eqn:Hloop; try done.
  injection Hmd5 as <-.
  apply md5_read_loop_sound in Hloop; [|done|].
  - f_equal. rewrite Hloop. cbn [h_file h_pos app]. done.
  - cbn [h_file h_pos]. intros ->. rewrite Nat.add_0_l, drop_0. by apply Hend.
Qed.

Lemma md5_hasher_put w cfg name at_ mt cliargs r ev :
  md5_hasher w cfg (name, at_, mt, cliargs) = (Returned (Some r), ev) →
  r.1 = name ∧ md5_of_file w cfg name = Some (Ok r.2).
Proof.
  unfold md5_hasher.
  destruct (md5_of_file w cfg name) as [[h|[]]|]; try done.
  destruct (restore_times w cfg name at_ mt) as [[[]|[]] ev']; try done.
  by intros [= <- <-].
Qed.

(** X3.  With a block size other than 0 a worker never puts the digest
    of a part of a file: when a turn puts [(name, h)] on
    [file_out_thread_q], the name is the one it was given, the file could
    be opened and [h] is the MD5 digest of its whole content, whether it
    was read in blocks or, with -1, at once. *)
Theorem md5_hasher_whole_file (w : World) (cfg : Config) (name at_ mt : string)
    (cliargs : Cliargs) (r : string * string) (ev : list Event) :
  md5_readsize cfg ≠ 0 →
  md5_hasher w cfg (name, at_, mt, cliargs) = (Returned (Some r), ev) →
  r.1 = name ∧ ∃ file, fs w !! name = Some file ∧ r.2 = MD5.hexdigest (data file).
Proof.
  intros Hrs Hput. apply md5_hasher_put in Hput as [Hname Hmd5].
  split; [done|]. by apply md5_of_file_sound in Hmd5.
Qed.

Lemma md5_hasher_whole_file_witness :
  ("/data/a", "5eb63bbbe01eeed093cb22bb8f5acdc3").1 = "/data/a"
  ∧ ∃ file, fs text_world !! "/data/a" = Some file
      ∧ ("/data/a", "5eb63bbbe01eeed093cb22bb8f5acdc3").2 = MD5.hexdigest (data file).
Proof.
  apply (md5_hasher_whole_file text_world (example_cfg 4 "true") "/data/a"
           "2019-03-01T12:00:00" "2019-03-01T12:00:00" example_cliargs
           ("/data/a", "5eb63bbbe01eeed093cb22bb8f5acdc3")
           [ Utime "/data/a" 1551441600 1551441600 ]).
  - discriminate.
  - by vm_compute.
Defined.

Lemma md5_of_file_zero w cfg name file :
  md5_readsize cfg = 0 → fs w !! name = Some file →
  md5_of_file w cfg name = Some (Ok (MD5.hexdigest [])).
Proof.
  intros Hrs Hfile.
  unfold md5_of_file, py_open, f_read. rewrite Hfile, Hrs.
  rewrite read_refused_zero. cbn [h_file h_pos].
  rewrite take_0. cbn [length Z.ltb Z.eqb Z.compare].
  by rewrite no_bad_offset_in_empty_read.
Qed.

(** X4.  With a block size of 0 the first read returns nothing and the
    loop is never entered: every file that can be opened, whatever its
    content and whatever cannot be read of it, gets the MD5 digest of the
    empty input. *)
Theorem md5_of_file_zero_block (w : World) (cfg : Config) (name : string)
    (file : File) :
  md5_readsize cfg = 0 → fs w !! name = Some file →
  md5_of_file w cfg name = Some (Ok (MD5.hexdigest []))
  ∧ MD5.hexdigest [] = "d41d8cd98f00b204e9800998ecf8427e".
Proof.
  intros Hrs Hfile. split; [by eapply md5_of_file_zero|apply md5_empty].
Qed.

Lemma md5_of_file_zero_block_witness :
  md5_of_file damaged_world
    {| dupes_threads := 8; md5_readsize := 0; dupes_restoretimes := "false";
       dupes_checkbytes := 64; dupes_maxsize := 1073741824;
       es_scrollsize := 1000; es_timeout := 30; redis_ttl := 500 |}
    "/data/d1"
  = Some (Ok (MD5.hexdigest []))
  ∧ MD5.hexdigest [] = "d41d8cd98f00b204e9800998ecf8427e".
Proof.
  apply (md5_of_file_zero_block damaged_world _ "/data/d1" damaged_file).
  - reflexivity.
  - reflexivity.
Defined.

(** ** Members of the buckets *)

Lemma dict_all_nil {A : Type} (P : string → A → Prop) : dict_all P [].
Proof. intros key v x Hin. by apply elem_of_nil in Hin. Qed.

Lemma dict_all_append {A : Type} (P : string → A → Prop) key x d :
  dict_all P d → P key x → dict_all P (dict_append key x d).
Proof.
  intros Hd Hx key' v' x' Hin Hx'. unfold dict_append in Hin.
  destruct (dict_has key d).
  - unfold dict_alter in Hin. apply list_elem_of_fmap in Hin as ([k v] & Heq & Hkv).
    simpl in Heq. case_decide as Hk.
    + injection Heq as -> ->. subst k.
      apply elem_of_app in Hx' as [Hx'|Hx'%list_elem_of_singleton].
      * by apply (Hd key v).
      * by subst x'.
    + injection Heq as -> ->. by apply (Hd k v).
  - apply elem_of_app in Hin as [Hin|Hin%list_elem_of_singleton].
    + by apply (Hd key' v').
    + injection Hin as -> ->. apply list_elem_of_singleton in Hx'. by subst x'.
Qed.

Lemma dict_all_foldl {A B : Type} (P : string → A → Prop) (k : B → string)
    (h : B → A) (ys : list B) : ∀ d,
  dict_all P d → (∀ y, y ∈ ys → P (k y) (h y)) →
  dict_all P (foldl (λ d y, dict_append (k y) (h y) d) d ys).
Proof.
  induction ys as [|y ys IH]; intros d Hd Hys; [done|].
  cbn [foldl]. apply IH.
  - apply dict_all_append; [done|]. apply Hys. by left.
  - intros y' Hy'. apply Hys. by right.
Qed.

Lemma drop_singletons_elem {A : Type} (d : list (string * list A)) kv :
  kv ∈ drop_singletons d → kv ∈ d.
Proof.
  unfold drop_singletons. rewrite dict_del_keys.
  by intros [_ ?]%list_elem_of_filter.
Qed.

Lemma dict_all_drop_singletons {A : Type} (P : string → A → Prop) d :
  dict_all P d → dict_all P (drop_singletons d).
Proof.
  intros Hd key v x Hin. apply (Hd key v). by apply drop_singletons_elem.
Qed.

Lemma sample_files_all w cfg (Q : string → Entry → Prop) fl :
  ∀ dups file_count dups' file_count' ev,
  sample_files w cfg fl dups file_count = (Ok (dups', file_count'), ev) →
  dict_all Q dups →
  (∀ f bytehash ev', f ∈ fl → sample_file w cfg f = (Go bytehash, ev') →
     Q bytehash (entry_of f)) →
  dict_all Q dups'.
Proof.
  induction fl as [|f fl IH]; intros dups n dups' n' ev.
  - by intros [= <- <- <-].
  - cbn [sample_files].
    destruct (sample_file w cfg f) as [[bytehash| |e] ev0] eqn:Hf.
    + destruct (sample_files w cfg fl _ _) as [r ev1] eqn:Hrest.
      intros [= -> <-] Hd HQ. eapply IH; [done| |].
      * apply dict_all_append; [done|]. eapply (HQ f); [by left|done].
      * intros f' sig ev' Hf'. apply HQ. by right.
    + destruct (sample_files w cfg fl _ _) as [r ev1] eqn:Hrest.
      intros [= -> <-] Hd HQ. eapply IH; [done|done|].
      intros f' sig ev' Hf'. apply HQ. by right.
    + done.
Qed.

(** ** verify_dupes: the digests it writes *)

Lemma pool_results_sound w cfg items : ∀ rs ev,
  pool_results w cfg items = (Returned rs, ev) →
  ∀ r, r ∈ rs → md5_of_file w cfg r.1 = Some (Ok r.2).
Proof.
  induction items as [|[[[name at_] mt] cli] items IH]; intros rs ev.
  - intros [= <- <-] r Hr. by apply elem_of_nil in Hr.
  - cbn [pool_results].
    destruct (md5_hasher w cfg _) as [[o|e|] ev0] eqn:Hit; try done.
    destruct (pool_results w cfg items) as [[rs'|e|] ev1] eqn:Hrest; try done.
    intros [= <- <-] r Hr. apply elem_of_app in Hr as [Hr|Hr].
    + destruct o as [r'|]; [|by apply elem_of_nil in Hr].
      apply list_elem_of_singleton in Hr as ->.
      by apply md5_hasher_put in Hit as [-> ?].
    + by eapply IH.
Qed.

Lemma join_pool_sound w cfg items out_q ev :
  fair_pool w → join_pool w cfg items = (Returned out_q, ev) →
  ∀ r, r ∈ out_q → md5_of_file w cfg r.1 = Some (Ok r.2).
Proof.
  intros Hfair. unfold join_pool. destruct items as [|it items].
  { intros [= <- <-] r Hr. by apply elem_of_nil in Hr. }
  destruct (start_file_threads cfg =? 0)%nat; [done|].
  destruct (pool_results w cfg (it :: items)) as [[rs|e|] ev0] eqn:Hres; try done.
  intros [= <- <-] r Hr. rewrite (Hfair rs) in Hr.
  by eapply pool_results_sound.
Qed.

Lemma hash_buckets_sound w cfg cliargs buckets : ∀ d d' ev,
  fair_pool w →
  hash_buckets w cfg cliargs buckets d = (Returned d', ev) →
  dict_all (λ key name, md5_of_file w cfg name = Some (Ok key)) d →
  dict_all (λ key name, md5_of_file w cfg name = Some (Ok key)) d'.
Proof.
  induction buckets as [|[key value] buckets IH]; intros d d' ev Hfair.
  - by intros [= <- <-].
  - cbn [hash_buckets].
    destruct (join_pool w cfg _) as [[out_q|e|] ev0] eqn:Hjoin; try done.
    destruct (drain out_q d) as [d1|e|] eqn:Hdrain; try done.
    destruct (hash_buckets w cfg cliargs buckets d1) as [r ev1] eqn:Hrest.
    intros [= -> <-] Hd. eapply IH; [done|done|].
    unfold drain in Hdrain. destruct out_q as [|item out_q]; [done|].
    injection Hdrain as <-.
    pose proof (join_pool_sound _ _ _ _ _ Hfair Hjoin) as Hq.
    apply (dict_all_foldl _ snd fst).
    + apply dict_all_append; [done|]. apply Hq. by left.
    + intros r Hr. apply Hq. by right.
Qed.

Lemma md5_groups_sound w cfg g cliargs :
  fair_pool w →
  dict_all (λ key name, md5_of_file w cfg name = Some (Ok key))
           (md5_groups w cfg g cliargs).
Proof.
  intros Hfair. unfold md5_groups.
  destruct (sample_files w cfg (files g) [] 0) as [[[dups n]|e] ev];
    [|apply dict_all_nil].
  destruct (hash_buckets w cfg cliargs _ []) as [[d|e|] ev'] eqn:Hhash;
    try apply dict_all_nil.
  eapply hash_buckets_sound; [done|done|apply dict_all_nil].
Qed.

(** X5.  Every [md5] that [verify_dupes] writes is a true digest: when
    it returns the group, each file either keeps the [md5] it had or has
    the MD5 digest of the full content of the file of its name (a block
    size other than 0, worker threads that only reorder results).  So two files
    that were given the same new [md5] have contents with the same MD5
    digest. *)
Theorem verify_dupes_writes_true_digests (w : World) (cfg : Config)
    (g g' : HashGroup) (cliargs : Cliargs) (ev : list Event) (i : nat)
    (f : FileRecord) :
  fair_pool w → md5_readsize cfg ≠ 0 →
  verify_dupes w cfg g cliargs = (Returned (Some g'), ev) →
  files g !! i = Some f →
  ∃ f', files g' !! i = Some f'
    ∧ (md5 f' = md5 f
       ∨ ∃ file, fs w !! filename f = Some file
                 ∧ md5 f' = MD5.hexdigest (data file)).
Proof.
  intros Hfair Hrs Hv Hf. apply verify_dupes_returned in Hv as ->.
  cbn [files]. rewrite update_md5_map.
  exists (mark (md5_groups w cfg g cliargs) f).
  split; [by rewrite list_lookup_fmap, Hf|].
  destruct (mark_md5 (md5_groups w cfg g cliargs) f)
    as [?|([key names] & Hkv & _ & Hname & Hmd5)]; [by left|].
  right. simpl in *. rewrite Hmd5.
  apply (md5_of_file_sound w cfg); [done|].
  by apply (md5_groups_sound w cfg g cliargs Hfair key names).
Qed.

Lemma verify_dupes_writes_true_digests_witness :
  ∃ f', [ set_md5 "5eb63bbbe01eeed093cb22bb8f5acdc3"
            (example_record "/data/a" "2019-03-01T12:00:00");
          set_md5 "5eb63bbbe01eeed093cb22bb8f5acdc3"
            (example_record "/data/b" "2019-03-01T12:00:00");
          example_record "/data/c" "2019-03-01T12:00:00" ] !! 1%nat = Some f'
    ∧ (md5 f' = md5 (example_record "/data/b" "2019-03-01T12:00:00")
       ∨ ∃ file, fs text_world !! "/data/b" = Some file
                 ∧ md5 f' = MD5.hexdigest (data file)).
Proof.
  apply (verify_dupes_writes_true_digests text_world (example_cfg 4 "true")
           (group_of_names [ "/data/a"; "/data/b"; "/data/c" ])
           {| filehash := "f1";
              files := [ set_md5 "5eb63bbbe01eeed093cb22bb8f5acdc3"
                           (example_record "/data/a" "2019-03-01T12:00:00");
                         set_md5 "5eb63bbbe01eeed093cb22bb8f5acdc3"
                           (example_record "/data/b" "2019-03-01T12:00:00");
                         example_record "/data/c" "2019-03-01T12:00:00" ] |}
           example_cliargs
           (verify_dupes text_world (example_cfg 4 "true")
              (group_of_names [ "/data/a"; "/data/b"; "/data/c" ])
              example_cliargs).2
           1%nat (example_record "/data/b" "2019-03-01T12:00:00")).
  - apply example_world_fair.
  - discriminate.
  - by vm_compute.
  - reflexivity.
Defined.

(** ** verify_dupes: how it can end *)





Lemma md5_hasher_not_raised w cfg item e ev :
  md5_hasher w cfg item ≠ (Raised e, ev).
Proof.
  destruct item as [[[name at_] mt] cli]. unfold md5_hasher.
  destruct (md5_of_file w cfg name) as [[h|[]]|]; try done.
  by destruct (restore_times w cfg name at_ mt) as [[[]|[]] ev'].
Qed.

Lemma pool_results_not_raised w cfg items e ev :
  pool_results w cfg items ≠ (Raised e, ev).
Proof.
  revert ev. induction items as [|it items IH]; intros ev; [done|].
  cbn [pool_results]. pose proof (md5_hasher_not_raised w cfg it) as Hit.
  destruct (md5_hasher w cfg it) as [[r|e'|] ev0];
    [|by destruct (Hit e' ev0)|done].
  destruct (pool_results w cfg items) as [[rs|e'|] ev1] eqn:Hrest; try done.
  intros [= -> <-]. by destruct (IH ev1).
Qed.




(** ** verify_dupes: when it returns *)

Lemma f_read_ok f n :
  bad_offsets (h_file f) = [] → read_refused (h_alloc f) n = None →
  ∃ buf f', f_read f n = Ok (buf, f')
            ∧ h_file f' = h_file f ∧ h_alloc f' = h_alloc f.
Proof.
  intros Hbad Hn. unfold f_read. rewrite Hn, Hbad. cbn [existsb].
  by eexists _, _.
Qed.

Lemma md5_read_loop_no_raise fuel : ∀ f rs hasher buf e,
  bad_offsets (h_file f) = [] → read_refused (h_alloc f) rs = None →
  md5_read_loop fuel f rs hasher buf ≠ Some (Raise e).
Proof.
  induction fuel as [|fuel IH]; intros f rs hasher buf e Hbad Hrs;
    (destruct buf as [|b buf]; [done|]); [done|].
  cbn [md5_read_loop].
  destruct (f_read_ok f rs Hbad Hrs) as (buf' & f' & -> & Hfile & Halloc).
  apply IH; [by rewrite Hfile|by rewrite Halloc].
Qed.

Lemma md5_of_file_readable w cfg name file :
  fs w !! name = Some file → bad_offsets file = [] →
  read_size_ok w (md5_readsize cfg) →
  ∃ h, md5_of_file w cfg name = Some (Ok h).
Proof.
  intros Hfile Hbad Hrs%read_refused_None.
  destruct (md5_of_file_total w cfg name) as [[h|e] Hmd5]; [by eexists|].
  exfalso. revert Hmd5. unfold md5_of_file, py_open. rewrite Hfile.
  destruct (f_read_ok {| h_file := file; h_pos := 0; h_alloc := max_alloc w |}
              (md5_readsize cfg))
    as (buf & f' & -> & Hf' & Ha'); [done..|].
  cbn [h_file h_alloc] in *.
  pose proof (md5_read_loop_no_raise (S (length (data file)))
                f' (md5_readsize cfg) [] buf) as Hloop.
  destruct (md5_read_loop _ f' _ [] buf) as [[hasher|e']|]; try done.
  intros _. apply (Hloop e'); [by rewrite Hf'|by rewrite Ha'|done].
Qed.







(** ** verify_dupes: what it does to the files *)

Lemma expected_event_mono w cfg (P Q : Entry → Prop) e :
  (∀ x, P x → Q x) → expected_event w cfg P e → expected_event w cfg Q e.
Proof.
  intros HPQ [?|(Hon & x & Hx & Hev)]; [by left|].
  right. split; [done|]. exists x. split; [by apply HPQ|done].
Qed.

Lemma restore_times_events w cfg name at_ mt :
  Forall (expected_event w cfg (λ x, x = (name, at_, mt)))
         (restore_times w cfg name at_ mt).2.
Proof.
  unfold restore_times. case_decide as Hon; [|by constructor].
  destruct (mktime_strptime w at_) as [a|] eqn:Ha; [|by constructor].
  destruct (mktime_strptime w mt) as [m|] eqn:Hm; [|by constructor].
  destruct (os_utime w name) as [[]|[]]; apply Forall_singleton;
    try (by left).
  right. split; [done|]. exists (name, at_, mt). split; [done|].
  unfold utime_of. cbn [fst snd]. by rewrite Ha, Hm.
Qed.

Lemma sample_head_events w cfg P read_bytes f :
  Forall (expected_event w cfg P) (sample_head read_bytes f).2.
Proof.
  unfold sample_head. destruct (f_read f read_bytes) as [[buf f']|[]];
    try by constructor.
  destruct (f_read f min_read_bytes) as [[buf f']|e]; repeat constructor.
Qed.

Lemma sample_tail_events w cfg P read_bytes f :
  Forall (expected_event w cfg P) (sample_tail read_bytes f).2.
Proof.
  unfold sample_tail. destruct (seek_read f read_bytes) as [buf|[]];
    try by constructor.
  destruct (seek_read f min_read_bytes) as [buf|e]; repeat constructor.
Qed.

Lemma sample_file_events w cfg f :
  Forall (expected_event w cfg (λ x, x = entry_of f)) (sample_file w cfg f).2.
Proof.
  unfold sample_file.
  destruct (py_open w (filename f)) as [h|[]]; try by repeat constructor.
  pose proof (sample_head_events w cfg (λ x, x = entry_of f)
                (dupes_checkbytes cfg) h) as Hhead.
  destruct (sample_head (dupes_checkbytes cfg) h) as [[[bytes_f h']| |e] ev];
    try done.
  pose proof (sample_tail_events w cfg (λ x, x = entry_of f)
                (dupes_checkbytes cfg) h') as Htail.
  destruct (sample_tail (dupes_checkbytes cfg) h') as [[bytes_l| |e] ev'];
    try (by apply Forall_app).
  pose proof (restore_times_events w cfg (filename f) (atime f) (mtime f)) as Hres.
  destruct (restore_times w cfg (filename f) (atime f) (mtime f)) as [[[]|e] ev''];
    by repeat (apply Forall_app; split).
Qed.

Lemma sample_files_events w cfg fl : ∀ dups file_count,
  Forall (expected_event w cfg (λ x, ∃ f, f ∈ fl ∧ x = entry_of f))
         (sample_files w cfg fl dups file_count).2.
Proof.
  induction fl as [|f fl IH]; intros dups n; [by constructor|].
  cbn [sample_files].
  assert (Forall (expected_event w cfg (λ x, ∃ f', f' ∈ f :: fl ∧ x = entry_of f'))
                 (sample_file w cfg f).2) as Hf.
  { eapply Forall_impl; [apply sample_file_events|].
    intros e. apply expected_event_mono. intros x ->. exists f.
    split; [by left|done]. }
  assert (∀ dups n,
            Forall (expected_event w cfg (λ x, ∃ f', f' ∈ f :: fl ∧ x = entry_of f'))
                   (sample_files w cfg fl dups n).2) as Hrest.
  { intros dups' n'. eapply Forall_impl; [apply IH|].
    intros e. apply expected_event_mono. intros x (f' & Hf' & ->). exists f'.
    split; [by right|done]. }
  destruct (sample_file w cfg f) as [[bytehash| |e] ev0]; [| |done].
  - match goal with
    | |- context [sample_files w cfg fl ?d ?c] =>
        specialize (Hrest d c); destruct (sample_files w cfg fl d c) as [r ev1]
    end.
    by apply Forall_app.
  - specialize (Hrest dups n). destruct (sample_files w cfg fl dups n) as [r ev1].
    by apply Forall_app.
Qed.

Lemma md5_hasher_events w cfg name at_ mt cliargs :
  Forall (expected_event w cfg (λ x, x = (name, at_, mt)))
         (md5_hasher w cfg (name, at_, mt, cliargs)).2.
Proof.
  unfold md5_hasher. destruct (md5_of_file w cfg name) as [[h|[]]|];
    try by repeat constructor.
  pose proof (restore_times_events w cfg name at_ mt) as Hres.
  destruct (restore_times w cfg name at_ mt) as [[[]|[]] ev]; try done;
    (apply Forall_app; split; [done|by repeat constructor]).
Qed.

Lemma pool_results_events w cfg cliargs (value : list Entry) :
  Forall (expected_event w cfg (λ x, x ∈ value))
         (pool_results w cfg
            ((λ file : Entry, (file.1.1, file.1.2, file.2, cliargs)) <$> value)).2.
Proof.
  induction value as [|[[name at_] mt] value IH]; [by constructor|].
  rewrite fmap_cons. cbn [pool_results fst snd].
  assert (Forall (expected_event w cfg (λ x, x ∈ (name, at_, mt) :: value))
                 (md5_hasher w cfg (name, at_, mt, cliargs)).2) as Hit.
  { eapply Forall_impl; [apply md5_hasher_events|].
    intros e. apply expected_event_mono. intros x ->. by left. }
  destruct (md5_hasher w cfg (name, at_, mt, cliargs)) as [[r|e|] ev0]; try done.
  assert (Forall (expected_event w cfg (λ x, x ∈ (name, at_, mt) :: value))
                 (pool_results w cfg
                    ((λ file : Entry, (file.1.1, file.1.2, file.2, cliargs))
                       <$> value)).2) as Hrest.
  { eapply Forall_impl; [apply IH|].
    intros e. apply expected_event_mono. intros x Hx. by right. }
  destruct (pool_results w cfg _) as [[rs|e|] ev1]; by apply Forall_app.
Qed.

Lemma hash_buckets_events w cfg cliargs buckets : ∀ d,
  Forall (expected_event w cfg (λ x, ∃ kv, kv ∈ buckets ∧ x ∈ kv.2))
         (hash_buckets w cfg cliargs buckets d).2.
Proof.
  induction buckets as [|[key value] buckets IH]; intros d; [by constructor|].
  cbn [hash_buckets].
  assert (Forall (expected_event w cfg
                    (λ x, ∃ kv, kv ∈ (key, value) :: buckets ∧ x ∈ kv.2))
                 (join_pool w cfg
                    ((λ file : Entry, (file.1.1, file.1.2, file.2, cliargs))
                       <$> value)).2) as Hjoin.
  { unfold join_pool.
    pose proof (pool_results_events w cfg cliargs value) as Hpool.
    destruct (_ <$> value) as [|it items]; [by constructor|].
    destruct (start_file_threads cfg =? 0)%nat; [by constructor|].
    eapply Forall_impl.
    - destruct (pool_results w cfg (it :: items)) as [[rs|e|] ev0];
        [|exact Hpool..].
      cbn [snd] in *. by rewrite by_rank_Permutation.
    - intros e. apply expected_event_mono. intros x Hx. exists (key, value).
      split; [by left|done]. }
  destruct (join_pool w cfg _) as [[out_q|e|] ev0]; try done.
  destruct (drain out_q d) as [d1|e|]; try done.
  assert (Forall (expected_event w cfg
                    (λ x, ∃ kv, kv ∈ (key, value) :: buckets ∧ x ∈ kv.2))
                 (hash_buckets w cfg cliargs buckets d1).2) as Hrest.
  { eapply Forall_impl; [apply IH|].
    intros e. apply expected_event_mono. intros x (kv & Hkv & Hx). exists kv.
    split; [by right|done]. }
  destruct (hash_buckets w cfg cliargs buckets d1) as [r ev1].
  by apply Forall_app.
Qed.

(** X8.  The only thing [verify_dupes] and its workers do to a file
    besides reading it is to set its times back: every event of a call
    is a warning or, with [dupes_restoretimes] on, a successful
    [os.utime] on a file of the group with that file's recorded times.
    With [dupes_restoretimes] off no [os.utime] is made at all. *)
Theorem verify_dupes_events (w : World) (cfg : Config) (g : HashGroup)
    (cliargs : Cliargs) (e : Event) :
  e ∈ (verify_dupes w cfg g cliargs).2 →
  is_warning e
  ∨ (dupes_restoretimes cfg = "true"
     ∧ ∃ f, f ∈ files g ∧ utime_of w (entry_of f) = Some e).
Proof.
  intros He.
  cut (Forall (expected_event w cfg (λ x, ∃ f, f ∈ files g ∧ x = entry_of f))
              (verify_dupes w cfg g cliargs).2).
  { intros Hall. rewrite Forall_forall in Hall.
    destruct (Hall e He) as [?|(Hon & x & (f & Hf & ->) & Hev)]; [by left|].
    right. split; [done|]. by exists f. }
  clear e He. unfold verify_dupes.
  pose proof (sample_files_events w cfg (files g) [] 0) as Hsample.
  destruct (sample_files w cfg (files g) [] 0) as [[[dups n]|e] ev] eqn:Hs;
    [|done].
  destruct (n =? 0); [done|].
  pose proof (hash_buckets_events w cfg cliargs (drop_singletons dups) []) as Hhash.
  assert (dict_all (λ _ x, ∃ f, f ∈ files g ∧ x = entry_of f)
                   (drop_singletons dups)) as Hmembers.
  { apply dict_all_drop_singletons.
    eapply sample_files_all; [exact Hs|apply dict_all_nil|].
    intros f bytehash ev0 Hf _. by exists f. }
  destruct (drop_singletons dups) as [|b bs]; [done|].
  assert (Forall (expected_event w cfg (λ x, ∃ f, f ∈ files g ∧ x = entry_of f))
                 (hash_buckets w cfg cliargs (b :: bs) []).2) as Hhash'.
  { eapply Forall_impl; [exact Hhash|].
    intros e'. apply expected_event_mono.
    intros x ([k v] & Hkv & Hx). by apply (Hmembers k v). }
  destruct (hash_buckets w cfg cliargs (b :: bs) []) as [[d|e|] ev'];
    try (by apply Forall_app).
  destruct d; by apply Forall_app.
Qed.

Lemma verify_dupes_events_witness :
  Utime "/data/b" 1551441600 1551441600
    ∈ (verify_dupes text_world (example_cfg 4 "true")
         (group_of_names [ "/data/a"; "/data/b" ]) example_cliargs).2
  ∧ (is_warning (Utime "/data/b" 1551441600 1551441600)
     ∨ (dupes_restoretimes (example_cfg 4 "true") = "true"
        ∧ ∃ f, f ∈ files (group_of_names [ "/data/a"; "/data/b" ])
               ∧ utime_of text_world (entry_of f)
                 = Some (Utime "/data/b" 1551441600 1551441600))).
Proof.
  assert (Utime "/data/b" 1551441600 1551441600
            ∈ (verify_dupes text_world (example_cfg 4 "true")
                 (group_of_names [ "/data/a"; "/data/b" ]) example_cliargs).2)
    as Hin.
  { vm_compute. apply list_elem_of_In. vm_compute. tauto. }
  split; [exact Hin|].
  exact (verify_dupes_events text_world (example_cfg 4 "true")
           (group_of_names [ "/data/a"; "/data/b" ]) example_cliargs _ Hin).
Defined.

(** ** verify_dupes: configurations that confirm nothing *)

Lemma drop_singletons_long {A : Type} (d : list (string * list A)) kv :
  kv ∈ drop_singletons d → (2 ≤ length kv.2)%nat.
Proof.
  unfold drop_singletons. rewrite dict_del_keys.
  intros [Hk Hin]%list_elem_of_filter.
  destruct (decide (2 ≤ length kv.2)%nat) as [|Hshort]; [done|].
  exfalso. apply Hk. apply list_elem_of_fmap. exists kv. split; [done|].
  apply list_elem_of_filter. split; [lia|done].
Qed.

Lemma verify_dupes_unconfirmed w cfg g cliargs :
  (∀ b bs, (2 ≤ length b.2)%nat →
     (hash_buckets w cfg cliargs (b :: bs) []).1 = Blocked) →
  (verify_dupes w cfg g cliargs).1 = Blocked
  ∨ (verify_dupes w cfg g cliargs).1 = Returned None
  ∨ ∃ e, (verify_dupes w cfg g cliargs).1 = Raised e.
Proof.
  intros Hblock. unfold verify_dupes.
  destruct (sample_files w cfg (files g) [] 0) as [[[dups n]|e] ev];
    [|right; right; by eexists].
  destruct (n =? 0); [right; by left|].
  pose proof (drop_singletons_long dups) as Hlong.
  destruct (drop_singletons dups) as [|b bs]; [right; by left|].
  specialize (Hblock b bs (Hlong b ltac:(by left))).
  destruct (hash_buckets w cfg cliargs (b :: bs) []) as [[d|e|] ev']; try done.
  by left.
Qed.

Lemma hash_buckets_no_threads w cfg cliargs b bs d :
  dupes_threads cfg ≤ 0 → (2 ≤ length b.2)%nat →
  (hash_buckets w cfg cliargs (b :: bs) d).1 = Blocked.
Proof.
  intros Hthreads Hlen. destruct b as [key value]. cbn [hash_buckets].
  unfold join_pool, start_file_threads.
  destruct value as [|e value]; [simpl in Hlen; lia|]. rewrite fmap_cons.
  by destruct (Nat.eqb_spec (Z.to_nat (dupes_threads cfg)) 0); [|lia].
Qed.

Lemma md5_hasher_refused_block_size w cfg item e :
  read_refused (max_alloc w) (md5_readsize cfg) = Some e →
  ∃ ev, md5_hasher w cfg item = (Returned None, ev).
Proof.
  intros Hrs. destruct item as [[[name at_] mt] cli].
  unfold md5_hasher, md5_of_file, py_open.
  destruct (fs w !! name) as [file|]; [|by eexists].
  unfold f_read. cbn [h_alloc]. rewrite Hrs. destruct e; by eexists.
Qed.

Lemma read_refused_below alloc n : n < -1 → is_Some (read_refused alloc n).
Proof.
  intros Hn. unfold read_refused. destruct (n <? - 2 ^ 63); [by eexists|].
  destruct (Z.ltb_spec n (-1)); [by eexists|lia].
Qed.

Lemma md5_hasher_bad_block_size w cfg item :
  md5_readsize cfg < -1 → ∃ ev, md5_hasher w cfg item = (Returned None, ev).
Proof.
  intros [e He]%(read_refused_below (max_alloc w)).
  by eapply md5_hasher_refused_block_size.
Qed.

(** X9.  With [dupes_threads] at 0 or below no worker is started, the
    [join()] after the first bucket is submitted never returns, and
    [verify_dupes] confirms nothing: it ends with [None] or an
    exception before the hash stage, or it waits for ever. *)
Theorem verify_dupes_without_workers (w : World) (cfg : Config) (g : HashGroup)
    (cliargs : Cliargs) :
  dupes_threads cfg ≤ 0 →
  start_file_threads cfg = 0%nat
  ∧ ((verify_dupes w cfg g cliargs).1 = Blocked
     ∨ (verify_dupes w cfg g cliargs).1 = Returned None
     ∨ ∃ e, (verify_dupes w cfg g cliargs).1 = Raised e).
Proof.
  intros Hthreads. split; [unfold start_file_threads; lia|].
  apply verify_dupes_unconfirmed. intros b bs.
  by apply hash_buckets_no_threads.
Qed.

Lemma verify_dupes_without_workers_witness :
  start_file_threads (example_cfg_with (-2) 65536 4) = 0%nat
  ∧ ((verify_dupes text_world (example_cfg_with (-2) 65536 4)
        (group_of_names [ "/data/a"; "/data/b" ]) example_cliargs).1 = Blocked
     ∨ (verify_dupes text_world (example_cfg_with (-2) 65536 4)
          (group_of_names [ "/data/a"; "/data/b" ]) example_cliargs).1
       = Returned None
     ∨ ∃ e, (verify_dupes text_world (example_cfg_with (-2) 65536 4)
               (group_of_names [ "/data/a"; "/data/b" ]) example_cliargs).1
            = Raised e).
Proof.
  apply (verify_dupes_without_workers text_world (example_cfg_with (-2) 65536 4)
           (group_of_names [ "/data/a"; "/data/b" ]) example_cliargs).
  done.
Defined.

(** X10.  With [md5_readsize] below -1 the first [f.read] of every
    worker turn raises [ValueError] ([OverflowError] below -2^63), which
    the worker's handler turns into a warning: no result is ever put on
    [file_out_thread_q] and [verify_dupes] confirms nothing. *)
Theorem verify_dupes_bad_block_size (w : World) (cfg : Config) (g : HashGroup)
    (cliargs : Cliargs) :
  fair_pool w → md5_readsize cfg < -1 →
  (verify_dupes w cfg g cliargs).1 = Blocked
  ∨ (verify_dupes w cfg g cliargs).1 = Returned None
  ∨ ∃ e, (verify_dupes w cfg g cliargs).1 = Raised e.
Proof.
  intros Hfair Hrs. apply verify_dupes_unconfirmed. intros [key value] bs _.
  apply hash_buckets_blocks_on_dropped_bucket; [done|].
  intros file _. by apply md5_hasher_bad_block_size.
Qed.

Lemma verify_dupes_bad_block_size_witness :
  (verify_dupes text_world (example_cfg_with 8 (-2) 4)
     (group_of_names [ "/data/a"; "/data/b" ]) example_cliargs).1 = Blocked
  ∨ (verify_dupes text_world (example_cfg_with 8 (-2) 4)
       (group_of_names [ "/data/a"; "/data/b" ]) example_cliargs).1
    = Returned None
  ∨ ∃ e, (verify_dupes text_world (example_cfg_with 8 (-2) 4)
            (group_of_names [ "/data/a"; "/data/b" ]) example_cliargs).1
         = Raised e.
Proof.
  apply (verify_dupes_bad_block_size text_world (example_cfg_with 8 (-2) 4)
           (group_of_names [ "/data/a"; "/data/b" ]) example_cliargs).
  - apply example_world_fair.
  - done.
Defined.

(** ** verify_dupes: a sample size that [f.read] refuses *)

Lemma sample_file_bad_sample_size w cfg f e :
  read_refused (max_alloc w) (dupes_checkbytes cfg) = Some e →
  sample_file w cfg f
  = if bool_decide (is_Some (fs w !! filename f))
    then (Throw e, []) else (Continue, [WarnOS OSError]).
Proof.
  intros Hk. unfold sample_file, py_open.
  destruct (fs w !! filename f) as [file|] eqn:Hfile.
  - rewrite bool_decide_eq_true_2 by (by eexists).
    unfold sample_head, f_read. cbn [h_alloc]. rewrite Hk.
    pose proof (read_refused_not_os (max_alloc w) (dupes_checkbytes cfg)) as Hos.
    rewrite Hk in Hos. by destruct e.
  - rewrite bool_decide_eq_false_2; [done|]. by intros [? ?].
Qed.

Lemma sample_files_bad_sample_size w cfg fl dups file_count e :
  read_refused (max_alloc w) (dupes_checkbytes cfg) = Some e →
  (sample_files w cfg fl dups file_count).1
  = if bool_decide (Exists (λ f, is_Some (fs w !! filename f)) fl)
    then Raise e else Ok (dups, file_count).
Proof.
  intros Hk. induction fl as [|f fl IH].
  - rewrite bool_decide_eq_false_2; [done|]. by intros ?%Exists_nil.
  - cbn [sample_files]. rewrite (sample_file_bad_sample_size w cfg f e) by done.
    destruct (decide (is_Some (fs w !! filename f))) as [Hf|Hf].
    + rewrite (bool_decide_eq_true_2 (is_Some _)) by done.
      rewrite bool_decide_eq_true_2; [done|]. by left.
    + rewrite (bool_decide_eq_false_2 (is_Some _)) by done.
      destruct (sample_files w cfg fl dups file_count) as [r ev].
      cbn [fst] in *. rewrite IH.
      destruct (decide (Exists (λ f, is_Some (fs w !! filename f)) fl)) as [He|He].
      * rewrite !bool_decide_eq_true_2; [done|by right|done].
      * rewrite !bool_decide_eq_false_2; [done| |done].
        rewrite Exists_cons. tauto.
Qed.

(** X11.  With a sample size that [f.read] refuses, the head read of the
    first file that can be opened raises what [f.read] raises for that
    size, which no handler of the sampling loop catches, and
    [verify_dupes] raises it, whatever the files hold: [ValueError] for
    a size from -2^63 to -2, [OverflowError] for a size below -2^63 or
    above the largest [bytes] object (2^63 - 34 bytes), [MemoryError] for
    a size up to there that the process cannot allocate.  When no file of
    the group can be opened there is no read and the result is [None]. *)
Theorem verify_dupes_bad_sample_size (w : World) (cfg : Config) (g : HashGroup)
    (cliargs : Cliargs) (e : PyExn) :
  read_refused (max_alloc w) (dupes_checkbytes cfg) = Some e →
  (verify_dupes w cfg g cliargs).1
  = (if bool_decide (Exists (λ f, is_Some (fs w !! filename f)) (files g))
     then Raised e else Returned None)
  ∧ e = (if dupes_checkbytes cfg <? - 2 ^ 63 then OverflowError
         else if dupes_checkbytes cfg <? -1 then ValueError
         else if 2 ^ 63 - 34 <? dupes_checkbytes cfg then OverflowError
         else MemoryError).
Proof.
  intros Hk. split.
  - unfold verify_dupes.
    pose proof (sample_files_bad_sample_size w cfg (files g) [] 0 e Hk) as Hs.
    destruct (sample_files w cfg (files g) [] 0) as [r ev]. cbn [fst] in Hs.
    subst r. by case_bool_decide.
  - revert Hk. unfold read_refused, bytes_max.
    destruct (_ <? - 2 ^ 63); [by intros [= <-]|].
    destruct (_ <? -1); [by intros [= <-]|].
    destruct (2 ^ 63 - 34 <? _); [by intros [= <-]|].
    destruct (_ <? _); [by intros [= <-]|done].
Qed.

Lemma verify_dupes_bad_sample_size_witness :
  ((verify_dupes text_world (example_cfg_with 8 65536 (-2))
      (group_of_names [ "/data/gone"; "/data/a"; "/data/b" ]) example_cliargs).1
   = (if bool_decide (Exists (λ f, is_Some (fs text_world !! filename f))
                        (files (group_of_names
                                  [ "/data/gone"; "/data/a"; "/data/b" ])))
      then Raised ValueError else Returned None)
   ∧ ValueError
     = (if dupes_checkbytes (example_cfg_with 8 65536 (-2)) <? - 2 ^ 63
        then OverflowError
        else if dupes_checkbytes (example_cfg_with 8 65536 (-2)) <? -1
        then ValueError
        else if 2 ^ 63 - 34 <? dupes_checkbytes (example_cfg_with 8 65536 (-2))
        then OverflowError
        else MemoryError))
  ∧ (verify_dupes text_world (example_cfg_with 8 65536 (2 ^ 63))
       (group_of_names [ "/data/gone"; "/data/a"; "/data/b" ]) example_cliargs).1
    = Raised OverflowError
  ∧ (verify_dupes text_world (example_cfg_with 8 65536 (2 ^ 40))
       (group_of_names [ "/data/gone"; "/data/a"; "/data/b" ]) example_cliargs).1
    = Raised MemoryError.
Proof.
  split; [|by vm_compute].
  apply (verify_dupes_bad_sample_size text_world (example_cfg_with 8 65536 (-2))
           (group_of_names [ "/data/gone"; "/data/a"; "/data/b" ]) example_cliargs
           ValueError).
  reflexivity.
Defined.

(** ** dupes_finder: what is dispatched *)

Lemma filter_none {A : Type} (P : A → Prop) `{!∀ x, Decision (P x)} (l : list A) :
  (∀ x, x ∈ l → ¬ P x) → filter P l = [].
Proof.
  induction l as [|x l IH]; intros HP; [done|].
  rewrite filter_cons_False by (apply HP; by left).
  apply IH. intros y Hy. apply HP. by right.
Qed.

Lemma bucket_other_key k k' hits :
  k' ≠ k →
  bucket k' (filter (λ h, src_filehash h ≠ k) hits) = bucket k' hits.
Proof.
  intros Hne. unfold bucket. f_equal. rewrite list_filter_filter.
  apply list_filter_iff. intros h. split; [by intros [? _]|].
  intros Hk. split; [done|]. congruence.
Qed.

(** The groups of a grouping that satisfy [P] hold the hits that satisfy
    [P'], each once, when [P] holds of a group as [P'] of its hits. *)
Lemma grouped_partition (P : string * list FileRecord → Prop) (P' : Hit → Prop)
    `{!∀ kv, Decision (P kv)} `{!∀ h, Decision (P' h)}
    (d : list (string * list FileRecord)) : ∀ hits,
  NoDup d.*1 →
  (∀ k v, (k, v) ∈ d → v = bucket k hits) →
  (∀ h, h ∈ hits → src_filehash h ∈ d.*1) →
  (∀ kv h, kv ∈ d → src_filehash h = kv.1 → P kv ↔ P' h) →
  concat (filter P d).*2 ≡ₚ record_of_hit <$> filter P' hits.
Proof.
  induction d as [|[k v] d IH]; intros hits Hnd Hbucket Hkeys HP.
  - destruct hits as [|h hits]; [done|].
    specialize (Hkeys h ltac:(by left)). by apply elem_of_nil in Hkeys.
  - rewrite fmap_cons in Hnd. apply NoDup_cons in Hnd as [Hk Hnd]. cbn [fst] in Hk.
    assert (concat (filter P d).*2
            ≡ₚ record_of_hit
                 <$> filter P' (filter (λ h, src_filehash h ≠ k) hits)) as Hrest.
    { apply IH; [done| | |].
      - intros k' v' Hin. rewrite bucket_other_key.
        + apply Hbucket. by right.
        + intros ->. apply Hk. apply list_elem_of_fmap. by exists (k, v').
      - intros h [Hne Hh]%list_elem_of_filter.
        specialize (Hkeys h Hh). rewrite fmap_cons in Hkeys.
        by apply elem_of_cons in Hkeys as [?|?].
      - intros kv h Hkv. apply HP. by right. }
    assert (filter P' hits
            ≡ₚ filter P' (filter (λ h, src_filehash h = k) hits)
               ++ filter P' (filter (λ h, src_filehash h ≠ k) hits)) as Hsplit.
    { rewrite <- filter_app. apply filter_Permutation. symmetry.
      apply filter_app_complement. }
    rewrite Hsplit, fmap_app, <- Hrest.
    rewrite filter_cons.
    rewrite (Hbucket k v) by (by left).
    destruct (decide (P (k, bucket k hits))) as [Hyes|Hno].
    + rewrite fmap_cons, concat_cons. cbn [snd]. f_equiv.
      unfold bucket.
      rewrite (filter_all P' (filter _ hits)); [done|].
      intros h [Hh _]%list_elem_of_filter.
      apply (HP (k, v) h); [by left|done|].
      by rewrite (Hbucket k v) by (by left).
    + replace (filter P' (filter (λ h, src_filehash h = k) hits))
        with (@nil Hit); [done|].
      symmetry. apply filter_none.
      intros h [Hh _]%list_elem_of_filter HP'. apply Hno.
      rewrite <- (Hbucket k v) by (by left).
      apply (HP (k, v) h); [by left|done|done].
Qed.

Lemma grouped_keys hits h :
  h ∈ hits → src_filehash h ∈ (foldl add_hit [] hits).*1.
Proof.
  intros Hh. destruct (dict_get (src_filehash h) (foldl add_hit [] hits)) as [v|] eqn:Hget.
  - apply dict_get_elem in Hget. apply list_elem_of_fmap. by exists (src_filehash h, v).
  - rewrite grouped_get in Hget. simpl in Hget.
    destruct (bucket (src_filehash h) hits) as [|f b] eqn:Hb; [|done].
    assert (record_of_hit h ∈ bucket (src_filehash h) hits) as Hin.
    { unfold bucket. apply list_elem_of_fmap. exists h. split; [done|].
      by apply list_elem_of_filter. }
    rewrite Hb in Hin. by apply elem_of_nil in Hin.
Qed.

(** X12.  Every scanned hit whose fingerprint is shared by another hit
    goes out exactly once, and no other record does: the files on the
    jobs that [dupes_finder] enqueues are, up to order, the records of
    those hits, and no two dispatched groups have the same fingerprint. *)
Theorem dupes_finder_dispatches_each_candidate_once (ab_start : Z)
    (adaptive_batch : list Job → Cliargs → Z → Z) (cfg : Config)
    (cliargs : Cliargs) (es : Json → list (list Hit)) (q0 : list Job) :
  let hits := scanned (es (dupes_query cfg cliargs)) in
  let r := dupes_finder ab_start adaptive_batch cfg cliargs es q0 in
  ∃ jobs,
    r.2 = q0 ++ jobs
    ∧ NoDup (filehash <$> concat (job_hashgroups <$> jobs))
    ∧ concat (files <$> concat (job_hashgroups <$> jobs))
      ≡ₚ record_of_hit
           <$> filter (λ h, (2 ≤ length (bucket (src_filehash h) hits))%nat) hits.
Proof.
  intros hits r. subst r.
  destruct (dupes_finder_spec ab_start adaptive_batch cfg cliargs es q0)
    as (jobs & Hr & Hcat & _ & _).
  rewrite Hr. cbn [snd]. exists jobs. rewrite Hcat. split; [done|].
  assert (NoDup (scroll (es (dupes_query cfg cliargs)) []).*1) as Hnd
    by (rewrite scroll_scanned; apply grouped_NoDup; constructor).
  rewrite <- !list_fmap_compose. split.
  - eapply sublist_NoDup; [exact Hnd|].
    apply fmap_sublist, sublist_filter.
  - change (files ∘ group_of) with (@snd string (list FileRecord)).
    unfold survivors. apply grouped_partition.
    + done.
    + intros k v Hin. by apply grouped_bucket in Hin as [-> _].
    + intros h Hh. rewrite scroll_scanned. by apply grouped_keys.
    + intros [k v] h Hin Hk. apply grouped_bucket in Hin as [-> _].
      cbn [fst snd] in *. by rewrite Hk.
Qed.

(** X13.  The count that [dupes_finder] logs is 0 exactly when no
    fingerprint is shared by two scanned hits; it then returns at once
    and leaves the queue as it was.  Otherwise the count is at least 2
    and at least one job is enqueued. *)
Theorem dupes_finder_nothing_found (ab_start : Z)
    (adaptive_batch : list Job → Cliargs → Z → Z) (cfg : Config)
    (cliargs : Cliargs) (es : Json → list (list Hit)) (q0 : list Job) :
  let hits := scanned (es (dupes_query cfg cliargs)) in
  let r := dupes_finder ab_start adaptive_batch cfg cliargs es q0 in
  (r.1 = 0 ↔ ∀ k, (length (bucket k hits) < 2)%nat)
  ∧ (r = (0, q0) ∨ 2 ≤ r.1 ∧ ∃ job jobs, r.2 = q0 ++ job :: jobs).
Proof.
  intros hits r. subst r. unfold dupes_finder. cbv zeta.
  rewrite count_possible_spec
    by (rewrite scroll_scanned; apply grouped_NoDup; constructor).
  remember (scroll (es (dupes_query cfg cliargs)) []) as d eqn:Hd.
  assert (survivors d = [] ↔ ∀ k, (length (bucket k hits) < 2)%nat) as Hnone.
  { split.
    - intros Hnil k. destruct (decide (2 ≤ length (bucket k hits))%nat) as [Hlen|];
        [|lia].
      exfalso. eapply (filter_nil_not_elem_of _ _ (k, bucket k hits) Hnil).
      + done.
      + apply dict_get_elem. subst d. rewrite scroll_scanned, grouped_get.
        simpl. fold hits. destruct (bucket k hits); [simpl in Hlen; lia|done].
    - intros Hall. apply filter_none. intros [k v] Hin.
      subst d. apply grouped_bucket in Hin as [-> _]. fold hits.
      specialize (Hall k). simpl. lia. }
  destruct (survivors d) as [|kv l] eqn:Hfound.
  - cbn [files_in foldr]. rewrite Z.eqb_refl. cbn [fst].
    split; [by rewrite <- Hnone|]. by left.
  - assert (2 ≤ files_in (kv :: l)) as Hcount.
    { assert (kv ∈ survivors d) as Hkv by (rewrite Hfound; by left).
      apply list_elem_of_filter in Hkv as [Hlen _].
      assert (0 ≤ files_in l) by (clear; induction l; simpl; lia).
      simpl. lia. }
    destruct (Z.eqb_spec (files_in (kv :: l)) 0) as [|_]; [lia|]. cbn [fst snd].
    split.
    { split; [lia|]. intros Hall. by apply Hnone in Hall. }
    right. split; [done|].
    destruct (enqueue_all_spec ab_start adaptive_batch cfg cliargs (kv :: l) q0)
      as (jobs & -> & Hcat & _ & _).
    destruct jobs as [|job jobs]; [done|]. by eexists _, _.
Qed.

(** ** dupes_finder: batches of a fixed size *)

Lemma batched_fixed adaptive_batch cliargs b q jobs :
  adaptivebatch cliargs = false →
  batched adaptive_batch cliargs b q jobs →
  let m := Z.to_nat (Z.max 1 b) in
  length jobs = ((length (concat (job_hashgroups <$> jobs)) + m - 1) / m)%nat
  ∧ ∀ i j, jobs !! i = Some j →
      job_hashgroups j = take m (drop (i * m) (concat (job_hashgroups <$> jobs))).
Proof.
  intros Hfixed Hb m.
  induction Hb as [b q|b q j Hne Hlen|b q j jobs Hlen Hb IH].
  - split; [|done]. simpl. symmetry. apply Nat.div_small. lia.
  - assert (0 < length (job_hashgroups j) < m)%nat as Hj.
    { destruct (job_hashgroups j); [done|]. simpl in *. lia. }
    split.
    + simpl. rewrite app_nil_r.
      replace (length (job_hashgroups j) + m - 1)%nat
        with (1 * m + (length (job_hashgroups j) - 1))%nat by lia.
      rewrite Nat.div_add_l by lia. rewrite Nat.div_small by lia. done.
    + intros [|i] j' Hi; [|done]. injection Hi as <-.
      rewrite fmap_cons, concat_cons. cbn [fmap list_fmap concat].
      rewrite app_nil_r, Nat.mul_0_l, drop_0, take_ge; [done|lia].
  - unfold next_size in Hb, IH. rewrite Hfixed in Hb, IH.
    destruct IH as [IHlen IHjobs].
    assert (length (job_hashgroups j) = m) as Hj by lia.
    rewrite fmap_cons, concat_cons. split.
    + cbn [length]. rewrite IHlen, length_app, Hj. fold m.
      replace (m + length (concat (job_hashgroups <$> jobs)) + m - 1)%nat
        with (1 * m + (length (concat (job_hashgroups <$> jobs)) + m - 1))%nat
        by lia.
      rewrite Nat.div_add_l by lia. done.
    + intros [|i] j' Hi.
      * injection Hi as <-. rewrite Nat.mul_0_l, drop_0.
        by rewrite take_app_length'.
      * cbn [lookup list_lookup] in Hi. rewrite (IHjobs i j' Hi). fold m.
        replace (S i * m)%nat with (length (job_hashgroups j) + i * m)%nat by lia.
        by rewrite <- drop_drop, drop_app_length.
Qed.

(** X14.  Without adaptive batching the jobs are the list of surviving
    groups cut into consecutive pieces of [cliargs['batchsize']] groups
    (of one group when that is below 1): the i-th job holds the groups
    from position i * m on, m of them or what is left, and the number of
    jobs is the number of groups divided by m, rounded up. *)
Theorem dupes_finder_fixed_batches (ab_start : Z)
    (adaptive_batch : list Job → Cliargs → Z → Z) (cfg : Config)
    (cliargs : Cliargs) (es : Json → list (list Hit)) (q0 : list Job) :
  adaptivebatch cliargs = false →
  let groups := group_of <$> survivors (scroll (es (dupes_query cfg cliargs)) []) in
  let m := Z.to_nat (Z.max 1 (batchsize cliargs)) in
  ∃ jobs,
    (dupes_finder ab_start adaptive_batch cfg cliargs es q0).2 = q0 ++ jobs
    ∧ length jobs = ((length groups + m - 1) / m)%nat
    ∧ ∀ i j, jobs !! i = Some j →
        job_hashgroups j = take m (drop (i * m) groups).
Proof.
  intros Hfixed groups m.
  destruct (dupes_finder_spec ab_start adaptive_batch cfg cliargs es q0)
    as (jobs & Hr & Hcat & Hb & _).
  rewrite Hfixed in Hb.
  destruct (batched_fixed _ _ _ _ _ Hfixed Hb) as [Hlen Hjobs].
  exists jobs. rewrite Hr. split; [done|]. fold m in Hlen, Hjobs.
  rewrite Hcat in Hlen, Hjobs. done.
Qed.

Lemma dupes_finder_fixed_batches_witness :
  ∃ jobs,
    (dupes_finder 1 (λ _ _ b, 2 * b) (example_cfg 64 "true")
       (with_inchardlinks true example_cliargs) example_es []).2 = [] ++ jobs
    ∧ length jobs
      = ((length (group_of
                    <$> survivors
                          (scroll (example_es
                                     (dupes_query (example_cfg 64 "true")
                                        (with_inchardlinks true example_cliargs)))
                                  []))
          + Z.to_nat (Z.max 1 (batchsize (with_inchardlinks true example_cliargs)))
          - 1)
         / Z.to_nat (Z.max 1 (batchsize (with_inchardlinks true example_cliargs))))%nat
    ∧ ∀ i j, jobs !! i = Some j →
        job_hashgroups j
        = take (Z.to_nat (Z.max 1 (batchsize (with_inchardlinks true example_cliargs))))
            (drop (i * Z.to_nat (Z.max 1 (batchsize (with_inchardlinks true example_cliargs))))
               (group_of
                  <$> survivors
                        (scroll (example_es
                                   (dupes_query (example_cfg 64 "true")
                                      (with_inchardlinks true example_cliargs)))
                                []))).
Proof.
  apply (dupes_finder_fixed_batches 1 (λ _ _ b, 2 * b) (example_cfg 64 "true")
           (with_inchardlinks true example_cliargs) example_es []).
  reflexivity.
Defined.

(** ** verify_dupes: a block size of 0 *)

(** X15.  With [md5_readsize] 0 every worker result is the digest of the
    empty input, so every [md5] that [verify_dupes] writes is that
    digest: files that only share their head and tail samples are given
    the same [md5], whatever lies between. *)
Theorem verify_dupes_zero_block (w : World) (cfg : Config) (g g' : HashGroup)
    (cliargs : Cliargs) (ev : list Event) (i : nat) (f : FileRecord) :
  fair_pool w → md5_readsize cfg = 0 →
  verify_dupes w cfg g cliargs = (Returned (Some g'), ev) →
  files g !! i = Some f →
  ∃ f', files g' !! i = Some f'
    ∧ (md5 f' = md5 f ∨ md5 f' = "d41d8cd98f00b204e9800998ecf8427e").
Proof.
  intros Hfair Hrs Hv Hf. apply verify_dupes_returned in Hv as ->.
  cbn [files]. rewrite update_md5_map.
  exists (mark (md5_groups w cfg g cliargs) f).
  split; [by rewrite list_lookup_fmap, Hf|].
  destruct (mark_md5 (md5_groups w cfg g cliargs) f)
    as [?|([key names] & Hkv & _ & Hname & Hmd5)]; [by left|].
  right. simpl in *. rewrite Hmd5.
  pose proof (md5_groups_sound w cfg g cliargs Hfair key names _ Hkv Hname)
    as Hkey.
  cbv beta in Hkey.
  destruct (fs w !! filename f) as [file|] eqn:Hfile.
  - rewrite (md5_of_file_zero w cfg _ file) in Hkey by done.
    injection Hkey as <-. apply md5_empty.
  - unfold md5_of_file, py_open in Hkey. by rewrite Hfile in Hkey.
Qed.

Lemma verify_dupes_zero_block_witness :
  ∃ f', [ set_md5 "d41d8cd98f00b204e9800998ecf8427e"
            (example_record "/data/a" "2019-03-01T12:00:00");
          set_md5 "d41d8cd98f00b204e9800998ecf8427e"
            (example_record "/data/c" "2019-03-01T12:00:00") ] !! 1%nat = Some f'
    ∧ (md5 f' = md5 (example_record "/data/c" "2019-03-01T12:00:00")
       ∨ md5 f' = "d41d8cd98f00b204e9800998ecf8427e").
Proof.
  apply (verify_dupes_zero_block text_world (example_cfg_with 8 0 4)
           (group_of_names [ "/data/a"; "/data/c" ])
           {| filehash := "f1";
              files := [ set_md5 "d41d8cd98f00b204e9800998ecf8427e"
                           (example_record "/data/a" "2019-03-01T12:00:00");
                         set_md5 "d41d8cd98f00b204e9800998ecf8427e"
                           (example_record "/data/c" "2019-03-01T12:00:00") ] |}
           example_cliargs []
           1%nat (example_record "/data/c" "2019-03-01T12:00:00")).
  - apply example_world_fair.
  - reflexivity.
  - by vm_compute.
  - reflexivity.
Defined.

(** ** Sub-multisets *)

Lemma submseteq_via {A B : Type} (op : list A → list B) :
  Proper (Permutation ==> Permutation) op →
  (∀ l k, op (l ++ k) = op l ++ op k) →
  ∀ l1 l2, l1 ⊆+ l2 → op l1 ⊆+ op l2.
Proof.
  intros Hperm Happ l1 l2 [k Hk]%submseteq_Permutation.
  rewrite Hk, Happ. by apply submseteq_inserts_r.
Qed.

Lemma filter_submseteq_mono {A : Type} (P : A → Prop) `{!∀ x, Decision (P x)}
    (l1 l2 : list A) :
  l1 ⊆+ l2 → filter P l1 ⊆+ filter P l2.
Proof. apply (submseteq_via (filter P)); [apply _|apply filter_app]. Qed.

Lemma omap_submseteq_mono {A B : Type} (f : A → option B) (l1 l2 : list A) :
  l1 ⊆+ l2 → omap f l1 ⊆+ omap f l2.
Proof. apply (submseteq_via (omap f)); [apply _|apply omap_app]. Qed.

Lemma elem_of_concat_submseteq {A : Type} (l : list A) (ls : list (list A)) :
  l ∈ ls → l ⊆+ concat ls.
Proof.
  induction ls as [|l' ls IH]; intros Hin; [by apply elem_of_nil in Hin|].
  apply elem_of_cons in Hin as [->|Hin]; simpl.
  - by apply submseteq_inserts_r.
  - apply submseteq_inserts_l. by apply IH.
Qed.

(** Two positions of a list hold a sub-multiset of two. *)
Lemma pair_submseteq {A : Type} (l : list A) (i j : nat) (a b : A) :
  l !! i = Some a → l !! j = Some b → i ≠ j → [a; b] ⊆+ l.
Proof.
  revert i j. induction l as [|x l IH]; intros i j Hi Hj Hne; [done|].
  destruct i as [|i], j as [|j]; simpl in *; try done.
  - injection Hi as ->. apply submseteq_skip, singleton_submseteq_l.
    by eapply list_elem_of_lookup_2.
  - injection Hj as ->. rewrite (Permutation_swap b a []).
    apply submseteq_skip, singleton_submseteq_l.
    by eapply list_elem_of_lookup_2.
  - apply submseteq_cons. apply (IH i j); [done|done|lia].
Qed.

(** ** Sampling: the buckets *)

Lemma sample_files_get w cfg fl : ∀ dups n dups' n' ev,
  sample_files w cfg fl dups n = (Ok (dups', n'), ev) →
  ∀ s, dict_get s dups'
       = match dict_get s dups,
               entry_of <$> filter (λ f, sig_of w cfg f = Some s) fl with
         | None, [] => None
         | o, b => Some (default [] o ++ b)
         end.
Proof.
  induction fl as [|f fl IH]; intros dups n dups' n' ev.
  - intros [= <- <- <-] s. simpl.
    destruct (dict_get s dups); simpl; [by rewrite app_nil_r|done].
  - cbn [sample_files].
    destruct (sample_file w cfg f) as [[bytehash| |e] ev0] eqn:Hf; [| |done].
    + destruct (sample_files w cfg fl _ _) as [r ev1] eqn:Hrest.
      intros [= -> <-] s. rewrite (IH _ _ _ _ _ Hrest s).
      assert (sig_of w cfg f = Some bytehash) as Hsig
        by (unfold sig_of; by rewrite Hf).
      rewrite dict_get_append, filter_cons, Hsig.
      destruct (decide (s = bytehash)) as [->|Hne].
      * rewrite decide_True by done. rewrite fmap_cons. simpl.
        rewrite <- app_assoc. simpl. unfold entry_of.
        by destruct (dict_get bytehash dups).
      * rewrite decide_False by congruence. done.
    + destruct (sample_files w cfg fl _ _) as [r ev1] eqn:Hrest.
      intros [= -> <-] s. rewrite (IH _ _ _ _ _ Hrest s).
      assert (sig_of w cfg f = None) as Hsig
        by (unfold sig_of; by rewrite Hf).
      rewrite filter_cons, Hsig. by rewrite decide_False.
Qed.

(** ** Hashing: the md5 groups *)

Lemma pool_results_omap w cfg items rs ev :
  pool_results w cfg items = (Returned rs, ev) → rs = omap (put_of w cfg) items.
Proof.
  revert rs ev. induction items as [|it items IH]; intros rs ev.
  - by intros [= <- <-].
  - cbn [pool_results omap list_omap]. unfold put_of at 1.
    destruct (md5_hasher w cfg it) as [[r|e|] ev0]; try done.
    destruct (pool_results w cfg items) as [[rs'|e|] ev1]; try done.
    intros [= <- <-]. rewrite (IH rs' ev1) by done. by destruct r.
Qed.

Lemma foldl_dict_append_get {A B : Type} (k : B → string) (h : B → A)
    (ys : list B) : ∀ d key,
  dict_get key (foldl (λ d y, dict_append (k y) (h y) d) d ys)
  = match dict_get key d, h <$> filter (λ y, k y = key) ys with
    | None, [] => None
    | o, b => Some (default [] o ++ b)
    end.
Proof.
  induction ys as [|y ys IH]; intros d key.
  - simpl. destruct (dict_get key d); simpl; [by rewrite app_nil_r|done].
  - cbn [foldl]. rewrite IH, dict_get_append, filter_cons.
    destruct (decide (key = k y)) as [->|Hne].
    + rewrite decide_True by done. rewrite fmap_cons. simpl.
      rewrite <- app_assoc. simpl. by destruct (dict_get (k y) d).
    + rewrite decide_False by congruence. done.
Qed.

Lemma foldl_dict_append_NoDup {A B : Type} (k : B → string) (h : B → A)
    (ys : list B) : ∀ d,
  NoDup d.*1 → NoDup (foldl (λ d y, dict_append (k y) (h y) d) d ys).*1.
Proof.
  induction ys as [|y ys IH]; intros d Hnd; [done|].
  cbn [foldl]. apply IH. by apply dict_append_keys_NoDup.
Qed.

Lemma hash_buckets_NoDup w cfg cliargs buckets : ∀ d d' ev,
  hash_buckets w cfg cliargs buckets d = (Returned d', ev) →
  NoDup d.*1 → NoDup d'.*1.
Proof.
  induction buckets as [|[key value] buckets IH]; intros d d' ev.
  - by intros [= <- <-].
  - cbn [hash_buckets].
    destruct (join_pool w cfg _) as [[out_q|e|] ev0]; try done.
    destruct (drain out_q d) as [d1|e|] eqn:Hdrain; try done.
    destruct (hash_buckets w cfg cliargs buckets d1) as [r ev1] eqn:Hrest.
    intros [= -> <-] Hnd. eapply IH; [done|].
    unfold drain in Hdrain. destruct out_q as [|item out_q]; [done|].
    injection Hdrain as <-.
    change (NoDup (foldl (λ d y, dict_append (snd y) (fst y) d) d
                     (item :: out_q)).*1).
    by apply (foldl_dict_append_NoDup snd fst).
Qed.

(** The names an md5 group holds at the end are, up to order, the names
    it held before and the names of the worker results with its digest. *)
Lemma hash_buckets_get w cfg cliargs buckets : ∀ d d' ev,
  fair_pool w →
  hash_buckets w cfg cliargs buckets d = (Returned d', ev) →
  ∀ h, default [] (dict_get h d')
       ≡ₚ default [] (dict_get h d)
          ++ names_with h (omap (put_of w cfg)
                             (item_of cliargs <$> concat buckets.*2)).
Proof.
  induction buckets as [|[key value] buckets IH]; intros d d' ev Hfair.
  - intros [= <- <-] h. unfold names_with. simpl. by rewrite app_nil_r.
  - cbn [hash_buckets]. fold (item_of cliargs).
    destruct (join_pool w cfg _) as [[out_q|e|] ev0] eqn:Hjoin; try done.
    destruct (drain out_q d) as [d1|e|] eqn:Hdrain; try done.
    destruct (hash_buckets w cfg cliargs buckets d1) as [r ev1] eqn:Hrest.
    intros [= -> <-] h. rewrite (IH _ _ _ Hfair Hrest h).
    assert (out_q ≡ₚ omap (put_of w cfg) (item_of cliargs <$> value)) as Hq.
    { revert Hjoin. unfold join_pool.
      destruct (item_of cliargs <$> value) as [|it items];
        [by intros [= <- <-]|].
      destruct (start_file_threads cfg =? 0)%nat; [done|].
      destruct (pool_results w cfg (it :: items)) as [[rs|e|] ev2] eqn:Hres;
        try done.
      intros [= <- <-]. apply pool_results_omap in Hres as ->. apply Hfair. }
    assert (default [] (dict_get h d1)
            = default [] (dict_get h d) ++ names_with h out_q) as ->.
    { unfold drain in Hdrain. destruct out_q as [|item out_q]; [done|].
      injection Hdrain as <-.
      change (default []
                (dict_get h (foldl (λ d y, dict_append (snd y) (fst y) d) d
                               (item :: out_q)))
              = default [] (dict_get h d) ++ names_with h (item :: out_q)).
      rewrite (foldl_dict_append_get snd fst). unfold names_with.
      destruct (dict_get h d); [done|].
      by destruct (fst <$> filter _ _). }
    rewrite fmap_cons, concat_cons, fmap_app, omap_app. cbn [snd].
    unfold names_with. rewrite filter_app, fmap_app, app_assoc.
    do 2 f_equiv. by rewrite Hq.
Qed.

(** ** Marking *)

Lemma mark_by_key d f :
  mark d f = match mark_key d (filename f) with
             | Some key => set_md5 key f
             | None => f
             end.
Proof.
  unfold mark, mark_key.
  assert (∀ o,
    foldl (λ f kv,
             if (2 <=? length kv.2)%nat && bool_decide (filename f ∈ kv.2)
             then set_md5 kv.1 f else f)
          (match o with Some key => set_md5 key f | None => f end) d
    = match foldl (λ o kv,
                     if (2 <=? length kv.2)%nat
                        && bool_decide (filename f ∈ kv.2)
                     then Some kv.1 else o) o d with
      | Some key => set_md5 key f
      | None => f
      end) as Hgen.
  { induction d as [|kv d IH]; intros o; [done|].
    cbn [foldl].
    replace (filename (match o with Some key => set_md5 key f | None => f end))
      with (filename f) by (by destruct o).
    destruct ((2 <=? length kv.2)%nat && bool_decide (filename f ∈ kv.2)).
    - rewrite <- (IH (Some kv.1)). by destruct o.
    - apply IH. }
  apply (Hgen None).
Qed.

(** When every group that holds the name has the key [h], the name is
    marked exactly when that group has two or more names. *)
Lemma mark_key_unique d name h :
  NoDup d.*1 →
  (∀ k v, (k, v) ∈ d → name ∈ v → k = h) →
  mark_key d name
  = if bool_decide ((2 ≤ length (default [] (dict_get h d)))%nat
                    ∧ name ∈ default [] (dict_get h d))
    then Some h else None.
Proof.
  intros Hnd Hkey. unfold mark_key.
  assert (∀ o,
    (o = None ∨ o = Some h) →
    foldl (λ o kv,
             if (2 <=? length kv.2)%nat && bool_decide (name ∈ kv.2)
             then Some kv.1 else o) o d
    = if bool_decide ((2 ≤ length (default [] (dict_get h d)))%nat
                      ∧ name ∈ default [] (dict_get h d))
      then Some h else o) as Hgen.
  { induction d as [|[k v] d IH]; intros o Ho.
    - cbn [foldl dict_get default]. case_bool_decide as Hlen; [|done].
      destruct Hlen as [Hlen _]. simpl in Hlen. lia.
    - rewrite fmap_cons in Hnd. apply NoDup_cons in Hnd as [Hk Hnd].
      cbn [foldl fst snd dict_get].
      destruct (String.eqb_spec k h) as [->|Hne].
      + (* the group of [h]: no later group holds the name *)
        assert (∀ o', foldl (λ o kv,
                    if (2 <=? length kv.2)%nat && bool_decide (name ∈ kv.2)
                    then Some kv.1 else o) o' d = o') as Hrest.
        { intros o'. clear IH. induction d as [|[k' v'] d IHd]; [done|].
          cbn [foldl fst snd].
          rewrite fmap_cons in Hk, Hnd. apply not_elem_of_cons in Hk as [Hk' Hk].
          apply NoDup_cons in Hnd as [_ Hnd].
          destruct (bool_decide (name ∈ v')) eqn:Hin.
          - apply bool_decide_eq_true in Hin. exfalso. apply Hk'. simpl.
            symmetry. apply (Hkey k' v'); [|done]. right. by left.
          - rewrite andb_false_r. apply IHd; [done|done|].
            intros k0 v0 Hin0. apply Hkey.
            apply elem_of_cons in Hin0 as [->|Hin0]; [by left|]. right. by right. }
        rewrite Hrest. cbn [from_option]. unfold id.
        destruct (Nat.leb_spec 2 (length v)) as [Hlen|Hlen]; cbn [andb].
        * destruct (decide (name ∈ v)) as [Hin|Hin].
          -- rewrite !bool_decide_eq_true_2; done.
          -- rewrite !bool_decide_eq_false_2; [done| |done]. by intros [_ ?].
        * rewrite bool_decide_eq_false_2; [done|]. intros [? _]. lia.
      + (* another group: it does not hold the name *)
        assert (name ∉ v) as Hin.
        { intros Hin. apply Hne. apply (Hkey k v); [by left|done]. }
        rewrite (bool_decide_eq_false_2 (name ∈ v)) by done.
        rewrite andb_false_r. apply IH; [done| |done].
        intros k0 v0 Hin0. apply Hkey. by right. }
  apply Hgen. by left.
Qed.

(** ** verify_dupes: the records it marks *)

Lemma md5_groups_NoDup w cfg g cliargs : NoDup (md5_groups w cfg g cliargs).*1.
Proof.
  unfold md5_groups.
  destruct (sample_files w cfg (files g) [] 0) as [[[dups n]|e] ev];
    [|constructor].
  destruct (hash_buckets w cfg cliargs _ []) as [[d|e|] ev'] eqn:Hhash;
    try constructor.
  eapply hash_buckets_NoDup; [done|constructor].
Qed.

Lemma md5_groups_get w cfg g cliargs g' ev h :
  fair_pool w →
  verify_dupes w cfg g cliargs = (Returned (Some g'), ev) →
  default [] (dict_get h (md5_groups w cfg g cliargs))
  ≡ₚ hashed_names w cfg g cliargs h.
Proof.
  intros Hfair. unfold verify_dupes, md5_groups, hashed_names.
  destruct (sample_files w cfg (files g) [] 0) as [[[dups n]|e] ev0]; [|done].
  destruct (n =? 0); [done|].
  destruct (drop_singletons dups) as [|b bs] eqn:Hdrop; [done|].
  destruct (hash_buckets w cfg cliargs (b :: bs) []) as [[d|e|] ev1] eqn:Hhash;
    try done.
  intros _. by rewrite (hash_buckets_get _ _ _ _ _ _ _ Hfair Hhash h).
Qed.

(** The group [verify_dupes] returns, record by record. *)
Lemma verify_dupes_confirmed w cfg g cliargs g' ev :
  fair_pool w →
  verify_dupes w cfg g cliargs = (Returned (Some g'), ev) →
  g' = {| filehash := filehash g;
          files := confirmed w cfg g cliargs <$> files g |}.
Proof.
  intros Hfair Hv. rewrite (verify_dupes_returned _ _ _ _ _ _ Hv) at 1.
  f_equal. rewrite update_md5_map. apply list_fmap_ext. intros i f _.
  rewrite mark_by_key. unfold confirmed.
  pose proof (md5_groups_sound w cfg g cliargs Hfair) as Hsound.
  pose proof (md5_groups_NoDup w cfg g cliargs) as Hnd.
  assert (∀ h, md5_of_file w cfg (filename f) = Some (Ok h) →
               ∀ k v, (k, v) ∈ md5_groups w cfg g cliargs →
                      filename f ∈ v → k = h) as Hkey.
  { intros h Hh k v Hkv Hin. specialize (Hsound k v _ Hkv Hin).
    cbv beta in Hsound. congruence. }
  destruct (md5_of_file w cfg (filename f)) as [[h|e]|] eqn:Hmd5.
  - rewrite (mark_key_unique _ _ h Hnd (Hkey h eq_refl)).
    rewrite (bool_decide_ext _
               ((2 ≤ length (hashed_names w cfg g cliargs h))%nat
                ∧ filename f ∈ hashed_names w cfg g cliargs h)).
    + by case_bool_decide.
    + by rewrite (md5_groups_get _ _ _ _ _ _ h Hfair Hv).
  - rewrite (mark_key_unique _ _ "" Hnd).
    + rewrite bool_decide_eq_false_2; [done|]. intros [_ Hin].
      destruct (dict_get "" (md5_groups w cfg g cliargs)) as [v|] eqn:Hget;
        [|by apply elem_of_nil in Hin].
      apply dict_get_elem in Hget. specialize (Hsound _ _ _ Hget Hin).
      cbv beta in Hsound. congruence.
    + intros k v Hkv Hin. specialize (Hsound _ _ _ Hkv Hin).
      cbv beta in Hsound. congruence.
  - rewrite (mark_key_unique _ _ "" Hnd).
    + rewrite bool_decide_eq_false_2; [done|]. intros [_ Hin].
      destruct (dict_get "" (md5_groups w cfg g cliargs)) as [v|] eqn:Hget;
        [|by apply elem_of_nil in Hin].
      apply dict_get_elem in Hget. specialize (Hsound _ _ _ Hget Hin).
      cbv beta in Hsound. congruence.
    + intros k v Hkv Hin. specialize (Hsound _ _ _ Hkv Hin).
      cbv beta in Hsound. congruence.
Qed.

(** ** verify_dupes: files that are confirmed *)

Lemma sample_files_no_throw w cfg fl : ∀ dups n r ev,
  sample_files w cfg fl dups n = (Ok r, ev) →
  ∀ f, f ∈ fl → ∀ e ev', sample_file w cfg f ≠ (Throw e, ev').
Proof.
  induction fl as [|f0 fl IH]; intros dups n r ev Hs f Hf;
    [by apply elem_of_nil in Hf|].
  cbn [sample_files] in Hs.
  destruct (sample_file w cfg f0) as [[bytehash| |e0] ev0] eqn:Hf0; [| |done].
  - destruct (sample_files w cfg fl _ _) as [r1 ev1] eqn:Hrest.
    injection Hs as -> _.
    apply elem_of_cons in Hf as [->|Hf]; [by rewrite Hf0|by eapply IH].
  - destruct (sample_files w cfg fl _ _) as [r1 ev1] eqn:Hrest.
    injection Hs as -> _.
    apply elem_of_cons in Hf as [->|Hf]; [by rewrite Hf0|by eapply IH].
Qed.

Lemma names_with_mono h rs rs' :
  rs ⊆+ rs' → names_with h rs ⊆+ names_with h rs'.
Proof.
  intros Hsub. unfold names_with. by apply fmap_submseteq, filter_submseteq_mono.
Qed.

(** Two records at different positions with the same sample signature
    whose workers put the same digest are both among the hashed names of
    that digest. *)
Lemma hashed_pair w cfg g cliargs dups n ev i j f1 f2 s r1 r2 :
  sample_files w cfg (files g) [] 0 = (Ok (dups, n), ev) →
  files g !! i = Some f1 → files g !! j = Some f2 → i ≠ j →
  sig_of w cfg f1 = Some s → sig_of w cfg f2 = Some s →
  put_of w cfg (item_of cliargs (entry_of f1)) = Some r1 →
  put_of w cfg (item_of cliargs (entry_of f2)) = Some r2 →
  r2.2 = r1.2 →
  [r1.1; r2.1] ⊆+ hashed_names w cfg g cliargs r1.2.
Proof.
  intros Hs Hi Hj Hne Hs1 Hs2 Hp1 Hp2 Hh. unfold hashed_names. rewrite Hs.
  pose proof (sample_files_NoDup _ _ _ _ _ _ _ _ Hs (NoDup_nil_2)) as Hnd.
  assert ([f1; f2] ⊆+ filter (λ f, sig_of w cfg f = Some s) (files g)) as Hsub.
  { rewrite <- (filter_all (λ f, sig_of w cfg f = Some s) [f1; f2]).
    - apply filter_submseteq_mono. by eapply pair_submseteq.
    - intros f Hf. each_member Hf ltac:(done). }
  apply (fmap_submseteq entry_of) in Hsub.
  pose proof (sample_files_get _ _ _ _ _ _ _ _ Hs s) as Hget. simpl in Hget.
  destruct (entry_of <$> filter (λ f, sig_of w cfg f = Some s) (files g))
    as [|e v] eqn:Hv.
  { apply submseteq_length in Hsub. simpl in Hsub. lia. }
  assert ((s, e :: v) ∈ drop_singletons dups) as Hbucket.
  { rewrite drop_singletons_filter by done. apply list_elem_of_filter.
    split; [|by apply dict_get_elem].
    apply submseteq_length in Hsub. simpl in *. lia. }
  assert (e :: v ⊆+ concat (drop_singletons dups).*2) as Hall.
  { apply elem_of_concat_submseteq, list_elem_of_fmap. by exists (s, e :: v). }
  transitivity (names_with r1.2
                  (omap (put_of w cfg) (item_of cliargs <$> (entry_of <$> [f1; f2])))).
  - cbn [omap list_omap fmap list_fmap]. rewrite Hp1, Hp2. unfold names_with.
    rewrite filter_cons_True by done. by rewrite filter_cons_True by done.
  - apply names_with_mono, omap_submseteq_mono, fmap_submseteq.
    by transitivity (e :: v).
Qed.

Lemma clean_file_sampled w cfg f file :
  fs w !! filename f = Some file → bad_offsets file = [] →
  data file ≠ [] ∨ dupes_checkbytes cfg = 0 → 0 ≤ dupes_checkbytes cfg →
  (∀ e ev, sample_file w cfg f ≠ (Throw e, ev)) →
  sig_of w cfg f = Some (signature (dupes_checkbytes cfg) (data file))
  ∧ ∃ ev, restore_times w cfg (filename f) (atime f) (mtime f) = (Ok tt, ev).
Proof.
  intros Hfile Hbad Hdata Hn Hthrow.
  assert (read_size_ok w (dupes_checkbytes cfg)) as [[_ Hmax] Halloc].
  { apply read_refused_None.
    destruct (read_refused (max_alloc w) (dupes_checkbytes cfg)) as [e|] eqn:Hk;
      [|done].
    exfalso. apply (Hthrow e []).
    rewrite (sample_file_bad_sample_size w cfg f e Hk).
    rewrite bool_decide_eq_true_2; [done|by eexists]. }
  revert Hthrow. unfold sig_of, sample_file, py_open. rewrite Hfile.
  destruct (sample_head_clean (dupes_checkbytes cfg)
              {| h_file := file; h_pos := 0; h_alloc := max_alloc w |})
    as (f' & [Hf' Ha'] & ->); [done..|].
  cbn [h_file h_pos h_alloc] in *. rewrite drop_0.
  rewrite sample_tail_clean by (rewrite ?Hf', ?Ha'; done). rewrite Hf'.
  destruct (restore_times w cfg (filename f) (atime f) (mtime f))
    as [[[]|e] ev].
  - intros _. split; [done|by eexists].
  - intros Hthrow. by destruct (Hthrow e ([] ++ [] ++ ev)).
Qed.

Lemma clean_file_put w cfg cliargs f file ev :
  fs w !! filename f = Some file → bad_offsets file = [] →
  md5_readsize cfg ≠ 0 → read_size_ok w (md5_readsize cfg) →
  restore_times w cfg (filename f) (atime f) (mtime f) = (Ok tt, ev) →
  md5_of_file w cfg (filename f) = Some (Ok (MD5.hexdigest (data file)))
  ∧ put_of w cfg (item_of cliargs (entry_of f))
    = Some (filename f, MD5.hexdigest (data file)).
Proof.
  intros Hfile Hbad Hrs Hrs' Hres.
  destruct (md5_of_file_readable w cfg (filename f) file) as [h Hmd5]; [done..|].
  destruct (md5_of_file_sound w cfg (filename f) h Hrs Hmd5)
    as (file' & Hfile' & ->).
  assert (file' = file) as -> by congruence.
  split; [done|]. unfold put_of, item_of, entry_of, md5_hasher. cbn [fst snd].
  by rewrite Hmd5, Hres.
Qed.

(** X16.  Whatever else is in the group, two of its records at different
    positions whose files read without error and have the same content
    (not empty, unless the sample size is 0) are both confirmed: when
    [verify_dupes] returns the group, both records have the MD5 digest
    of that content as their [md5], and nothing else of them changed. *)
Theorem verify_dupes_confirms_equal_files (w : World) (cfg : Config)
    (g g' : HashGroup) (cliargs : Cliargs) (ev : list Event) (i j : nat)
    (f1 f2 : FileRecord) (file1 file2 : File) :
  fair_pool w → md5_readsize cfg ≠ 0 → 0 ≤ dupes_checkbytes cfg →
  verify_dupes w cfg g cliargs = (Returned (Some g'), ev) →
  files g !! i = Some f1 → files g !! j = Some f2 → i ≠ j →
  fs w !! filename f1 = Some file1 → fs w !! filename f2 = Some file2 →
  bad_offsets file1 = [] → bad_offsets file2 = [] →
  data file1 = data file2 →
  data file1 ≠ [] ∨ dupes_checkbytes cfg = 0 →
  files g' !! i = Some (set_md5 (MD5.hexdigest (data file1)) f1)
  ∧ files g' !! j = Some (set_md5 (MD5.hexdigest (data file1)) f2).
Proof.
  intros Hfair Hrs Hk Hv Hi Hj Hne Hfile1 Hfile2 Hbad1 Hbad2 Hdata Hsome.
  assert (read_size_ok w (md5_readsize cfg)) as Hrs'.
  { apply read_refused_None.
    destruct (read_refused (max_alloc w) (md5_readsize cfg)) as [e0|] eqn:Hlow;
      [|done].
    exfalso.
    destruct (verify_dupes_unconfirmed w cfg g cliargs) as [Hb|[Hb|[e Hb]]];
      try (rewrite Hv in Hb; done).
    intros [key value] bs _.
    apply hash_buckets_blocks_on_dropped_bucket; [done|].
    intros file _. by eapply md5_hasher_refused_block_size. }
  rewrite (verify_dupes_confirmed _ _ _ _ _ _ Hfair Hv). cbn [files].
  rewrite !list_lookup_fmap, Hi, Hj. cbn [fmap option_fmap option_map].
  assert (∃ dups n ev0, sample_files w cfg (files g) [] 0 = (Ok (dups, n), ev0))
    as (dups & n & ev0 & Hs).
  { revert Hv. unfold verify_dupes.
    destruct (sample_files w cfg (files g) [] 0) as [[[dups n]|e] ev0]; [|done].
    intros _. by eexists _, _, _. }
  pose proof (sample_files_no_throw _ _ _ _ _ _ _ Hs) as Hthrow.
  destruct (clean_file_sampled w cfg f1 file1) as [Hs1 [ev1 Hres1]]; try done.
  { apply Hthrow. by eapply list_elem_of_lookup_2. }
  destruct (clean_file_sampled w cfg f2 file2) as [Hs2 [ev2 Hres2]]; try done.
  { by rewrite <- Hdata. }
  { apply Hthrow. by eapply list_elem_of_lookup_2. }
  destruct (clean_file_put w cfg cliargs f1 file1 ev1) as [Hmd1 Hp1]; try done.
  destruct (clean_file_put w cfg cliargs f2 file2 ev2) as [Hmd2 Hp2]; try done.
  rewrite <- Hdata in Hs2, Hmd2, Hp2.
  pose proof (hashed_pair w cfg g cliargs dups n ev0 i j f1 f2 _ _ _
                Hs Hi Hj Hne Hs1 Hs2 Hp1 Hp2 eq_refl) as Hpair.
  cbn [fst snd] in Hpair.
  assert ((2 ≤ length (hashed_names w cfg g cliargs (MD5.hexdigest (data file1))))%nat)
    as Hlen by (apply submseteq_length in Hpair; simpl in Hpair; lia).
  unfold confirmed. rewrite Hmd1, Hmd2.
  rewrite !bool_decide_eq_true_2; [done| |].
  - split; [done|]. eapply elem_of_submseteq; [|exact Hpair]. right. by left.
  - split; [done|]. eapply elem_of_submseteq; [|exact Hpair]. by left.
Qed.

Lemma verify_dupes_confirms_equal_files_witness :
  files {| filehash := "f1";
           files := [ example_record "/data/c" "2019-03-01T12:00:00";
                      set_md5 "5eb63bbbe01eeed093cb22bb8f5acdc3"
                        (example_record "/data/a" "2019-03-01T12:00:00");
                      example_record "/data/gone" "2019-03-01T12:00:00";
                      set_md5 "5eb63bbbe01eeed093cb22bb8f5acdc3"
                        (example_record "/data/b" "2019-03-01T12:00:00") ] |}
    !! 1%nat
  = Some (set_md5 (MD5.hexdigest (data (plain_file (list_byte_of_string "hello world"))))
            (example_record "/data/a" "2019-03-01T12:00:00"))
  ∧ files {| filehash := "f1";
             files := [ example_record "/data/c" "2019-03-01T12:00:00";
                        set_md5 "5eb63bbbe01eeed093cb22bb8f5acdc3"
                          (example_record "/data/a" "2019-03-01T12:00:00");
                        example_record "/data/gone" "2019-03-01T12:00:00";
                        set_md5 "5eb63bbbe01eeed093cb22bb8f5acdc3"
                          (example_record "/data/b" "2019-03-01T12:00:00") ] |}
      !! 3%nat
    = Some (set_md5 (MD5.hexdigest (data (plain_file (list_byte_of_string "hello world"))))
              (example_record "/data/b" "2019-03-01T12:00:00")).
Proof.
  apply (verify_dupes_confirms_equal_files text_world (example_cfg 4 "true")
           (group_of_names [ "/data/c"; "/data/a"; "/data/gone"; "/data/b" ])
           _ example_cliargs
           (verify_dupes text_world (example_cfg 4 "true")
              (group_of_names [ "/data/c"; "/data/a"; "/data/gone"; "/data/b" ])
              example_cliargs).2
           1%nat 3%nat
           (example_record "/data/a" "2019-03-01T12:00:00")
           (example_record "/data/b" "2019-03-01T12:00:00")
           (plain_file (list_byte_of_string "hello world"))
           (plain_file (list_byte_of_string "hello world"))).
  - apply example_world_fair.
  - discriminate.
  - discriminate.
  - by vm_compute.
  - reflexivity.
  - reflexivity.
  - discriminate.
  - reflexivity.
  - reflexivity.
  - reflexivity.
  - reflexivity.
  - reflexivity.
  - left. discriminate.
Defined.

(** ** verify_dupes: records are confirmed in pairs *)

Lemma filter_two_positions {A : Type} (P : A → Prop) `{!∀ x, Decision (P x)}
    (l : list A) :
  (2 ≤ length (filter P l))%nat →
  ∀ i, ∃ j x, j ≠ i ∧ l !! j = Some x ∧ P x.
Proof.
  induction l as [|x l IH]; intros Hlen i; [simpl in Hlen; lia|].
  rewrite filter_cons in Hlen. destruct (decide (P x)) as [HP|HP].
  - destruct i as [|i]; [|by exists 0%nat, x].
    destruct (filter P l) as [|y k] eqn:Hfilter; [simpl in Hlen; lia|].
    assert (y ∈ filter P l) as [Hy Hin]%list_elem_of_filter
      by (rewrite Hfilter; by left).
    apply list_elem_of_lookup_1 in Hin as [j Hj]. by exists (S j), y.
  - destruct i as [|i].
    + destruct (IH Hlen 0%nat) as (j & y & _ & Hj & Hy). by exists (S j), y.
    + destruct (IH Hlen i) as (j & y & Hne & Hj & Hy). exists (S j), y.
      split; [lia|done].
Qed.

Lemma submseteq_two_positions `{!EqDecision A} (l1 l2 : list A) :
  l1 ⊆+ l2 → (2 ≤ length l1)%nat →
  ∀ i, ∃ j x, j ≠ i ∧ l2 !! j = Some x ∧ x ∈ l1.
Proof.
  intros Hsub Hlen. apply (filter_two_positions (λ x, x ∈ l1) l2).
  apply (filter_submseteq_mono (λ x, x ∈ l1)) in Hsub.
  rewrite (filter_all (λ x, x ∈ l1) l1) in Hsub by done.
  apply submseteq_length in Hsub. lia.
Qed.

Lemma dict_alter_other {A : Type} (h : list A → list A) key
    (d : list (string * list A)) :
  key ∉ d.*1 → dict_alter h key d = d.
Proof.
  unfold dict_alter. induction d as [|[k v] d IH]; intros Hin; [done|].
  rewrite fmap_cons in Hin. apply not_elem_of_cons in Hin as [Hne Hin].
  cbn [map]. rewrite decide_False by (simpl in *; congruence).
  by rewrite IH.
Qed.

Lemma dict_append_concat {A : Type} key (x : A) d :
  NoDup d.*1 → concat (dict_append key x d).*2 ≡ₚ concat d.*2 ++ [x].
Proof.
  intros Hnd. unfold dict_append. destruct (dict_has key d) eqn:Hhas.
  - apply dict_has_true in Hhas.
    induction d as [|[k v] d IH]; [by apply elem_of_nil in Hhas|].
    rewrite fmap_cons in Hnd. apply NoDup_cons in Hnd as [Hk Hnd].
    cbn [fst] in Hk. unfold dict_alter in *. cbn [map].
    rewrite !fmap_cons, !concat_cons. cbn [fst snd].
    destruct (decide (k = key)) as [->|Hne]; cbn [snd].
    + fold (dict_alter (λ v, v ++ [x]) key d).
      rewrite dict_alter_other by done.
      rewrite <- !app_assoc. f_equiv. apply Permutation_app_comm.
    + rewrite <- app_assoc. f_equiv. apply IH; [done|].
      rewrite fmap_cons in Hhas. apply elem_of_cons in Hhas as [?|?]; [|done].
      simpl in *. congruence.
  - rewrite fmap_app, concat_app. f_equiv. cbn [fmap list_fmap snd concat].
    by rewrite app_nil_r.
Qed.

Lemma sample_files_concat w cfg fl : ∀ dups n dups' n' ev,
  sample_files w cfg fl dups n = (Ok (dups', n'), ev) →
  NoDup dups.*1 →
  concat dups'.*2 ⊆+ concat dups.*2 ++ (entry_of <$> fl).
Proof.
  induction fl as [|f fl IH]; intros dups n dups' n' ev.
  - intros [= <- <- <-] _. by rewrite app_nil_r.
  - cbn [sample_files]. rewrite fmap_cons.
    destruct (sample_file w cfg f) as [[bytehash| |e] ev0]; [| |done].
    + destruct (sample_files w cfg fl _ _) as [r ev1] eqn:Hrest.
      intros [= -> <-] Hnd.
      rewrite (IH _ _ _ _ _ Hrest) by (by apply dict_append_keys_NoDup).
      rewrite dict_append_concat by done.
      by rewrite <- app_assoc.
    + destruct (sample_files w cfg fl _ _) as [r ev1] eqn:Hrest.
      intros [= -> <-] Hnd. rewrite (IH _ _ _ _ _ Hrest) by done.
      apply submseteq_app; [done|]. by apply submseteq_cons.
Qed.

Lemma drop_singletons_concat {A : Type} (d : list (string * list A)) :
  concat (drop_singletons d).*2 ⊆+ concat d.*2.
Proof.
  unfold drop_singletons. rewrite dict_del_keys.
  generalize (filter (λ kv : string * list A, (length kv.2 < 2)%nat) d).*1.
  intros ks. induction d as [|kv d IH]; [done|].
  rewrite filter_cons. case_decide.
  - rewrite !fmap_cons, !concat_cons. by apply submseteq_app.
  - rewrite fmap_cons, concat_cons. by apply submseteq_inserts_l.
Qed.

Lemma put_of_name w cfg cliargs e r :
  put_of w cfg (item_of cliargs e) = Some r →
  r.1 = e.1.1 ∧ md5_of_file w cfg e.1.1 = Some (Ok r.2).
Proof.
  unfold put_of, item_of.
  destruct (md5_hasher w cfg _) as [[[r'|]|e'|] ev] eqn:Hit; try done.
  intros [= ->]. by apply md5_hasher_put in Hit.
Qed.

Lemma names_with_entries w cfg cliargs h (es : list Entry) :
  names_with h (omap (put_of w cfg) (item_of cliargs <$> es)) ⊆+ es.*1.*1.
Proof.
  unfold names_with. induction es as [|e es IH]; [done|].
  rewrite !fmap_cons. cbn [omap list_omap].
  destruct (put_of w cfg (item_of cliargs e)) as [r|] eqn:Hput.
  - apply put_of_name in Hput as [Hname _]. rewrite filter_cons.
    case_decide; [|by apply submseteq_cons].
    rewrite fmap_cons, Hname. by apply submseteq_skip.
  - by apply submseteq_cons.
Qed.

(** The hashed names are names of records of the group, each record
    counted at most once. *)
Lemma hashed_names_members w cfg g cliargs h :
  hashed_names w cfg g cliargs h ⊆+ filename <$> files g.
Proof.
  unfold hashed_names.
  destruct (sample_files w cfg (files g) [] 0) as [[[dups n]|e] ev] eqn:Hs;
    [|apply submseteq_nil_l].
  transitivity (names_with h (omap (put_of w cfg)
                                (item_of cliargs <$> (entry_of <$> files g)))).
  - apply names_with_mono, omap_submseteq_mono, fmap_submseteq.
    rewrite drop_singletons_concat.
    by rewrite (sample_files_concat _ _ _ _ _ _ _ _ Hs (NoDup_nil_2)).
  - rewrite names_with_entries. rewrite <- !list_fmap_compose. done.
Qed.

Lemma hashed_names_digest w cfg g cliargs g' ev h name :
  fair_pool w →
  verify_dupes w cfg g cliargs = (Returned (Some g'), ev) →
  name ∈ hashed_names w cfg g cliargs h →
  md5_of_file w cfg name = Some (Ok h).
Proof.
  intros Hfair Hv Hin.
  rewrite <- (md5_groups_get _ _ _ _ _ _ h Hfair Hv) in Hin.
  destruct (dict_get h (md5_groups w cfg g cliargs)) as [v|] eqn:Hget;
    [|by apply elem_of_nil in Hin].
  apply dict_get_elem in Hget.
  by apply (md5_groups_sound w cfg g cliargs Hfair h v).
Qed.

(** X17.  No record is confirmed alone: when [verify_dupes] gives a
    record a new [md5], there is a record at another position of the
    group that is given the same [md5], and the files of both have that
    MD5 digest (block size other than 0). *)
Theorem verify_dupes_marks_in_pairs (w : World) (cfg : Config)
    (g g' : HashGroup) (cliargs : Cliargs) (ev : list Event) (i : nat)
    (f f' : FileRecord) :
  fair_pool w → md5_readsize cfg ≠ 0 →
  verify_dupes w cfg g cliargs = (Returned (Some g'), ev) →
  files g !! i = Some f → files g' !! i = Some f' → md5 f' ≠ md5 f →
  ∃ j f2 file file2,
    j ≠ i ∧ files g !! j = Some f2
    ∧ files g' !! j = Some (set_md5 (md5 f') f2)
    ∧ fs w !! filename f = Some file ∧ fs w !! filename f2 = Some file2
    ∧ MD5.hexdigest (data file) = md5 f'
    ∧ MD5.hexdigest (data file2) = md5 f'.
Proof.
  intros Hfair Hrs Hv Hi Hi' Hnew.
  pose proof (verify_dupes_confirmed _ _ _ _ _ _ Hfair Hv) as Hg'.
  rewrite Hg' in Hi'. cbn [files] in Hi'.
  rewrite list_lookup_fmap, Hi in Hi'. injection Hi' as <-.
  unfold confirmed in Hnew |- *.
  destruct (md5_of_file w cfg (filename f)) as [[h|e]|] eqn:Hmd5; try done.
  case_bool_decide as Hmarked; [|done]. destruct Hmarked as [Hlen Hin].
  cbn [md5 set_md5] in *.
  destruct (submseteq_two_positions _ _
              (hashed_names_members w cfg g cliargs h) Hlen i)
    as (j & name2 & Hne & Hj & Hin2).
  rewrite list_lookup_fmap in Hj.
  destruct (files g !! j) as [f2|] eqn:Hf2; [|done]. injection Hj as <-.
  pose proof (hashed_names_digest _ _ _ _ _ _ _ _ Hfair Hv Hin2) as Hmd5'.
  destruct (md5_of_file_sound w cfg _ _ Hrs Hmd5) as (file & Hfile & Hh).
  destruct (md5_of_file_sound w cfg _ _ Hrs Hmd5') as (file2 & Hfile2 & Hh2).
  exists j, f2, file, file2. split; [done|]. split; [done|].
  split; [|by repeat split].
  rewrite Hg'. cbn [files]. rewrite list_lookup_fmap, Hf2. cbn.
  unfold confirmed. rewrite Hmd5'. by rewrite bool_decide_eq_true_2.
Qed.

Lemma verify_dupes_marks_in_pairs_witness :
  ∃ j f2 file file2,
    j ≠ 1%nat
    ∧ files (group_of_names [ "/data/c"; "/data/a"; "/data/gone"; "/data/b" ]) !! j
      = Some f2
    ∧ files {| filehash := "f1";
               files := [ example_record "/data/c" "2019-03-01T12:00:00";
                          set_md5 "5eb63bbbe01eeed093cb22bb8f5acdc3"
                            (example_record "/data/a" "2019-03-01T12:00:00");
                          example_record "/data/gone" "2019-03-01T12:00:00";
                          set_md5 "5eb63bbbe01eeed093cb22bb8f5acdc3"
                            (example_record "/data/b" "2019-03-01T12:00:00") ] |}
        !! j
      = Some (set_md5 (md5 (set_md5 "5eb63bbbe01eeed093cb22bb8f5acdc3"
                              (example_record "/data/a" "2019-03-01T12:00:00")))
                f2)
    ∧ fs text_world !! filename (example_record "/data/a" "2019-03-01T12:00:00")
      = Some file
    ∧ fs text_world !! filename f2 = Some file2
    ∧ MD5.hexdigest (data file)
      = md5 (set_md5 "5eb63bbbe01eeed093cb22bb8f5acdc3"
               (example_record "/data/a" "2019-03-01T12:00:00"))
    ∧ MD5.hexdigest (data file2)
      = md5 (set_md5 "5eb63bbbe01eeed093cb22bb8f5acdc3"
               (example_record "/data/a" "2019-03-01T12:00:00")).
Proof.
  apply (verify_dupes_marks_in_pairs text_world (example_cfg 4 "true")
           (group_of_names [ "/data/c"; "/data/a"; "/data/gone"; "/data/b" ])
           _ example_cliargs
           (verify_dupes text_world (example_cfg 4 "true")
              (group_of_names [ "/data/c"; "/data/a"; "/data/gone"; "/data/b" ])
              example_cliargs).2
           1%nat
           (example_record "/data/a" "2019-03-01T12:00:00")
           (set_md5 "5eb63bbbe01eeed093cb22bb8f5acdc3"
              (example_record "/data/a" "2019-03-01T12:00:00"))).
  - apply example_world_fair.
  - discriminate.
  - by vm_compute.
  - reflexivity.
  - reflexivity.
  - discriminate.
Defined.

(** ** verify_dupes: the order of the worker results *)

Section schedules.

Variables w w' : World.
Hypothesis same_fs : fs w = fs w'.
Hypothesis same_clock : mktime_strptime w = mktime_strptime w'.
Hypothesis same_memory : max_alloc w = max_alloc w'.

Lemma restore_times_schedule cfg name at_ mt :
  restore_times w' cfg name at_ mt = restore_times w cfg name at_ mt.
Proof. unfold restore_times, os_utime. by rewrite same_fs, same_clock. Qed.

Lemma sample_file_schedule cfg f : sample_file w' cfg f = sample_file w cfg f.
Proof.
  unfold sample_file, py_open. rewrite same_fs, same_memory.
  destruct (fs w' !! filename f); [|done].
  destruct (sample_head _ _) as [[[bytes_f h]| |e] ev]; try done.
  destruct (sample_tail _ _) as [[bytes_l| |e] ev']; try done.
  by rewrite restore_times_schedule.
Qed.

Lemma sample_files_schedule cfg fl dups n :
  sample_files w' cfg fl dups n = sample_files w cfg fl dups n.
Proof.
  revert dups n. induction fl as [|f fl IH]; intros dups n; [done|].
  cbn [sample_files]. rewrite sample_file_schedule.
  destruct (sample_file w cfg f) as [[bytehash| |e] ev]; [| |done];
    by rewrite IH.
Qed.

Lemma md5_of_file_schedule cfg name :
  md5_of_file w' cfg name = md5_of_file w cfg name.
Proof. unfold md5_of_file, py_open. by rewrite same_fs, same_memory. Qed.

Lemma md5_hasher_schedule cfg item :
  md5_hasher w' cfg item = md5_hasher w cfg item.
Proof.
  destruct item as [[[name at_] mt] cli]. unfold md5_hasher.
  rewrite md5_of_file_schedule.
  destruct (md5_of_file w cfg name) as [[h|e]|]; [|done|done].
  by rewrite restore_times_schedule.
Qed.

Lemma pool_results_schedule cfg items :
  pool_results w' cfg items = pool_results w cfg items.
Proof.
  induction items as [|it items IH]; [done|].
  cbn [pool_results]. by rewrite md5_hasher_schedule, IH.
Qed.

Lemma put_of_schedule cfg item : put_of w' cfg item = put_of w cfg item.
Proof. unfold put_of. by rewrite md5_hasher_schedule. Qed.

Lemma hashed_names_schedule cfg g cliargs h :
  hashed_names w' cfg g cliargs h = hashed_names w cfg g cliargs h.
Proof.
  unfold hashed_names. rewrite sample_files_schedule.
  destruct (sample_files w cfg (files g) [] 0) as [[[dups n]|e] ev]; [|done].
  assert (∀ l : list Item, omap (put_of w' cfg) l = omap (put_of w cfg) l) as Hput.
  { induction l as [|it l IH]; [done|]. cbn [omap list_omap].
    by rewrite put_of_schedule, IH. }
  by rewrite Hput.
Qed.

Lemma confirmed_schedule cfg g cliargs f :
  confirmed w' cfg g cliargs f = confirmed w cfg g cliargs f.
Proof.
  unfold confirmed. rewrite md5_of_file_schedule.
  destruct (md5_of_file w cfg (filename f)) as [[h|e]|]; [|done|done].
  by rewrite hashed_names_schedule.
Qed.

Hypothesis fair : fair_pool w.
Hypothesis fair' : fair_pool w'.

Lemma hash_buckets_schedule cfg cliargs buckets : ∀ d d',
  (hash_buckets w' cfg cliargs buckets d').2
  ≡ₚ (hash_buckets w cfg cliargs buckets d).2
  ∧ match (hash_buckets w cfg cliargs buckets d).1,
          (hash_buckets w' cfg cliargs buckets d').1 with
    | Returned _, Returned _ => True
    | Blocked, Blocked => True
    | _, _ => False
    end.
Proof.
  induction buckets as [|[key value] buckets IH]; intros d d'; [done|].
  cbn [hash_buckets]. unfold join_pool.
  rewrite pool_results_schedule.
  destruct (_ <$> value) as [|it items]; [done|].
  destruct (start_file_threads cfg =? 0)%nat; [done|].
  pose proof (pool_results_not_raised w cfg (it :: items)) as Hpool.
  destruct (pool_results w cfg (it :: items)) as [[rs|e|] ev0];
    [|by destruct (Hpool e ev0)|done].
  pose proof (Permutation_length (fair rs)) as Hlen.
  pose proof (Permutation_length (fair' rs)) as Hlen'.
  assert (by_rank (event_rank w' ev0) ev0 ≡ₚ by_rank (event_rank w ev0) ev0)
    as Hranked by (by rewrite !by_rank_Permutation).
  unfold drain.
  destruct (pool_order w rs) as [|r out_q], (pool_order w' rs) as [|r' out_q'];
    simpl in Hlen, Hlen'; try lia; [done|].
  match goal with
  | |- context [hash_buckets w cfg cliargs buckets ?d1] =>
      match goal with
      | |- context [hash_buckets w' cfg cliargs buckets ?d1'] =>
          destruct (IH d1 d1') as [Hev Hkind];
          destruct (hash_buckets w cfg cliargs buckets d1) as [o ev1],
                   (hash_buckets w' cfg cliargs buckets d1') as [o' ev1']
      end
  end.
  cbn [fst snd] in *. split; [|done]. by rewrite Hranked, Hev.
Qed.

Lemma verify_dupes_schedule_kind cfg g cliargs :
  (verify_dupes w' cfg g cliargs).2 ≡ₚ (verify_dupes w cfg g cliargs).2
  ∧ same_kind (verify_dupes w cfg g cliargs).1 (verify_dupes w' cfg g cliargs).1.
Proof.
  unfold verify_dupes. rewrite sample_files_schedule.
  destruct (sample_files w cfg (files g) [] 0) as [[[dups n]|e] ev]; [|done].
  destruct (n =? 0); [done|].
  destruct (drop_singletons dups) as [|b bs]; [done|].
  destruct (hash_buckets_schedule cfg cliargs (b :: bs) [] []) as [Hev Hkind].
  pose proof (hash_buckets_nonempty w cfg cliargs (b :: bs) []) as Hne.
  pose proof (hash_buckets_nonempty w' cfg cliargs (b :: bs) []) as Hne'.
  destruct (hash_buckets w cfg cliargs (b :: bs) []) as [[d1|e|] ev1],
           (hash_buckets w' cfg cliargs (b :: bs) []) as [[d1'|e'|] ev1'];
    cbn [fst snd] in *; try done; [|by rewrite Hev].
  assert (b :: bs ≠ [] ∨ @nil (string * list string) ≠ []) as Hsome
    by (by left).
  destruct d1 as [|kv d1]; [by destruct (Hne [] ev1 eq_refl Hsome)|].
  destruct d1' as [|kv' d1']; [by destruct (Hne' [] ev1' eq_refl Hsome)|].
  cbn [fst snd]. by rewrite Hev.
Qed.

(** X18.  What [verify_dupes] returns does not depend on the schedule of
    the worker threads: in two worlds with the same files, clock and
    memory, whose pools put the results of a bucket in any order and let
    the workers' warnings and [os.utime] calls happen in any order,
    [verify_dupes] ends in the same way (the same exception, the same
    wait, [None], or the group with the same [md5] for every record),
    and the events of the two calls are the same up to their order. *)
Theorem verify_dupes_schedule_independent (cfg : Config) (g : HashGroup)
    (cliargs : Cliargs) :
  (verify_dupes w' cfg g cliargs).1 = (verify_dupes w cfg g cliargs).1
  ∧ (verify_dupes w' cfg g cliargs).2 ≡ₚ (verify_dupes w cfg g cliargs).2.
Proof.
  destruct (verify_dupes_schedule_kind cfg g cliargs) as [Hev Hkind].
  split; [|done].
  pose proof (λ g' ev, verify_dupes_confirmed w cfg g cliargs g' ev fair) as Hw.
  pose proof (λ g' ev, verify_dupes_confirmed w' cfg g cliargs g' ev fair') as Hw'.
  destruct (verify_dupes w cfg g cliargs) as [o ev],
           (verify_dupes w' cfg g cliargs) as [o' ev'].
  cbn [fst snd] in *. unfold same_kind in Hkind.
  destruct o as [[g1|]|e|], o' as [[g1'|]|e'|]; try done; [|by subst e'].
  rewrite (Hw g1 ev eq_refl), (Hw' g1' ev' eq_refl). do 3 f_equal.
  apply list_fmap_ext. intros i f _. apply confirmed_schedule.
Qed.

End schedules.

Lemma verify_dupes_schedule_independent_witness :
  (verify_dupes (example_world
                   [ ("/data/a", plain_file (list_byte_of_string "hello world"));
                     ("/data/b", plain_file (list_byte_of_string "hello world"));
                     ("/data/c", plain_file (list_byte_of_string "hello_world")) ])
     (example_cfg 4 "true") (group_of_names [ "/data/c"; "/data/a"; "/data/b" ])
     example_cliargs).1
  = (verify_dupes {| fs := fs text_world;
                     mktime_strptime := mktime_strptime text_world;
                     pool_order := id;
                     event_rank := λ _ i, i;
                     max_alloc := max_alloc text_world |}
       (example_cfg 4 "true") (group_of_names [ "/data/c"; "/data/a"; "/data/b" ])
       example_cliargs).1
  ∧ (verify_dupes (example_world
                     [ ("/data/a", plain_file (list_byte_of_string "hello world"));
                       ("/data/b", plain_file (list_byte_of_string "hello world"));
                       ("/data/c", plain_file (list_byte_of_string "hello_world")) ])
       (example_cfg 4 "true") (group_of_names [ "/data/c"; "/data/a"; "/data/b" ])
       example_cliargs).2
    ≡ₚ (verify_dupes {| fs := fs text_world;
                        mktime_strptime := mktime_strptime text_world;
                        pool_order := id;
                        event_rank := λ _ i, i;
                        max_alloc := max_alloc text_world |}
          (example_cfg 4 "true") (group_of_names [ "/data/c"; "/data/a"; "/data/b" ])
          example_cliargs).2.
Proof.
  apply (verify_dupes_schedule_independent
           {| fs := fs text_world; mktime_strptime := mktime_strptime text_world;
              pool_order := id; event_rank := λ _ i, i;
              max_alloc := max_alloc text_world |}
           text_world).
  - reflexivity.
  - reflexivity.
  - reflexivity.
  - intros l. reflexivity.
  - apply example_world_fair.
Defined.

(** ** verify_dupes: what it reads of the records *)

Lemma sample_file_entry w cfg f f' :
  entry_of f = entry_of f' → sample_file w cfg f = sample_file w cfg f'.
Proof.
  unfold entry_of. intros [= Hname Hat Hmt]. unfold sample_file.
  by rewrite Hname, Hat, Hmt.
Qed.

Lemma sample_files_entries w cfg fl : ∀ fl' dups n,
  entry_of <$> fl = entry_of <$> fl' →
  sample_files w cfg fl dups n = sample_files w cfg fl' dups n.
Proof.
  induction fl as [|f fl IH]; intros [|f' fl'] dups n Heq; try done.
  rewrite !fmap_cons in Heq. injection Heq as Hname Hat Hmt Hfl.
  cbn [sample_files].
  rewrite (sample_file_entry w cfg f f') by (unfold entry_of; congruence).
  rewrite Hname, Hat, Hmt.
  destruct (sample_file w cfg f') as [[bytehash| |e] ev]; [| |done];
    by rewrite (IH fl').
Qed.

Lemma mark_entry d f : entry_of (mark d f) = entry_of f.
Proof.
  unfold entry_of. by destruct (mark_frame d f) as (_ & -> & -> & ->).
Qed.

Lemma mark_idempotent d f : mark d (mark d f) = mark d f.
Proof.
  rewrite (mark_by_key d (mark d f)).
  destruct (mark_frame d f) as (_ & -> & _). rewrite (mark_by_key d f).
  by destruct (mark_key d (filename f)).
Qed.

Lemma verify_dupes_returned_inv w cfg g cliargs g' ev :
  verify_dupes w cfg g cliargs = (Returned (Some g'), ev) →
  ∃ dups n ev0 d ev1,
    sample_files w cfg (files g) [] 0 = (Ok (dups, n), ev0)
    ∧ (n =? 0) = false
    ∧ drop_singletons dups ≠ []
    ∧ hash_buckets w cfg cliargs (drop_singletons dups) [] = (Returned d, ev1)
    ∧ d ≠ []
    ∧ ev = ev0 ++ ev1
    ∧ g' = {| filehash := filehash g; files := update_md5 d (files g) |}.
Proof.
  unfold verify_dupes.
  destruct (sample_files w cfg (files g) [] 0) as [[[dups n]|e] ev0]; [|done].
  destruct (n =? 0) eqn:Hn; [done|].
  destruct (drop_singletons dups) as [|b bs] eqn:Hdrop; [done|].
  destruct (hash_buckets w cfg cliargs (b :: bs) []) as [[d|e|] ev1] eqn:Hhash;
    try done.
  destruct d as [|kv d']; [done|]. intros [= <- <-].
  exists dups, n, ev0, (kv :: d'), ev1. rewrite Hdrop. by repeat split.
Qed.

(** X19.  [verify_dupes] reads only the names and the recorded times of
    the records, so verifying the group it returned once more, with the
    files as they were, changes nothing: the same group is returned. *)
Theorem verify_dupes_idempotent (w : World) (cfg : Config) (g g' : HashGroup)
    (cliargs : Cliargs) (ev : list Event) :
  verify_dupes w cfg g cliargs = (Returned (Some g'), ev) →
  verify_dupes w cfg g' cliargs = (Returned (Some g'), ev).
Proof.
  intros Hv.
  destruct (verify_dupes_returned_inv _ _ _ _ _ _ Hv)
    as (dups & n & ev0 & d & ev1 & Hs & Hn & Hdrop & Hhash & Hd & -> & ->).
  unfold verify_dupes. cbn [files filehash].
  rewrite (sample_files_entries w cfg _ (files g)).
  - rewrite Hs, Hn. destruct (drop_singletons dups) as [|b bs]; [done|].
    rewrite Hhash. destruct d as [|kv d']; [done|]. do 4 f_equal.
    rewrite !update_md5_map, <- list_fmap_compose. apply list_fmap_ext.
    intros i f _. apply mark_idempotent.
  - rewrite update_md5_map, <- list_fmap_compose. apply list_fmap_ext.
    intros i f _. apply mark_entry.
Qed.

Lemma verify_dupes_idempotent_witness :
  verify_dupes text_world (example_cfg 4 "true")
    {| filehash := "f1";
       files := [ example_record "/data/c" "2019-03-01T12:00:00";
                  set_md5 "5eb63bbbe01eeed093cb22bb8f5acdc3"
                    (example_record "/data/a" "2019-03-01T12:00:00");
                  set_md5 "5eb63bbbe01eeed093cb22bb8f5acdc3"
                    (example_record "/data/b" "2019-03-01T12:00:00") ] |}
    example_cliargs
  = (Returned
       (Some {| filehash := "f1";
                files := [ example_record "/data/c" "2019-03-01T12:00:00";
                           set_md5 "5eb63bbbe01eeed093cb22bb8f5acdc3"
                             (example_record "/data/a" "2019-03-01T12:00:00");
                           set_md5 "5eb63bbbe01eeed093cb22bb8f5acdc3"
                             (example_record "/data/b" "2019-03-01T12:00:00") ] |}),
     (verify_dupes text_world (example_cfg 4 "true")
        (group_of_names [ "/data/c"; "/data/a"; "/data/b" ]) example_cliargs).2).
Proof.
  apply (verify_dupes_idempotent text_world (example_cfg 4 "true")
           (group_of_names [ "/data/c"; "/data/a"; "/data/b" ])).
  by vm_compute.
Defined.

(** ** verify_dupes: when it waits for ever *)

Lemma md5_hasher_not_blocked w cfg item ev : md5_hasher w cfg item ≠ (Blocked, ev).
Proof.
  destruct item as [[[name at_] mt] cli]. unfold md5_hasher.
  destruct (md5_of_file_total w cfg name) as [[h|[]] ->]; try done.
  by destruct (restore_times w cfg name at_ mt) as [[[]|[]] ev'].
Qed.

Lemma pool_results_total w cfg items :
  ∃ ev, pool_results w cfg items = (Returned (omap (put_of w cfg) items), ev).
Proof.
  induction items as [|it items [ev' IH]]; [by eexists|].
  cbn [pool_results omap list_omap]. unfold put_of at 1.
  pose proof (md5_hasher_not_raised w cfg it) as Hraised.
  pose proof (md5_hasher_not_blocked w cfg it) as Hblocked.
  destruct (md5_hasher w cfg it) as [[r|e|] ev];
    [|by destruct (Hraised e ev)|by destruct (Hblocked ev)].
  rewrite IH. cbn [fst]. destruct r; by eexists.
Qed.

Lemma omap_nil {A B : Type} (f : A → option B) (l : list A) :
  omap f l = [] ↔ ∀ x, x ∈ l → f x = None.
Proof.
  induction l as [|x l IH]; cbn [omap list_omap].
  - split; [|done]. intros _ x Hx. by apply elem_of_nil in Hx.
  - destruct (f x) as [y|] eqn:Hfx.
    + split; [done|]. intros Hall. specialize (Hall x ltac:(by left)). congruence.
    + rewrite IH. split.
      * intros Hall y [->|Hy]%elem_of_cons; [done|by apply Hall].
      * intros Hall y Hy. apply Hall. by right.
Qed.

(** With workers, the hash stage waits for ever exactly when all the
    items of some bucket are dropped. *)
Lemma hash_buckets_blocked_iff w cfg cliargs buckets : ∀ d,
  fair_pool w → 0 < dupes_threads cfg →
  (∀ kv, kv ∈ buckets → kv.2 ≠ []) →
  (hash_buckets w cfg cliargs buckets d).1 = Blocked
  ↔ ∃ kv, kv ∈ buckets
          ∧ ∀ e, e ∈ kv.2 → put_of w cfg (item_of cliargs e) = None.
Proof.
  induction buckets as [|[key value] buckets IH]; intros d Hfair Hthreads Hne.
  - split; [done|]. intros (kv & Hkv & _). by apply elem_of_nil in Hkv.
  - cbn [hash_buckets]. fold (item_of cliargs). unfold join_pool, start_file_threads.
    specialize (Hne (key, value) ltac:(by left)) as Hvalue. cbn [snd] in Hvalue.
    destruct (pool_results_total w cfg (item_of cliargs <$> value)) as [ev Hres].
    destruct (item_of cliargs <$> value) as [|it items] eqn:Hitems;
      [by destruct value|].
    destruct (Nat.eqb_spec (Z.to_nat (dupes_threads cfg)) 0); [lia|].
    rewrite Hres. unfold drain.
    pose proof (Permutation_length (Hfair (omap (put_of w cfg) (it :: items))))
      as Hlen.
    destruct (pool_order w (omap (put_of w cfg) (it :: items))) as [|r out_q].
    + (* every item of this bucket was dropped *)
      split; [intros _|done]. exists (key, value). split; [by left|].
      intros e He. cbn [snd] in He.
      symmetry in Hlen. apply length_zero_iff_nil in Hlen.
      rewrite <- Hitems in Hlen.
      apply (proj1 (omap_nil _ _) Hlen). apply list_elem_of_fmap. by exists e.
    + match goal with
      | |- context [hash_buckets w cfg cliargs buckets ?d1] =>
          specialize (IH d1 Hfair Hthreads);
          destruct (hash_buckets w cfg cliargs buckets d1) as [o ev1]
      end.
      cbn [fst] in *. rewrite IH by (intros kv Hkv; apply Hne; by right).
      split.
      * intros (kv & Hkv & Hall). exists kv. split; [by right|done].
      * intros (kv & [->|Hkv]%elem_of_cons & Hall); [|by exists kv].
        exfalso. cbn [snd] in Hall.
        assert (omap (put_of w cfg) (it :: items) = []) as Hnil.
        { rewrite <- Hitems. apply omap_nil.
          intros x (e & -> & He)%list_elem_of_fmap. by apply Hall. }
        rewrite Hnil in Hlen. simpl in Hlen. lia.
Qed.

Lemma sample_files_count w cfg fl : ∀ dups n dups' n' ev,
  sample_files w cfg fl dups n = (Ok (dups', n'), ev) →
  n' = n + Z.of_nat (length (filter (λ f, is_Some (sig_of w cfg f)) fl)).
Proof.
  induction fl as [|f fl IH]; intros dups n dups' n' ev.
  - intros [= <- <- <-]. simpl. lia.
  - cbn [sample_files].
    destruct (sample_file w cfg f) as [[bytehash| |e] ev0] eqn:Hf; [| |done].
    + assert (sig_of w cfg f = Some bytehash) as Hsig
        by (unfold sig_of; by rewrite Hf).
      destruct (sample_files w cfg fl _ _) as [r ev1] eqn:Hrest.
      intros [= -> <-]. rewrite (IH _ _ _ _ _ Hrest).
      rewrite filter_cons_True by (rewrite Hsig; by eexists). simpl. lia.
    + assert (sig_of w cfg f = None) as Hsig
        by (unfold sig_of; by rewrite Hf).
      destruct (sample_files w cfg fl _ _) as [r ev1] eqn:Hrest.
      intros [= -> <-]. rewrite (IH _ _ _ _ _ Hrest).
      rewrite filter_cons_False; [done|]. rewrite Hsig. by intros [? ?].
Qed.

Lemma sample_files_ends w cfg fl : ∀ dups n,
  (∀ f, f ∈ fl → ∀ e ev, sample_file w cfg f ≠ (Throw e, ev)) →
  ∃ r ev, sample_files w cfg fl dups n = (Ok r, ev).
Proof.
  induction fl as [|f fl IH]; intros dups n Hthrow; [by eexists _, _|].
  cbn [sample_files].
  pose proof (Hthrow f ltac:(by left)) as Hf.
  destruct (sample_file w cfg f) as [[bytehash| |e] ev0];
    [| |by destruct (Hf e ev0)].
  - destruct (IH (dict_append bytehash (filename f, atime f, mtime f) dups) (n + 1))
      as (r & ev & ->); [intros f' Hf'; apply Hthrow; by right|].
    by eexists _, _.
  - destruct (IH dups n) as (r & ev & ->);
      [intros f' Hf'; apply Hthrow; by right|].
    by eexists _, _.
Qed.

(** The buckets that are hashed, in terms of the records. *)
Lemma hashed_bucket w cfg g dups n ev kv :
  sample_files w cfg (files g) [] 0 = (Ok (dups, n), ev) →
  kv ∈ drop_singletons dups
  ↔ kv.2 = entry_of <$> filter (λ f, sig_of w cfg f = Some kv.1) (files g)
    ∧ (2 ≤ length kv.2)%nat.
Proof.
  intros Hs. destruct kv as [s v]. cbn [fst snd].
  pose proof (sample_files_NoDup _ _ _ _ _ _ _ _ Hs (NoDup_nil_2)) as Hnd.
  pose proof (sample_files_get _ _ _ _ _ _ _ _ Hs s) as Hget. simpl in Hget.
  rewrite drop_singletons_filter by done. rewrite list_elem_of_filter.
  cbn [snd]. split.
  - intros [Hlen Hin]. split; [|done].
    apply (dict_elem_get _ _ _ Hnd) in Hin. rewrite Hin in Hget.
    destruct (entry_of <$> filter _ (files g)); [done|]. by injection Hget.
  - intros [-> Hlen]. split; [done|]. apply dict_get_elem. rewrite Hget.
    destruct (entry_of <$> filter _ (files g)); [simpl in Hlen; lia|done].
Qed.

(** X20.  With worker threads that only reorder, [verify_dupes] waits
    for ever exactly when the sampling of the group raises nothing and
    there is a sample signature that two or more records of the group
    have and for none of which the worker puts a result: the [get()] on
    the empty [file_out_thread_q] after that bucket never returns. *)
Theorem verify_dupes_blocks_iff (w : World) (cfg : Config) (g : HashGroup)
    (cliargs : Cliargs) :
  fair_pool w → 0 < dupes_threads cfg →
  (verify_dupes w cfg g cliargs).1 = Blocked
  ↔ (∀ f, f ∈ files g → ∀ e ev, sample_file w cfg f ≠ (Throw e, ev))
    ∧ ∃ s, (2 ≤ length (filter (λ f, sig_of w cfg f = Some s) (files g)))%nat
           ∧ ∀ f, f ∈ files g → sig_of w cfg f = Some s →
                  put_of w cfg (item_of cliargs (entry_of f)) = None.
Proof.
  intros Hfair Hthreads. unfold verify_dupes. split.
  - destruct (sample_files w cfg (files g) [] 0) as [[[dups n]|e] ev] eqn:Hs;
      [|done].
    destruct (n =? 0); [done|].
    pose proof (λ kv, hashed_bucket w cfg g dups n ev kv Hs) as Hbucket.
    pose proof (hash_buckets_blocked_iff w cfg cliargs (drop_singletons dups) []
                  Hfair Hthreads) as Hiff.
    destruct (drop_singletons dups) as [|b bs] eqn:Hdrop; [done|].
    destruct (hash_buckets w cfg cliargs (b :: bs) []) as [[d|e|] ev'];
      [by destruct d|done|].
    intros _. split; [by eapply sample_files_no_throw|].
    assert (∀ kv, kv ∈ b :: bs → kv.2 ≠ []) as Hne.
    { intros kv [_ Hlen]%Hbucket. destruct (kv.2); [simpl in Hlen; lia|done]. }
    destruct (proj1 (Hiff Hne)) as ([s v] & Hkv & Hall); [done|].
    apply Hbucket in Hkv as [Hv Hlen]. cbn [fst snd] in *. exists s.
    split; [by rewrite Hv, length_fmap in Hlen|].
    intros f Hf Hsig. apply Hall. rewrite Hv. apply list_elem_of_fmap.
    exists f. split; [done|]. by apply list_elem_of_filter.
  - intros [Hthrow (s & Hlen & Hall)].
    destruct (sample_files_ends w cfg (files g) [] 0 Hthrow)
      as ([dups n] & ev & Hs).
    rewrite Hs. pose proof (sample_files_count _ _ _ _ _ _ _ _ Hs) as Hn.
    assert (2 ≤ n) as Hn2.
    { rewrite Hn.
      assert (filter (λ f, sig_of w cfg f = Some s) (files g)
              ⊆+ filter (λ f, is_Some (sig_of w cfg f)) (files g)) as Hsub.
      { rewrite <- (filter_all (λ f, is_Some (sig_of w cfg f))
                      (filter (λ f, sig_of w cfg f = Some s) (files g))).
        - apply filter_submseteq_mono, sublist_submseteq, sublist_filter.
        - intros f [Hsig _]%list_elem_of_filter. rewrite Hsig. by eexists. }
      apply submseteq_length in Hsub. lia. }
    destruct (Z.eqb_spec n 0); [lia|].
    pose proof (λ kv, hashed_bucket w cfg g dups n ev kv Hs) as Hbucket.
    pose proof (hash_buckets_blocked_iff w cfg cliargs (drop_singletons dups) []
                  Hfair Hthreads) as Hiff.
    assert ((s, entry_of <$> filter (λ f, sig_of w cfg f = Some s) (files g))
              ∈ drop_singletons dups) as Hkv.
    { apply Hbucket. cbn [fst snd]. by rewrite length_fmap. }
    destruct (drop_singletons dups) as [|b bs] eqn:Hdrop;
      [by apply elem_of_nil in Hkv|].
    assert (∀ kv, kv ∈ b :: bs → kv.2 ≠ []) as Hne.
    { intros kv [_ Hlen']%Hbucket. destruct (kv.2); [simpl in Hlen'; lia|done]. }
    assert ((hash_buckets w cfg cliargs (b :: bs) []).1 = Blocked) as Hblocked.
    { apply (Hiff Hne). eexists. split; [exact Hkv|]. cbn [snd].
      intros e (f & -> & [Hsig Hf]%list_elem_of_filter)%list_elem_of_fmap.
      by apply Hall. }
    by destruct (hash_buckets w cfg cliargs (b :: bs) []) as [[d|e|] ev'].
Qed.

Lemma verify_dupes_blocks_iff_witness :
  (verify_dupes damaged_world (example_cfg 64 "false")
     (group_of_names [ "/data/d1"; "/data/d2" ]) example_cliargs).1 = Blocked
  ↔ (∀ f, f ∈ files (group_of_names [ "/data/d1"; "/data/d2" ]) →
       ∀ e ev, sample_file damaged_world (example_cfg 64 "false") f ≠ (Throw e, ev))
    ∧ ∃ s, (2 ≤ length (filter (λ f, sig_of damaged_world (example_cfg 64 "false") f
                                      = Some s)
                          (files (group_of_names [ "/data/d1"; "/data/d2" ]))))%nat
           ∧ ∀ f, f ∈ files (group_of_names [ "/data/d1"; "/data/d2" ]) →
                  sig_of damaged_world (example_cfg 64 "false") f = Some s →
                  put_of damaged_world (example_cfg 64 "false")
                    (item_of example_cliargs (entry_of f)) = None.
Proof.
  apply (verify_dupes_blocks_iff damaged_world (example_cfg 64 "false")
           (group_of_names [ "/data/d1"; "/data/d2" ]) example_cliargs).
  - apply example_world_fair.
  - reflexivity.
Defined.

(** ** index_dupes on a verified group *)

(** X21.  What [index_dupes] sends for a group that [verify_dupes]
    returned: one bulk request with an update for every record of the
    group, confirmed or not, in order; the update for a record is
    addressed by the record's id and sets [dupe_md5] to the [md5] the
    record had before or to the MD5 digest of the content of its file
    (block size other than 0, worker threads that only reorder). *)
Theorem index_dupes_after_verify (w : World) (cfg : Config) (g g' : HashGroup)
    (cliargs : Cliargs) (ev : list Event) (bulk : list (list Json)) (i : nat)
    (f : FileRecord) :
  fair_pool w → md5_readsize cfg ≠ 0 →
  verify_dupes w cfg g cliargs = (Returned (Some g'), ev) →
  files g !! i = Some f →
  index_dupes g' cliargs bulk = bulk ++ [ file_id_list g' cliargs ]
  ∧ length (file_id_list g' cliargs) = length (files g)
  ∧ ∃ op h,
      file_id_list g' cliargs !! i = Some op
      ∧ json_get "_id" op = Some (JStr (file_id f))
      ∧ json_get "doc" op = Some (JDict [ ("dupe_md5", JStr h) ])
      ∧ (h = md5 f
         ∨ ∃ file, fs w !! filename f = Some file
                   ∧ h = MD5.hexdigest (data file)).
Proof.
  intros Hfair Hrs Hv Hf. apply verify_dupes_returned in Hv as ->.
  unfold index_dupes. rewrite file_id_list_map. cbn [files].
  rewrite update_md5_map, length_map, length_fmap.
  assert (0 < length (files g))%nat as Hlen
    by (apply lookup_lt_Some in Hf; lia).
  split; [by destruct (Nat.ltb_spec 0 (length (files g))); [|lia]|].
  split; [done|].
  exists (update_action cliargs (mark (md5_groups w cfg g cliargs) f)),
         (md5 (mark (md5_groups w cfg g cliargs) f)).
  split.
  { change (map (update_action cliargs)) with (fmap (M:=list) (update_action cliargs)).
    by rewrite !list_lookup_fmap, Hf. }
  destruct (mark_frame (md5_groups w cfg g cliargs) f) as (Hid & _).
  split; [simpl; by rewrite Hid|]. split; [done|].
  destruct (mark_md5 (md5_groups w cfg g cliargs) f)
    as [?|([key names] & Hkv & _ & Hname & Hmd5)]; [by left|].
  right. simpl in *. rewrite Hmd5.
  apply (md5_of_file_sound w cfg); [done|].
  by apply (md5_groups_sound w cfg g cliargs Hfair key names).
Qed.

Lemma index_dupes_after_verify_witness :
  index_dupes
    {| filehash := "f1";
       files := [ set_md5 "5eb63bbbe01eeed093cb22bb8f5acdc3"
                    (example_record "/data/a" "2019-03-01T12:00:00");
                  example_record "/data/c" "2019-03-01T12:00:00";
                  set_md5 "5eb63bbbe01eeed093cb22bb8f5acdc3"
                    (example_record "/data/b" "2019-03-01T12:00:00") ] |}
    example_cliargs []
  = [] ++ [ file_id_list
              {| filehash := "f1";
                 files := [ set_md5 "5eb63bbbe01eeed093cb22bb8f5acdc3"
                              (example_record "/data/a" "2019-03-01T12:00:00");
                            example_record "/data/c" "2019-03-01T12:00:00";
                            set_md5 "5eb63bbbe01eeed093cb22bb8f5acdc3"
                              (example_record "/data/b" "2019-03-01T12:00:00") ] |}
              example_cliargs ]
  ∧ length (file_id_list
              {| filehash := "f1";
                 files := [ set_md5 "5eb63bbbe01eeed093cb22bb8f5acdc3"
                              (example_record "/data/a" "2019-03-01T12:00:00");
                            example_record "/data/c" "2019-03-01T12:00:00";
                            set_md5 "5eb63bbbe01eeed093cb22bb8f5acdc3"
                              (example_record "/data/b" "2019-03-01T12:00:00") ] |}
              example_cliargs)
    = length (files (group_of_names [ "/data/a"; "/data/c"; "/data/b" ]))
  ∧ ∃ op h,
      file_id_list
        {| filehash := "f1";
           files := [ set_md5 "5eb63bbbe01eeed093cb22bb8f5acdc3"
                        (example_record "/data/a" "2019-03-01T12:00:00");
                      example_record "/data/c" "2019-03-01T12:00:00";
                      set_md5 "5eb63bbbe01eeed093cb22bb8f5acdc3"
                        (example_record "/data/b" "2019-03-01T12:00:00") ] |}
        example_cliargs !! 2%nat = Some op
      ∧ json_get "_id" op
        = Some (JStr (file_id (example_record "/data/b" "2019-03-01T12:00:00")))
      ∧ json_get "doc" op = Some (JDict [ ("dupe_md5", JStr h) ])
      ∧ (h = md5 (example_record "/data/b" "2019-03-01T12:00:00")
         ∨ ∃ file, fs text_world
                     !! filename (example_record "/data/b" "2019-03-01T12:00:00")
                   = Some file
                   ∧ h = MD5.hexdigest (data file)).
Proof.
  apply (index_dupes_after_verify text_world (example_cfg 4 "true")
           (group_of_names [ "/data/a"; "/data/c"; "/data/b" ]) _ example_cliargs
           (verify_dupes text_world (example_cfg 4 "true")
              (group_of_names [ "/data/a"; "/data/c"; "/data/b" ])
              example_cliargs).2).
  - apply example_world_fair.
  - discriminate.
  - by vm_compute.
  - reflexivity.
Defined.
